(** * The Shelf: rating aggregation and similarity recommendations

    A shallow embedding of the rating-aggregation and recommendation core of
    the backend:

    - [app/services/embeddings.py]       ([cosine_similarity]),
    - [app/models/multi_dimensional_rating.py] (the rating and fingerprint rows),
    - [app/routers/multi_dimensional_ratings.py] (rating upsert, fingerprint
      recompute),
    - [app/services/recommendations.py]  (similarity search, personalised
      recommendations, browse by mood).

    Conventions of the embedding.

    - A table is the list of its rows in the order a query without ORDER BY
      yields them; [select ... where] is [filter], so it keeps that order.
    - Python [int] is [Z].  The aggregates the database returns (SQL AVG) and
      the quotients Python forms from them are exact rationals [Q], and a
      [Float] column holds the rational it was given; [is_binary64] tells
      which rationals a float holds exactly, where the code depends on it.
    - [cosine_similarity] is the function over the real numbers [R], with a
      square root for [** 0.5].  The code computes it in binary floating
      point, so its scores can differ from the real ones in the last place.
      What is stated of the scores themselves is therefore stated in
      [Computed], where the searches take the scoring function as an
      argument and nothing is assumed of its arithmetic.
    - A Python function that can raise returns [result]; [Raise] carries the
      exception.
    - [func.now()] is the reading of the database clock, passed in as [now]. *)

From Stdlib Require Import ZArith QArith Reals String Ascii Bool List.
From Stdlib Require Import Lia Lra Permutation Sorted.
Import ListNotations.

Close Scope Q_scope.
Local Open Scope Z_scope.

(* ================================================================== *)
(** * Exceptions and the error monad *)

Inductive exn : Type :=
| ValueError (msg : string)
| ZeroDivisionError
| AttributeError (name : string)
| HTTPException (status_code : Z) (detail : string).

Inductive result (A : Type) : Type :=
| Ok (a : A)
| Raise (e : exn).

Arguments Ok {A} a.
Arguments Raise {A} e.

Definition bind {A B : Type} (m : result A) (k : A -> result B) : result B :=
  match m with
  | Ok a => k a
  | Raise e => Raise e
  end.

Notation "x <- m ;; k" := (bind m (fun x => k))
  (at level 61, m at next level, right associativity).
Notation "' pat <- m ;; k" := (bind m (fun x => match x with pat => k end))
  (at level 61, pat pattern, m at next level, right associativity).

(** A [for] loop whose body can raise: the loop stops at the first exception. *)
Fixpoint for_each {A S : Type} (body : S -> A -> result S) (l : list A) (s : S)
  : result S :=
  match l with
  | [] => Ok s
  | x :: l' => s' <- body s x ;; for_each body l' s'
  end.

(** A list comprehension whose element expression can raise. *)
Fixpoint map_result {A B : Type} (f : A -> result B) (l : list A)
  : result (list B) :=
  match l with
  | [] => Ok []
  | x :: l' => y <- f x ;; ys <- map_result f l' ;; Ok (y :: ys)
  end.

(* ================================================================== *)
(** * Python and SQL primitives *)

(** [l[:n]]: a non-negative bound keeps the first [n] items, a negative one
    drops the last [-n]. *)
Definition py_slice_to {A : Type} (n : Z) (l : list A) : list A :=
  if 0 <=? n then firstn (Z.to_nat n) l
  else firstn (length l - Z.to_nat (- n))%nat l.

(** [query.limit(n)] for a bound that is not negative.  PostgreSQL refuses a
    negative bound with an error; the embedding does not cover that case, and
    what is stated of a query with a caller's bound assumes [0 <= n]. *)
Definition sql_limit {A : Type} (n : Z) (l : list A) : list A :=
  firstn (Z.to_nat n) l.

(** [x in xs] on integers, also SQL [IN]. *)
Definition mem (x : Z) (xs : list Z) : bool := existsb (Z.eqb x) xs.

Definition sum_Z (l : list Z) : Z := fold_left Z.add l 0.

Definition sum_Q (l : list Q) : Q := fold_left Qplus l (0 # 1)%Q.

Definition sum_R (l : list R) : R := fold_left Rplus l 0%R.

Definition len_Q {A : Type} (l : list A) : Q := inject_Z (Z.of_nat (length l)).

(** [[d for d in dimensions if d is not None]]. *)
Fixpoint non_null {A : Type} (l : list (option A)) : list A :=
  match l with
  | [] => []
  | Some a :: l' => a :: non_null l'
  | None :: l' => non_null l'
  end.

(** SQL [AVG(col)]: nulls are skipped; no non-null value gives NULL. *)
Definition sql_avg (col : list (option Z)) : option Q :=
  match non_null col with
  | [] => None
  | v :: vs => Some (inject_Z (sum_Z (v :: vs)) / len_Q (v :: vs))%Q
  end.

(** [sum(non_null) / len(non_null) if non_null else None]. *)
Definition mean_or_none (xs : list Q) : option Q :=
  match xs with
  | [] => None
  | _ :: _ => Some (sum_Q xs / len_Q xs)%Q
  end.

(** Truthiness of an optional number: [None] and zero are falsy. *)
Definition truthy_Q (o : option Q) : bool :=
  match o with
  | Some q => negb (Qeq_bool q (0 # 1))
  | None => false
  end.

(** [o or default] on an optional number. *)
Definition or_else_Q (o : option Q) (default : Q) : Q :=
  match o with
  | Some q => if Qeq_bool q (0 # 1) then default else q
  | None => default
  end.

(** [col >= v] and [col <= v] in a WHERE clause: NULL never qualifies. *)
Definition sql_ge (col : option Q) (v : Q) : bool :=
  match col with
  | Some q => Qle_bool v q
  | None => false
  end.

Definition sql_le (col : option Q) (v : Q) : bool :=
  match col with
  | Some q => Qle_bool q v
  | None => false
  end.

Definition Rltb (a b : R) : bool := if Rlt_dec a b then true else false.

Definition Reqb (a b : R) : bool := if Req_dec_T a b then true else false.

Definition Qltb (a b : Q) : bool := negb (Qle_bool b a).

(* ------------------------------------------------------------------ *)
(** ** Numbers a float holds exactly *)

(** The number of trailing zero bits of a positive number, and what is left
    of it without them. *)
Fixpoint trailing_zeros (p : positive) : Z :=
  match p with
  | xO p' => 1 + trailing_zeros p'
  | _ => 0
  end.

Fixpoint odd_part (p : positive) : positive :=
  match p with
  | xO p' => odd_part p'
  | _ => p
  end.

(** [q] is the value of a binary64 float.  With the denominator written as
    an odd number times [2^k], [q] is a binary fraction when the odd number
    divides the numerator, and then [q = c * 2^-k] for the quotient [c].  It
    is a float when [c] has at most 53 significant bits (an odd part below
    [2^53]), its lowest bit is not under [2^-1074] and its value is under
    [2^1024]. *)
Definition is_binary64 (q : Q) : bool :=
  let odd := Zpos (odd_part (Qden q)) in
  let k := trailing_zeros (Qden q) in
  (Qnum q mod odd =? 0)
  && match Z.abs (Qnum q / odd) with
     | Zpos c =>
         (Zpos (odd_part c) <? 2 ^ 53)
         && (- 1074 <=? trailing_zeros c - k)
         && (Z.log2 (Zpos c) - k <? 1024)
     | _ => true
     end.

(** The same, as a float is usually described: [q = m * 2^e] for a
    significand [m] of at most 53 bits and an exponent [e] from -1074 to 971
    (the equation is scaled by [2^1074]). *)
Definition binary64_value (q : Q) : Prop :=
  exists m e : Z,
    Z.abs m < 2 ^ 53
    /\ - 1074 <= e <= 971
    /\ (q * inject_Z (2 ^ 1074) == inject_Z (m * 2 ^ (e + 1074)))%Q.

(** The test the unit of work makes before it writes a [Float] column: the
    assigned value against the loaded one, with [==].  The loaded value is a
    float or [None]; the assigned one is the decimal of the statistics query
    (or the quotient of such decimals), or [None].  A decimal equals the
    float that was stored for it when it is exactly a float, as [5.0] is and
    [14/3] is not. *)
Definition column_unchanged (loaded assigned : option Q) : bool :=
  match loaded, assigned with
  | None, None => true
  | Some a, Some b => Qeq_bool a b && is_binary64 b
  | _, _ => false
  end.

(* ------------------------------------------------------------------ *)
(** ** Stable sort, largest key first

    [list.sort(key=..., reverse=True)] is stable: items with equal keys stay
    in their original order.  The result of a stable sort is determined by the
    input, so insertion from the right models it. *)

Section StableSort.
Context {A K : Type}.
Variable key : A -> K.
Variable ltb : K -> K -> bool.

Fixpoint insert_desc (x : A) (l : list A) : list A :=
  match l with
  | [] => [x]
  | y :: l' =>
      if ltb (key x) (key y) then y :: insert_desc x l' else x :: y :: l'
  end.

Fixpoint sort_desc (l : list A) : list A :=
  match l with
  | [] => []
  | x :: l' => insert_desc x (sort_desc l')
  end.
End StableSort.

(* ================================================================== *)
(** * app/services/embeddings.py *)

(** [a / b] on floats: a zero divisor raises. *)
Definition py_truediv (a b : R) : result R :=
  if Req_dec_T b 0%R then Raise ZeroDivisionError else Ok (a / b)%R.

Definition dot (vec1 vec2 : list R) : R :=
  sum_R (map (fun ab => (fst ab * snd ab)%R) (combine vec1 vec2)).

(** [sum(a * a for a in vec) ** 0.5]. *)
Definition magnitude (vec : list R) : R :=
  sqrt (sum_R (map (fun a => (a * a)%R) vec)).

(** [cosine_similarity], over the real numbers. *)
Definition cosine_similarity (vec1 vec2 : list R) : result R :=
  if negb (length vec1 =? length vec2)%nat then
    Raise (ValueError "Vectors must have same dimension")
  else
    let dot_product := dot vec1 vec2 in
    let mag1 := magnitude vec1 in
    let mag2 := magnitude vec2 in
    if Reqb mag1 0%R || Reqb mag2 0%R then Ok 0%R
    else py_truediv dot_product (mag1 * mag2)%R.

(* ================================================================== *)
(** * app/models *)

(** The seven rating dimensions, in the order the source lists them. *)
Inductive dimension : Type :=
| Pace
| EmotionalImpact
| Complexity
| CharacterDevelopment
| PlotQuality
| ProseStyle
| Originality.

Definition all_dimensions : list dimension :=
  [Pace; EmotionalImpact; Complexity; CharacterDevelopment; PlotQuality;
   ProseStyle; Originality].

Module Book.
(** Modelled from the spec: the [description_embedding] column, which
    [get_similar_books_by_embedding] reads, is not declared in
    [app/models/book.py]; the spec's EmbeddingVector is an optional float
    vector attached to a book.  The other columns play no part here. *)
Record t : Type := mk {
  id : Z;
  description_embedding : option (list R)
}.
End Book.

Module UserBook.
Record t : Type := mk {
  id : Z;
  user_id : Z;
  book_id : Z;
  status : string
}.
End UserBook.

Module MultiDimensionalRating.
Record t : Type := mk {
  id : Z;
  user_id : Z;
  book_id : Z;
  pace : option Z;
  emotional_impact : option Z;
  complexity : option Z;
  character_development : option Z;
  plot_quality : option Z;
  prose_style : option Z;
  originality : option Z;
  created_at : Z;
  updated_at : option Z
}.

(** [getattr(rating, name)] for a dimension name. *)
Definition get (d : dimension) (r : t) : option Z :=
  match d with
  | Pace => pace r
  | EmotionalImpact => emotional_impact r
  | Complexity => complexity r
  | CharacterDevelopment => character_development r
  | PlotQuality => plot_quality r
  | ProseStyle => prose_style r
  | Originality => originality r
  end.

(** [setattr(rating, name, value)] for a dimension name. *)
Definition set (d : dimension) (v : option Z) (r : t) : t :=
  match d with
  | Pace =>
      mk (id r) (user_id r) (book_id r) v (emotional_impact r)
        (complexity r) (character_development r) (plot_quality r)
        (prose_style r) (originality r) (created_at r) (updated_at r)
  | EmotionalImpact =>
      mk (id r) (user_id r) (book_id r) (pace r) v
        (complexity r) (character_development r) (plot_quality r)
        (prose_style r) (originality r) (created_at r) (updated_at r)
  | Complexity =>
      mk (id r) (user_id r) (book_id r) (pace r) (emotional_impact r)
        v (character_development r) (plot_quality r)
        (prose_style r) (originality r) (created_at r) (updated_at r)
  | CharacterDevelopment =>
      mk (id r) (user_id r) (book_id r) (pace r) (emotional_impact r)
        (complexity r) v (plot_quality r)
        (prose_style r) (originality r) (created_at r) (updated_at r)
  | PlotQuality =>
      mk (id r) (user_id r) (book_id r) (pace r) (emotional_impact r)
        (complexity r) (character_development r) v
        (prose_style r) (originality r) (created_at r) (updated_at r)
  | ProseStyle =>
      mk (id r) (user_id r) (book_id r) (pace r) (emotional_impact r)
        (complexity r) (character_development r) (plot_quality r)
        v (originality r) (created_at r) (updated_at r)
  | Originality =>
      mk (id r) (user_id r) (book_id r) (pace r) (emotional_impact r)
        (complexity r) (character_development r) (plot_quality r)
        (prose_style r) v (created_at r) (updated_at r)
  end.

(** [rating.updated_at = func.now()]. *)
Definition set_updated_at (now : Z) (r : t) : t :=
  mk (id r) (user_id r) (book_id r) (pace r) (emotional_impact r)
    (complexity r) (character_development r) (plot_quality r)
    (prose_style r) (originality r) (created_at r) (Some now).

Definition star_equivalent (r : t) : option Q :=
  let dimensions :=
    [pace r; emotional_impact r; complexity r; character_development r;
     plot_quality r; prose_style r; originality r] in
  let non_null := non_null dimensions in
  match non_null with
  | [] => None
  | _ :: _ => Some (inject_Z (sum_Z non_null) / len_Q non_null)%Q
  end.
End MultiDimensionalRating.

Module BookFingerprint.
Record t : Type := mk {
  book_id : Z;
  avg_pace : option Q;
  avg_emotional_impact : option Q;
  avg_complexity : option Q;
  avg_character_development : option Q;
  avg_plot_quality : option Q;
  avg_prose_style : option Q;
  avg_originality : option Q;
  star_equivalent : option Q;
  total_ratings : Z;
  updated_at : Z
}.

(** [getattr(BookFingerprint, f"avg_{field}")]. *)
Definition avg (d : dimension) (fp : t) : option Q :=
  match d with
  | Pace => avg_pace fp
  | EmotionalImpact => avg_emotional_impact fp
  | Complexity => avg_complexity fp
  | CharacterDevelopment => avg_character_development fp
  | PlotQuality => avg_plot_quality fp
  | ProseStyle => avg_prose_style fp
  | Originality => avg_originality fp
  end.

(** Missing dimensions are filled with 3.0. *)
Definition fingerprint_vector (fp : t) : list R :=
  [Q2R (or_else_Q (avg_pace fp) (3 # 1));
   Q2R (or_else_Q (avg_emotional_impact fp) (3 # 1));
   Q2R (or_else_Q (avg_complexity fp) (3 # 1));
   Q2R (or_else_Q (avg_character_development fp) (3 # 1));
   Q2R (or_else_Q (avg_plot_quality fp) (3 # 1));
   Q2R (or_else_Q (avg_prose_style fp) (3 # 1));
   Q2R (or_else_Q (avg_originality fp) (3 # 1))].
End BookFingerprint.

(** The tables the core reads and writes. *)
Record database : Type := mk_database {
  books : list Book.t;
  user_books : list UserBook.t;
  multi_dimensional_ratings : list MultiDimensionalRating.t;
  book_fingerprints : list BookFingerprint.t
}.

Definition set_ratings (rs : list MultiDimensionalRating.t) (db : database)
  : database :=
  mk_database (books db) (user_books db) rs (book_fingerprints db).

Definition set_fingerprints (fps : list BookFingerprint.t) (db : database)
  : database :=
  mk_database (books db) (user_books db) (multi_dimensional_ratings db) fps.

(** [select(Book).where(Book.id == book_id)] then [scalar_one_or_none()].
    The looked-up columns are primary or unique keys, so at most one row
    matches. *)
Definition get_book (db : database) (book_id : Z) : option Book.t :=
  find (fun b => Book.id b =? book_id) (books db).

Definition get_fingerprint (db : database) (book_id : Z)
  : option BookFingerprint.t :=
  find (fun fp => BookFingerprint.book_id fp =? book_id) (book_fingerprints db).

Definition get_rating (db : database) (user_id book_id : Z)
  : option MultiDimensionalRating.t :=
  find (fun r => (MultiDimensionalRating.user_id r =? user_id)
                 && (MultiDimensionalRating.book_id r =? book_id))
       (multi_dimensional_ratings db).

(** [select(...).where(MultiDimensionalRating.book_id == book_id)]. *)
Definition ratings_of_book (db : database) (book_id : Z)
  : list MultiDimensionalRating.t :=
  filter (fun r => MultiDimensionalRating.book_id r =? book_id)
         (multi_dimensional_ratings db).

(** [select(Book, BookFingerprint).join(BookFingerprint,
    Book.id == BookFingerprint.book_id)]: every book row paired with each
    fingerprint row of that book. *)
Definition books_join_fingerprints (db : database)
  : list (Book.t * BookFingerprint.t) :=
  flat_map
    (fun b => map (pair b)
                (filter (fun fp => BookFingerprint.book_id fp =? Book.id b)
                        (book_fingerprints db)))
    (books db).

(* ================================================================== *)
(** * app/routers/multi_dimensional_ratings.py *)

(** The row of aggregates the statistics query returns. *)
Record stats_row : Type := mk_stats {
  stats_avg : dimension -> option Q;
  stats_total_ratings : Z
}.

Definition fingerprint_stats (db : database) (book_id : Z) : stats_row :=
  let rows := ratings_of_book db book_id in
  mk_stats
    (fun d => sql_avg (map (MultiDimensionalRating.get d) rows))
    (Z.of_nat (length rows)).



(** [update_book_fingerprint(db, book_id)], for a book whose ratings the
    [SmallInteger] column [total_ratings] can count.

    The [updated_at] column has [server_default=func.now()] and
    [onupdate=func.now()]: the database stamps the row with its clock when it
    is inserted and when an UPDATE is issued for it.  On the update branch
    the unit of work issues an UPDATE only if some assigned attribute does
    not compare equal to the loaded one ([column_unchanged]); when all nine
    compare equal the row, and its [updated_at], stay as they are. *)
Definition update_book_fingerprint (now : Z) (db : database) (book_id : Z)
  : database * BookFingerprint.t :=
  let stats := fingerprint_stats db book_id in
  let dimensions := map (stats_avg stats) all_dimensions in
  let non_null := non_null dimensions in
  let star_equivalent := mean_or_none non_null in
  let fingerprint (updated_at : Z) :=
    BookFingerprint.mk book_id
      (stats_avg stats Pace) (stats_avg stats EmotionalImpact)
      (stats_avg stats Complexity) (stats_avg stats CharacterDevelopment)
      (stats_avg stats PlotQuality) (stats_avg stats ProseStyle)
      (stats_avg stats Originality)
      star_equivalent (stats_total_ratings stats) updated_at in
  match get_fingerprint db book_id with
  | Some loaded =>
      let clean :=
        forallb
          (fun d => column_unchanged (BookFingerprint.avg d loaded)
                      (stats_avg stats d))
          all_dimensions
        && column_unchanged (BookFingerprint.star_equivalent loaded)
             star_equivalent
        && (BookFingerprint.total_ratings loaded =? stats_total_ratings stats) in
      let fingerprint :=
        fingerprint
          (if clean then BookFingerprint.updated_at loaded else now) in
      (set_fingerprints
         (map (fun fp => if BookFingerprint.book_id fp =? book_id
                         then fingerprint else fp)
              (book_fingerprints db))
         db,
       fingerprint)
  | None =>
      (set_fingerprints (book_fingerprints db ++ [fingerprint now]) db,
       fingerprint now)
  end.

(** A request field: either absent from the request body, or present with a
    value (which may be [null]). *)
Inductive field (A : Type) : Type :=
| Unset
| Set_ (v : A).

Arguments Unset {A}.
Arguments Set_ {A} v.

(** [MultiDimensionalRatingCreate]: seven optional dimensions and [book_id]. *)
Record MultiDimensionalRatingCreate : Type := mk_rating_create {
  rc_dimension : dimension -> field (option Z);
  rc_book_id : Z
}.

(** [rating_data.model_dump()]: an unset field dumps as its default, [None]. *)
Definition model_dump (rating_data : MultiDimensionalRatingCreate)
  (d : dimension) : option Z :=
  match rc_dimension rating_data d with
  | Unset => None
  | Set_ v => v
  end.

(** The items of [rating_data.model_dump(exclude_unset=True, ...)] for the
    dimensions [ds]: one per dimension the request set. *)
Definition dump_items (rating_data : MultiDimensionalRatingCreate)
  (ds : list dimension) : list (dimension * option Z) :=
  flat_map
    (fun d => match rc_dimension rating_data d with
              | Unset => []
              | Set_ v => [(d, v)]
              end)
    ds.

(** [rating_data.model_dump(exclude_unset=True, exclude={"book_id"})]. *)
Definition model_dump_exclude_unset (rating_data : MultiDimensionalRatingCreate)
  : list (dimension * option Z) :=
  dump_items rating_data all_dimensions.

(** [for key, value in update_data.items(): setattr(rating, key, value)]. *)
Definition setattr_all (update_data : list (dimension * option Z))
  (rating : MultiDimensionalRating.t) : MultiDimensionalRating.t :=
  fold_left (fun r kv => MultiDimensionalRating.set (fst kv) (snd kv) r)
    update_data rating.

(** The next value of the [id] sequence of the ratings table. *)
Definition next_rating_id (db : database) : Z :=
  1 + fold_right Z.max 0
        (map MultiDimensionalRating.id (multi_dimensional_ratings db)).

(** [create_or_update_rating] for the authenticated user [current_user]. *)
Definition create_or_update_rating (now : Z) (db : database)
  (rating_data : MultiDimensionalRatingCreate) (current_user : Z)
  : result (database * MultiDimensionalRating.t) :=
  match get_book db (rc_book_id rating_data) with
  | None => Raise (HTTPException 404 "Book not found")
  | Some _ =>
      let '(db1, rating) :=
        match get_rating db current_user (rc_book_id rating_data) with
        | Some existing_rating =>
            let update_data := model_dump_exclude_unset rating_data in
            let rating :=
              MultiDimensionalRating.set_updated_at now
                (setattr_all update_data existing_rating) in
            (set_ratings
               (map (fun r =>
                       if MultiDimensionalRating.id r
                          =? MultiDimensionalRating.id existing_rating
                       then rating else r)
                    (multi_dimensional_ratings db))
               db,
             rating)
        | None =>
            let rating :=
              MultiDimensionalRating.mk (next_rating_id db) current_user
                (rc_book_id rating_data)
                (model_dump rating_data Pace)
                (model_dump rating_data EmotionalImpact)
                (model_dump rating_data Complexity)
                (model_dump rating_data CharacterDevelopment)
                (model_dump rating_data PlotQuality)
                (model_dump rating_data ProseStyle)
                (model_dump rating_data Originality)
                now None in
            (set_ratings (multi_dimensional_ratings db ++ [rating]) db, rating)
        end in
      let '(db2, _) := update_book_fingerprint now db1 (rc_book_id rating_data) in
      Ok (db2, rating)
  end.

(** [delete_rating] for the authenticated user [current_user]. *)
Definition delete_rating (now : Z) (db : database) (book_id : Z)
  (current_user : Z) : result database :=
  match get_rating db current_user book_id with
  | None => Raise (HTTPException 404 "Rating not found")
  | Some rating =>
      let db1 :=
        set_ratings
          (filter (fun r => negb (MultiDimensionalRating.id r
                                  =? MultiDimensionalRating.id rating))
                  (multi_dimensional_ratings db))
          db in
      let '(db2, _) := update_book_fingerprint now db1 book_id in
      Ok db2
  end.

(* ================================================================== *)
(** * app/services/recommendations.py *)

(** The literal 3 of [get_similar_books_by_fingerprint] (anchor and
    candidates), which the spec calls the reliability floor. *)
Definition RELIABILITY_FLOOR : Z := 3.

(** The literal 5 of [get_books_by_mood]. *)
Definition MOOD_MIN_RATINGS : Z := 5.

(** The literal 100 of [get_similar_books_by_embedding]. *)
Definition EMBEDDING_CANDIDATE_CAP : Z := 100.

(** [if exclude_book_ids: query = query.where(Book.id.notin_(...))]: [None]
    and the empty list add no condition. *)
Definition where_not_excluded {A : Type} (id_of : A -> Z)
  (exclude_book_ids : option (list Z)) (rows : list A) : list A :=
  match exclude_book_ids with
  | Some (x :: xs) => filter (fun row => negb (mem (id_of row) (x :: xs))) rows
  | _ => rows
  end.

(** [books_with_similarity.sort(key=lambda x: x[1], reverse=True)]. *)
Definition sort_by_similarity (books_with_similarity : list (Book.t * R))
  : list (Book.t * R) :=
  sort_desc snd Rltb books_with_similarity.

(** [[book for book, _ in books_with_similarity[:limit]]]. *)
Definition take_books (limit : Z) (books_with_similarity : list (Book.t * R))
  : list Book.t :=
  map fst (py_slice_to limit books_with_similarity).

(** Truthiness of an embedding: [None] and the empty vector are falsy. *)
Definition truthy_embedding (e : option (list R)) : option (list R) :=
  match e with
  | Some (x :: xs) => Some (x :: xs)
  | _ => None
  end.

(** The candidate rows of [get_similar_books_by_embedding]: the first 100
    books other than the target and outside the exclusion list. *)
Definition embedding_candidates (db : database) (book_id : Z)
  (exclude_book_ids : option (list Z)) : list Book.t :=
  sql_limit EMBEDDING_CANDIDATE_CAP
    (where_not_excluded Book.id exclude_book_ids
       (filter (fun b => negb (Book.id b =? book_id)) (books db))).

(** [select(Book.description_embedding).where(Book.id == book_id)] then
    [scalar_one_or_none()], when the result is truthy: the book exists and has
    a non-empty embedding. *)
Definition target_embedding (db : database) (book_id : Z) : option (list R) :=
  truthy_embedding
    (match get_book db book_id with
     | Some b => Book.description_embedding b
     | None => None
     end).

(** The list [books_with_similarity] of [get_similar_books_by_embedding]
    after the sort; empty when the target has no embedding. *)
Definition ranked_by_embedding (db : database) (book_id : Z)
  (exclude_book_ids : option (list Z)) : result (list (Book.t * R)) :=
  match target_embedding db book_id with
  | None => Ok []
  | Some target =>
      books_with_similarity <-
        for_each
          (fun acc book =>
             match truthy_embedding (Book.description_embedding book) with
             | Some embedding =>
                 similarity <- cosine_similarity target embedding ;;
                 Ok (acc ++ [(book, similarity)])
             | None => Ok acc
             end)
          (embedding_candidates db book_id exclude_book_ids) [] ;;
      Ok (sort_by_similarity books_with_similarity)
  end.

Definition get_similar_books_by_embedding (db : database) (book_id : Z)
  (limit : Z) (exclude_book_ids : option (list Z)) : result (list Book.t) :=
  ranked <- ranked_by_embedding db book_id exclude_book_ids ;;
  Ok (take_books limit ranked).

(** The candidate rows of [get_similar_books_by_fingerprint]. *)
Definition fingerprint_candidates (db : database) (book_id : Z)
  (exclude_book_ids : option (list Z)) : list (Book.t * BookFingerprint.t) :=
  where_not_excluded (fun row => Book.id (fst row)) exclude_book_ids
    (filter
       (fun row =>
          negb (BookFingerprint.book_id (snd row) =? book_id)
          && (RELIABILITY_FLOOR <=? BookFingerprint.total_ratings (snd row)))
       (books_join_fingerprints db)).

(** The list [books_with_similarity] of [get_similar_books_by_fingerprint]
    after the sort; empty when the target fingerprint is missing or has fewer
    than 3 ratings. *)
Definition ranked_by_fingerprint (db : database) (book_id : Z)
  (exclude_book_ids : option (list Z)) : result (list (Book.t * R)) :=
  match get_fingerprint db book_id with
  | None => Ok []
  | Some target_fp =>
      if BookFingerprint.total_ratings target_fp <? RELIABILITY_FLOOR then Ok []
      else
        let target_vector := BookFingerprint.fingerprint_vector target_fp in
        books_with_similarity <-
          for_each
            (fun acc row =>
               let fp_vector := BookFingerprint.fingerprint_vector (snd row) in
               similarity <- cosine_similarity target_vector fp_vector ;;
               Ok (acc ++ [(fst row, similarity)]))
            (fingerprint_candidates db book_id exclude_book_ids) [] ;;
        Ok (sort_by_similarity books_with_similarity)
  end.

Definition get_similar_books_by_fingerprint (db : database) (book_id : Z)
  (limit : Z) (exclude_book_ids : option (list Z)) : result (list Book.t) :=
  ranked <- ranked_by_fingerprint db book_id exclude_book_ids ;;
  Ok (take_books limit ranked).

(* ------------------------------------------------------------------ *)
(** ** Personalised recommendations *)

(** The [reason] text of a recommendation. *)
Inductive reason_text : Type :=
| SimilarFeel
    (** "Similar feel to books you loved" *)
| HighlyRated (star_equivalent : option Q).
    (** "Highly rated (<star_equivalent, one decimal>/5.0)" *)

Record recommendation : Type := mk_recommendation {
  book : Book.t;
  reason : reason_text;
  score : Q
}.

Definition user_books_of (db : database) (user_id : Z) : list UserBook.t :=
  filter (fun ub => UserBook.user_id ub =? user_id) (user_books db).

Definition user_ratings_of (db : database) (user_id : Z)
  : list MultiDimensionalRating.t :=
  filter (fun r => MultiDimensionalRating.user_id r =? user_id)
         (multi_dimensional_ratings db).

(** [r.star_equivalent and r.star_equivalent >= 4.0]. *)
Definition is_highly_rated (r : MultiDimensionalRating.t) : bool :=
  truthy_Q (MultiDimensionalRating.star_equivalent r)
  && sql_ge (MultiDimensionalRating.star_equivalent r) (4 # 1).

Definition highly_rated_book_ids (db : database) (user_id : Z) : list Z :=
  map MultiDimensionalRating.book_id
    (filter is_highly_rated (user_ratings_of db user_id)).

(** [highly_rated_book_ids[:3]], the anchors of the first strategy. *)
Definition favorite_book_ids (db : database) (user_id : Z) : list Z :=
  py_slice_to 3 (highly_rated_book_ids db user_id).

(** The initial [exclude_ids]. *)
Definition initial_exclude_ids (db : database) (user_id : Z)
  (exclude_read : bool) : list Z :=
  if exclude_read then map UserBook.book_id (user_books_of db user_id)
  else
    map UserBook.book_id
      (filter (fun ub => String.eqb (UserBook.status ub) "finished"
                         || String.eqb (UserBook.status ub) "dnf")
              (user_books_of db user_id)).

(** The loop state: [recommendations] and [exclude_ids]. *)
Definition planner_state : Type := (list recommendation * list Z)%type.

(** The body of [for book in similar]. *)
Definition add_similar (st : planner_state) (b : Book.t) : planner_state :=
  if negb (mem (Book.id b) (snd st)) then
    (fst st ++ [mk_recommendation b SimilarFeel (9 # 10)],
     Book.id b :: snd st)
  else st.

(** The body of [for book_id in highly_rated_book_ids[:3]]. *)
Definition similar_to_favorite (db : database) (st : planner_state)
  (book_id : Z) : result planner_state :=
  similar <- get_similar_books_by_fingerprint db book_id 5 (Some (snd st)) ;;
  Ok (fold_left add_similar similar st).

(** The popularity query.  [ORDER BY total_ratings DESC] fixes no order among
    rows with the same count; the embedding takes them in the order of the
    join, and nothing stated below depends on that choice. *)
Definition popular_books (db : database) (exclude_ids : list Z) (n : Z)
  : list (Book.t * BookFingerprint.t) :=
  sql_limit n
    (sort_desc (fun row => BookFingerprint.total_ratings (snd row)) Z.ltb
       (filter
          (fun row =>
             (10 <=? BookFingerprint.total_ratings (snd row))
             && sql_ge (BookFingerprint.star_equivalent (snd row)) (4 # 1)
             && negb (mem (Book.id (fst row)) exclude_ids))
          (books_join_fingerprints db))).

Definition get_personalized_recommendations (db : database) (user_id : Z)
  (limit : Z) (exclude_read : bool) : result (list recommendation) :=
  let exclude_ids := initial_exclude_ids db user_id exclude_read in
  st <- for_each (similar_to_favorite db) (favorite_book_ids db user_id)
          ([], exclude_ids) ;;
  let recommendations := fst st in
  let exclude_ids := snd st in
  let recommendations :=
    if Z.of_nat (length recommendations) <? limit then
      recommendations
      ++ map (fun row =>
                mk_recommendation (fst row)
                  (HighlyRated (BookFingerprint.star_equivalent (snd row)))
                  (7 # 10))
             (popular_books db exclude_ids
                (limit - Z.of_nat (length recommendations)))
    else recommendations in
  Ok (py_slice_to limit (sort_desc score Qltb recommendations)).

(* ------------------------------------------------------------------ *)
(** ** Browse by mood *)

(** [c.lower()] on the ASCII letters. *)
Definition lower_ascii (c : ascii) : ascii :=
  if (Ascii.leb "A" c && Ascii.leb c "Z")%char
  then ascii_of_nat (nat_of_ascii c + 32)
  else c.

Fixpoint lower (s : string) : string :=
  match s with
  | EmptyString => EmptyString
  | String c s' => String (lower_ascii c) (lower s')
  end.

(** [s.endswith(suffix)]. *)
Definition endswith (s suffix : string) : bool :=
  let n := String.length s in
  let m := String.length suffix in
  (m <=? n)%nat && String.eqb (substring (n - m) m s) suffix.

(** [s.replace(old, "")] for a non-empty [old]: every occurrence of [old],
    found left to right without overlap, is removed.  [skip] counts the
    characters of a match still to be dropped. *)
Fixpoint remove_all_from (old : string) (skip : nat) (s : string) : string :=
  match s with
  | EmptyString => EmptyString
  | String c s' =>
      match skip with
      | S k => remove_all_from old k s'
      | O =>
          if prefix old s then remove_all_from old (String.length old - 1) s'
          else String c (remove_all_from old 0 s')
      end
  end.

Definition remove_all (old s : string) : string := remove_all_from old 0 s.

(** The dict [mood_filters], as its items in insertion order. *)
Definition mood_filters : list (string * list (string * Q)) :=
  [("comfort"%string,
    [("emotional_impact_min"%string, 4 # 1); ("complexity_max"%string, 3 # 1)]);
   ("challenge"%string,
    [("complexity_min"%string, 4 # 1); ("originality_min"%string, 4 # 1)]);
   ("escape"%string,
    [("pace_min"%string, 4 # 1); ("plot_quality_min"%string, 4 # 1)]);
   ("contemplative"%string,
    [("pace_max"%string, 5 # 2); ("prose_style_min"%string, 4 # 1)])]%Q.

(** [d.get(k)]. *)
Fixpoint dict_get {V : Type} (d : list (string * V)) (k : string) : option V :=
  match d with
  | [] => None
  | (k', v) :: d' => if String.eqb k' k then Some v else dict_get d' k
  end.

(** [getattr(BookFingerprint, f"avg_{field}")]. *)
Definition avg_column (field : string) : result dimension :=
  if String.eqb field "pace" then Ok Pace
  else if String.eqb field "emotional_impact" then Ok EmotionalImpact
  else if String.eqb field "complexity" then Ok Complexity
  else if String.eqb field "character_development"
       then Ok CharacterDevelopment
  else if String.eqb field "plot_quality" then Ok PlotQuality
  else if String.eqb field "prose_style" then Ok ProseStyle
  else if String.eqb field "originality" then Ok Originality
  else Raise (AttributeError (String.append "avg_" field)).

(** One step of the loop over [filters.items()]: the condition that
    [query.where(...)] adds on a fingerprint row. *)
Definition mood_condition (item : string * Q)
  : result (BookFingerprint.t -> bool) :=
  let key := fst item in
  let value := snd item in
  if endswith key "_min" then
    d <- avg_column (remove_all "_min" key) ;;
    Ok (fun fp => sql_ge (BookFingerprint.avg d fp) value)
  else if endswith key "_max" then
    d <- avg_column (remove_all "_max" key) ;;
    Ok (fun fp => sql_le (BookFingerprint.avg d fp) value)
  else Ok (fun _ => true).

Definition get_books_by_mood (db : database) (mood : string) (limit : Z)
  : result (list Book.t) :=
  match dict_get mood_filters (lower mood) with
  | None => Ok []
  | Some [] => Ok []
  | Some (f :: fs) =>
      conditions <- map_result mood_condition (f :: fs) ;;
      Ok (map fst
            (sql_limit limit
               (filter
                  (fun row => forallb (fun c => c (snd row)) conditions)
                  (filter
                     (fun row => MOOD_MIN_RATINGS
                                 <=? BookFingerprint.total_ratings (snd row))
                     (books_join_fingerprints db)))))
  end.

(* ================================================================== *)
(** * Properties in the words of the specification *)

Definition total_Q (xs : list Q) : Q := fold_right Qplus (0 # 1)%Q xs.

(** [m] is the arithmetic mean of [xs]: null when [xs] is empty, otherwise
    the number whose product with the count is the total. *)
Definition is_mean_of (xs : list Q) (m : option Q) : Prop :=
  match xs with
  | [] => m = None
  | _ :: _ => exists q, m = Some q /\ (q * len_Q xs == total_Q xs)%Q
  end.

(** The non-null values of one dimension across a set of ratings. *)
Definition dimension_values (d : dimension)
  (rows : list MultiDimensionalRating.t) : list Q :=
  map inject_Z (non_null (map (MultiDimensionalRating.get d) rows)).

(** The per-dimension means of a fingerprint that are non-null. *)
Definition dimension_means (fp : BookFingerprint.t) : list Q :=
  non_null (map (fun d => BookFingerprint.avg d fp) all_dimensions).

(** The value [cosine_similarity] returns on vectors of one length. *)
Definition cosine_value (vec1 vec2 : list R) : R :=
  if Reqb (magnitude vec1) 0%R || Reqb (magnitude vec2) 0%R then 0%R
  else (dot vec1 vec2 / (magnitude vec1 * magnitude vec2))%R.

(** [fp] is the aggregate of the ratings [rows] of one book: each dimension
    average is the mean of the non-null values of that dimension,
    [star_equivalent] is the mean of the dimension averages that are non-null,
    and [total_ratings] counts the ratings. *)
Definition aggregate_of (rows : list MultiDimensionalRating.t)
  (fp : BookFingerprint.t) : Prop :=
  (forall d : dimension,
      is_mean_of (dimension_values d rows) (BookFingerprint.avg d fp))
  /\ is_mean_of (dimension_means fp) (BookFingerprint.star_equivalent fp)
  /\ BookFingerprint.total_ratings fp = Z.of_nat (length rows).

(** The fingerprint of an unrated book: every average null, count zero. *)
Definition unrated (fp : BookFingerprint.t) : Prop :=
  (forall d : dimension, BookFingerprint.avg d fp = None)
  /\ BookFingerprint.star_equivalent fp = None
  /\ BookFingerprint.total_ratings fp = 0.

(** The columns of a rating that identify it and date its creation. *)
Definition identity_columns (r : MultiDimensionalRating.t) : Z * Z * Z * Z :=
  (MultiDimensionalRating.id r, MultiDimensionalRating.user_id r,
   MultiDimensionalRating.book_id r, MultiDimensionalRating.created_at r).


(** The scored candidate pool of the embedding search, in the order of the
    candidate query: every candidate with an embedding, with its similarity
    to the target. *)
Definition embedding_pool (db : database) (book_id : Z)
  (exclude_book_ids : option (list Z)) : list (Book.t * R) :=
  match target_embedding db book_id with
  | None => []
  | Some target =>
      flat_map
        (fun b => match truthy_embedding (Book.description_embedding b) with
                  | Some e => [(b, cosine_value target e)]
                  | None => []
                  end)
        (embedding_candidates db book_id exclude_book_ids)
  end.

(** Every candidate embedding has the length of the target embedding. *)
Definition embeddings_match_target (db : database) (book_id : Z)
  (exclude_book_ids : option (list Z)) : bool :=
  match target_embedding db book_id with
  | None => true
  | Some target =>
      forallb
        (fun b => match truthy_embedding (Book.description_embedding b) with
                  | Some e => (length e =? length target)%nat
                  | None => true
                  end)
        (embedding_candidates db book_id exclude_book_ids)
  end.

(** The scored candidate pool of the fingerprint search, in the order of the
    candidate query; empty when the anchor is below the floor. *)
Definition fingerprint_pool (db : database) (book_id : Z)
  (exclude_book_ids : option (list Z)) : list (Book.t * R) :=
  match get_fingerprint db book_id with
  | None => []
  | Some target_fp =>
      if BookFingerprint.total_ratings target_fp <? RELIABILITY_FLOOR then []
      else
        map (fun row =>
               (fst row,
                cosine_value (BookFingerprint.fingerprint_vector target_fp)
                  (BookFingerprint.fingerprint_vector (snd row))))
            (fingerprint_candidates db book_id exclude_book_ids)
  end.

(** [ranked] lists the scored [pool] by descending similarity, candidates of
    equal similarity in the order the pool has them. *)
Definition ranking_of (pool ranked : list (Book.t * R)) : Prop :=
  Permutation pool ranked
  /\ StronglySorted (fun x y => (snd x >= snd y)%R) ranked
  /\ forall s : R,
      filter (fun x => Reqb (snd x) s) ranked
      = filter (fun x => Reqb (snd x) s) pool.

(** The order the specification asks of a ranked list: descending similarity,
    equal similarities by ascending book id. *)
Definition ranked_with_id_tiebreak (ranked : list (Book.t * R)) : Prop :=
  StronglySorted
    (fun x y => (snd x > snd y)%R
                \/ (snd x = snd y /\ Book.id (fst x) < Book.id (fst y)))
    ranked.

(** A book has a fingerprint row with at least [floor] ratings. *)
Definition has_reliable_fingerprint (db : database) (floor : Z) (b : Book.t)
  : Prop :=
  exists fp : BookFingerprint.t,
    In fp (book_fingerprints db)
    /\ BookFingerprint.book_id fp = Book.id b
    /\ floor <= BookFingerprint.total_ratings fp.

(** A book id is outside an optional exclusion list. *)
Definition not_excluded (exclude_book_ids : option (list Z)) (id : Z) : Prop :=
  match exclude_book_ids with
  | Some ids => ~ In id ids
  | None => True
  end.

(** The four mood labels of the specification. *)
Definition mood_labels : list string :=
  ["comfort"; "challenge"; "escape"; "contemplative"]%string.

(** The predicate table of the specification's mood filter. *)
Definition mood_predicate (label : string)
  : option (BookFingerprint.t -> bool) :=
  if String.eqb label "comfort" then
    Some (fun fp =>
            sql_ge (BookFingerprint.avg_emotional_impact fp) (4 # 1)
            && sql_le (BookFingerprint.avg_complexity fp) (3 # 1))
  else if String.eqb label "challenge" then
    Some (fun fp =>
            sql_ge (BookFingerprint.avg_complexity fp) (4 # 1)
            && sql_ge (BookFingerprint.avg_originality fp) (4 # 1))
  else if String.eqb label "escape" then
    Some (fun fp =>
            sql_ge (BookFingerprint.avg_pace fp) (4 # 1)
            && sql_ge (BookFingerprint.avg_plot_quality fp) (4 # 1))
  else if String.eqb label "contemplative" then
    Some (fun fp =>
            sql_le (BookFingerprint.avg_pace fp) (5 # 2)
            && sql_ge (BookFingerprint.avg_prose_style fp) (4 # 1))
  else None.

(** The mood query over the books whose fingerprint has at least [floor]
    ratings: the rows that satisfy [predicate], cut at [limit]. *)
Definition mood_query (floor : Z) (predicate : BookFingerprint.t -> bool)
  (db : database) (limit : Z) : list Book.t :=
  map fst
    (sql_limit limit
       (filter (fun row => predicate (snd row))
          (filter (fun row => floor <=? BookFingerprint.total_ratings (snd row))
             (books_join_fingerprints db)))).

(** The user's ratings whose [star_equivalent] is at least 4.0. *)
Definition loved_ratings (db : database) (user_id : Z)
  : list MultiDimensionalRating.t :=
  filter
    (fun r => (MultiDimensionalRating.user_id r =? user_id)
              && sql_ge (MultiDimensionalRating.star_equivalent r) (4 # 1))
    (multi_dimensional_ratings db).

(** The favorites as the specification words them: the books of the loved
    ratings, most recent first, at most 3. *)
Definition favorites_most_recent_first (db : database) (user_id : Z)
  : list Z :=
  firstn 3
    (map MultiDimensionalRating.book_id
       (sort_desc MultiDimensionalRating.created_at Z.ltb
          (loved_ratings db user_id))).

(** The book id of a recommendation. *)
Definition recommended_id (r : recommendation) : Z := Book.id (book r).

(** The exclusion set the flag implies: with the flag, every book of the
    user's library; without it, the library books marked finished or dnf. *)
Definition excluded_by_flag (db : database) (user_id : Z) (exclude_read : bool)
  (id : Z) : Prop :=
  exists ub : UserBook.t,
    In ub (user_books db)
    /\ UserBook.user_id ub = user_id
    /\ UserBook.book_id ub = id
    /\ (exclude_read = true
        \/ UserBook.status ub = "finished"%string
        \/ UserBook.status ub = "dnf"%string).

(** The primary keys of the two joined tables: [Book.id] and
    [BookFingerprint.book_id] identify their rows. *)
Definition primary_keys_unique (db : database) : Prop :=
  NoDup (map Book.id (books db))
  /\ NoDup (map BookFingerprint.book_id (book_fingerprints db)).

(* ================================================================== *)
(** * Sample data *)

Definition empty_database : database := mk_database [] [] [] [].

(** Book 1 rated by three users, pace 5, 5 and 4; book 2 unrated. *)
Definition demo_rating_1 : MultiDimensionalRating.t :=
  MultiDimensionalRating.mk 1 10 1
    (Some 5) (Some 4) None None None None None 100 None.

Definition demo_rating_2 : MultiDimensionalRating.t :=
  MultiDimensionalRating.mk 2 11 1
    (Some 5) None None None None None None 101 None.

Definition demo_rating_3 : MultiDimensionalRating.t :=
  MultiDimensionalRating.mk 3 12 1
    (Some 4) None None None None None None 102 None.

Definition demo_db : database :=
  mk_database [Book.mk 1 None; Book.mk 2 None] []
    [demo_rating_1; demo_rating_2; demo_rating_3] [].

(** A request of user 10 for book 1 that sets [complexity] to 2 and [pace] to
    null, and leaves the other dimensions out. *)
Definition demo_request : MultiDimensionalRatingCreate :=
  mk_rating_create
    (fun d => match d with
              | Complexity => Set_ (Some 2)
              | Pace => Set_ None
              | _ => Unset
              end)
    1.



(** A fingerprint that averages 4 on every dimension, over [total] ratings. *)
Definition flat_fingerprint (book_id total : Z) : BookFingerprint.t :=
  BookFingerprint.mk book_id
    (Some (4 # 1)%Q) (Some (4 # 1)%Q) (Some (4 # 1)%Q) (Some (4 # 1)%Q)
    (Some (4 # 1)%Q) (Some (4 # 1)%Q) (Some (4 # 1)%Q)
    (Some (4 # 1)%Q) total 50.

(** Three books with the same fingerprint over 3 ratings each; the books
    table holds book 3 before book 2. *)
Definition tie_db : database :=
  mk_database [Book.mk 1 None; Book.mk 3 None; Book.mk 2 None] [] []
    [flat_fingerprint 1 3; flat_fingerprint 2 3; flat_fingerprint 3 3].

(** Book 1 has a fingerprint over 2 ratings only. *)
Definition sparse_db : database :=
  mk_database [Book.mk 1 None; Book.mk 2 None] [] []
    [flat_fingerprint 1 2; flat_fingerprint 2 3].

(** Three books with two-dimensional embeddings. *)
Definition embedded_db : database :=
  mk_database
    [Book.mk 1 (Some [1%R; 0%R]); Book.mk 2 (Some [0%R; 1%R]);
     Book.mk 3 (Some [1%R; 1%R]); Book.mk 4 None]
    [] [] [].

(** A comfort read: emotional impact 4.2, complexity 2.0, over [total]
    ratings. *)
Definition cozy_fingerprint (book_id total : Z) : BookFingerprint.t :=
  BookFingerprint.mk book_id
    None (Some (21 # 5)%Q) (Some (2 # 1)%Q) None None None None
    (Some (31 # 10)%Q) total 50.

(** Book 7 is a comfort read over 3 ratings, book 8 one over 5 ratings, and
    book 9, over 5 ratings, averages 4 on complexity. *)
Definition cozy_db : database :=
  mk_database [Book.mk 7 None; Book.mk 8 None; Book.mk 9 None] [] []
    [cozy_fingerprint 7 3; cozy_fingerprint 8 5; flat_fingerprint 9 5].

(** User 10 gave books 1, 2, 3 and 4 five on pace, in that order in time. *)
Definition loved (id book_id created_at : Z) : MultiDimensionalRating.t :=
  MultiDimensionalRating.mk id 10 book_id
    (Some 5) None None None None None None created_at None.

Definition history_db : database :=
  mk_database
    [Book.mk 1 None; Book.mk 2 None; Book.mk 3 None; Book.mk 4 None] []
    [loved 1 1 100; loved 2 2 200; loved 3 3 300; loved 4 4 400] [].

(** User 10 has finished book 1 and wants to read book 2; books 3 and 4
    resemble book 1, which the user loved; book 5 is popular. *)
Definition library_db : database :=
  mk_database
    [Book.mk 1 None; Book.mk 2 None; Book.mk 3 None; Book.mk 4 None;
     Book.mk 5 None]
    [UserBook.mk 1 10 1 "finished"; UserBook.mk 2 10 2 "want_to_read"]
    [loved 1 1 100]
    [flat_fingerprint 1 3; flat_fingerprint 2 4; flat_fingerprint 3 3;
     flat_fingerprint 4 5; flat_fingerprint 5 12].

(* ================================================================== *)
(** * The rest of the rating router, the schemas and the models *)

From Stdlib Require Lqa Qreals.

(** [MultiDimensionalRating.fingerprint_vector]: [float(self.pace or 3.0)]
    and so on; a null or zero rating is filled with 3.0. *)
Definition rating_entry (v : option Z) : R :=
  match v with
  | Some z => if z =? 0 then 3%R else IZR z
  | None => 3%R
  end.

Definition rating_fingerprint_vector (r : MultiDimensionalRating.t) : list R :=
  [rating_entry (MultiDimensionalRating.pace r);
   rating_entry (MultiDimensionalRating.emotional_impact r);
   rating_entry (MultiDimensionalRating.complexity r);
   rating_entry (MultiDimensionalRating.character_development r);
   rating_entry (MultiDimensionalRating.plot_quality r);
   rating_entry (MultiDimensionalRating.prose_style r);
   rating_entry (MultiDimensionalRating.originality r)].

(** [get_user_rating] for the authenticated user [current_user]. *)
Definition get_user_rating (db : database) (book_id : Z) (current_user : Z)
  : result MultiDimensionalRating.t :=
  match get_rating db current_user book_id with
  | None => Raise (HTTPException 404 "Rating not found")
  | Some rating => Ok rating
  end.

(** A [BookFingerprint] object in the session: a row of the table, or the
    object [BookFingerprint(book_id=book_id, total_ratings=0)], which is not
    added to the session and has every other attribute unset. *)
Inductive fingerprint_object : Type :=
| StoredFingerprint (fp : BookFingerprint.t)
| NewFingerprint (book_id : Z) (total_ratings : Z).


Definition object_avg (d : dimension) (o : fingerprint_object) : option Q :=
  match o with
  | StoredFingerprint fp => BookFingerprint.avg d fp
  | NewFingerprint _ _ => None
  end.



(** [BookFingerprintResponse.has_ratings], on the response that carries the
    attributes of a stored row. *)
Definition has_ratings (fp : BookFingerprint.t) : bool :=
  0 <? BookFingerprint.total_ratings fp.

(** [get_book_fingerprint]. *)
Definition get_book_fingerprint (db : database) (book_id : Z)
  : result fingerprint_object :=
  match get_book db book_id with
  | None => Raise (HTTPException 404 "Book not found")
  | Some _ =>
      match get_fingerprint db book_id with
      | Some fingerprint => Ok (StoredFingerprint fingerprint)
      | None => Ok (NewFingerprint book_id 0)
      end
  end.

(** The labels of [RadarChartData.from_rating], in the order of its list. *)
Definition chart_label (d : dimension) : string :=
  match d with
  | Pace => "Pace"
  | EmotionalImpact => "Emotion"
  | Complexity => "Complexity"
  | CharacterDevelopment => "Character"
  | PlotQuality => "Plot"
  | ProseStyle => "Prose"
  | Originality => "Originality"
  end.

(** The objects [RadarChartData.from_rating] is called on: a rating row, a
    fingerprint object of the ORM, or a [BookFingerprintResponse] of the
    schemas, which has the attributes of a fingerprint. *)
Inductive chart_source : Type :=
| RatingRow (r : MultiDimensionalRating.t)
| FingerprintRow (o : fingerprint_object)
| FingerprintResponse (o : fingerprint_object).

(** [x or 0] on an optional number. *)
Definition or_zero (o : option Q) : Q :=
  match o with
  | Some q => q
  | None => 0 # 1
  end.

(** [RadarChartData.from_rating(rating)]: [isinstance(rating,
    BookFingerprintResponse)] selects the [avg_] attributes; every other
    object is read through the rating attributes [pace], ..., which a
    fingerprint of the ORM does not have. *)
Definition from_rating (rating : chart_source) : result (list (string * Q)) :=
  match rating with
  | FingerprintResponse o =>
      Ok (map (fun d => (chart_label d, or_zero (object_avg d o)))
              all_dimensions)
  | RatingRow r =>
      Ok (map (fun d =>
                 (chart_label d,
                  or_zero (option_map inject_Z (MultiDimensionalRating.get d r))))
              all_dimensions)
  | FingerprintRow _ => Raise (AttributeError "pace")
  end.

(** [get_radar_chart_data]; [current_user] is [None] for an anonymous
    request. *)
Definition get_radar_chart_data (db : database) (book_id : Z)
  (current_user : option Z) : result (list (string * Q)) :=
  match
    match current_user with
    | Some user => get_rating db user book_id
    | None => None
    end
  with
  | Some user_rating => from_rating (RatingRow user_rating)
  | None =>
      fingerprint <- get_book_fingerprint db book_id ;;
      from_rating (FingerprintRow fingerprint)
  end.

(* ================================================================== *)
(** * The fingerprint of a book, in the words of the specification

    Stated from the ratings table itself, without the queries and helpers of
    the recompute. *)









(* ================================================================== *)
(** * Integrity constraints and invariants *)

(** The CHECK constraints of the ratings table: a dimension that is set lies
    between 1 and 5. *)
Definition rating_in_range (r : MultiDimensionalRating.t) : Prop :=
  forall (d : dimension) (z : Z),
    MultiDimensionalRating.get d r = Some z -> 1 <= z <= 5.

(** The key of the constraint [uq_user_book_rating]. *)
Definition user_book_key (r : MultiDimensionalRating.t) : Z * Z :=
  (MultiDimensionalRating.user_id r, MultiDimensionalRating.book_id r).

(** The primary key of the ratings table and [uq_user_book_rating]. *)
Definition rating_keys_unique (db : database) : Prop :=
  NoDup (map MultiDimensionalRating.id (multi_dimensional_ratings db))
  /\ NoDup (map user_book_key (multi_dimensional_ratings db)).

(** The primary key of the fingerprint table. *)
Definition fingerprint_key_unique (db : database) : Prop :=
  NoDup (map BookFingerprint.book_id (book_fingerprints db)).



(** A number is a rating average: between 1 and 5. *)
Definition in_rating_range (q : Q) : Prop := (1 # 1 <= q)%Q /\ (q <= 5 # 1)%Q.

(** The rating write of [create_or_update_rating], before the recompute: the
    existing rating of the user for the book is updated in place, or a new
    one is inserted. *)
Definition upsert_rating (now : Z) (db : database)
  (rating_data : MultiDimensionalRatingCreate) (current_user : Z)
  : database * MultiDimensionalRating.t :=
  match get_rating db current_user (rc_book_id rating_data) with
  | Some existing_rating =>
      let update_data := model_dump_exclude_unset rating_data in
      let rating :=
        MultiDimensionalRating.set_updated_at now
          (setattr_all update_data existing_rating) in
      (set_ratings
         (map (fun r =>
                 if MultiDimensionalRating.id r
                    =? MultiDimensionalRating.id existing_rating
                 then rating else r)
              (multi_dimensional_ratings db))
         db,
       rating)
  | None =>
      let rating :=
        MultiDimensionalRating.mk (next_rating_id db) current_user
          (rc_book_id rating_data)
          (model_dump rating_data Pace)
          (model_dump rating_data EmotionalImpact)
          (model_dump rating_data Complexity)
          (model_dump rating_data CharacterDevelopment)
          (model_dump rating_data PlotQuality)
          (model_dump rating_data ProseStyle)
          (model_dump rating_data Originality)
          now None in
      (set_ratings (multi_dimensional_ratings db ++ [rating]) db, rating)
  end.

(** The rating delete of [delete_rating], before the recompute. *)
Definition remove_rating (db : database) (rating : MultiDimensionalRating.t)
  : database :=
  set_ratings
    (filter (fun r => negb (MultiDimensionalRating.id r
                            =? MultiDimensionalRating.id rating))
            (multi_dimensional_ratings db))
    db.

(* ================================================================== *)
(** * The similarity searches over the scores as computed

    The two searches call [cosine_similarity] and do no arithmetic of their
    own: they collect the scores, sort on them and cut the list.  Here they
    take the function they call as an argument.  A finite float is a real
    number, so what holds for every such function holds for the one the code
    computes in floating point, whatever its rounding; with
    [cosine_similarity] itself for the argument these are the searches
    defined above. *)

Module Computed.
Section Searches.
Variable cosine_similarity : list R -> list R -> result R.

Definition ranked_by_embedding (db : database) (book_id : Z)
  (exclude_book_ids : option (list Z)) : result (list (Book.t * R)) :=
  match target_embedding db book_id with
  | None => Ok []
  | Some target =>
      books_with_similarity <-
        for_each
          (fun acc book =>
             match truthy_embedding (Book.description_embedding book) with
             | Some embedding =>
                 similarity <- cosine_similarity target embedding ;;
                 Ok (acc ++ [(book, similarity)])
             | None => Ok acc
             end)
          (embedding_candidates db book_id exclude_book_ids) [] ;;
      Ok (sort_by_similarity books_with_similarity)
  end.

Definition get_similar_books_by_embedding (db : database) (book_id : Z)
  (limit : Z) (exclude_book_ids : option (list Z)) : result (list Book.t) :=
  ranked <- ranked_by_embedding db book_id exclude_book_ids ;;
  Ok (take_books limit ranked).

Definition ranked_by_fingerprint (db : database) (book_id : Z)
  (exclude_book_ids : option (list Z)) : result (list (Book.t * R)) :=
  match get_fingerprint db book_id with
  | None => Ok []
  | Some target_fp =>
      if BookFingerprint.total_ratings target_fp <? RELIABILITY_FLOOR then Ok []
      else
        let target_vector := BookFingerprint.fingerprint_vector target_fp in
        books_with_similarity <-
          for_each
            (fun acc row =>
               let fp_vector := BookFingerprint.fingerprint_vector (snd row) in
               similarity <- cosine_similarity target_vector fp_vector ;;
               Ok (acc ++ [(fst row, similarity)]))
            (fingerprint_candidates db book_id exclude_book_ids) [] ;;
        Ok (sort_by_similarity books_with_similarity)
  end.

Definition get_similar_books_by_fingerprint (db : database) (book_id : Z)
  (limit : Z) (exclude_book_ids : option (list Z)) : result (list Book.t) :=
  ranked <- ranked_by_fingerprint db book_id exclude_book_ids ;;
  Ok (take_books limit ranked).
End Searches.
End Computed.

(* ------------------------------------------------------------------ *)
(** ** The candidates, in the words of the specification *)

(** A book id is in the caller's exclusion list. *)
Definition listed (exclude_book_ids : option (list Z)) (id : Z) : bool :=
  match exclude_book_ids with
  | Some ids => existsb (Z.eqb id) ids
  | None => false
  end.

(** The rows the fingerprint search scores, in the order of its query: each
    book, in table order, with its fingerprint row, when that row is not the
    anchor's, counts at least 3 ratings, and the book is not excluded. *)
Definition rows_to_score (db : database) (book_id : Z)
  (exclude_book_ids : option (list Z)) : list (Book.t * BookFingerprint.t) :=
  flat_map
    (fun b =>
       flat_map
         (fun fp =>
            if (BookFingerprint.book_id fp =? Book.id b)
               && negb (BookFingerprint.book_id fp =? book_id)
               && (3 <=? BookFingerprint.total_ratings fp)
               && negb (listed exclude_book_ids (Book.id b))
            then [(b, fp)] else [])
         (book_fingerprints db))
    (books db).

(** The books the embedding search scores, in the order of its query: of the
    first 100 books other than the target and not excluded, those that have
    an embedding, each with it. *)
Definition books_to_score (db : database) (book_id : Z)
  (exclude_book_ids : option (list Z)) : list (Book.t * list R) :=
  flat_map
    (fun b => match Book.description_embedding b with
              | Some (x :: e) => [(b, x :: e)]
              | _ => []
              end)
    (firstn 100
       (filter
          (fun b => negb (Book.id b =? book_id)
                    && negb (listed exclude_book_ids (Book.id b)))
          (books db))).

(** [pool] has, for each of [rows] in order, its book with the score that
    [similarity] returns for its vector against [target]. *)
Definition scored_with {A : Type} (similarity : list R -> list R -> result R)
  (target : list R) (book_of : A -> Book.t) (vector_of : A -> list R)
  (rows : list A) (pool : list (Book.t * R)) : Prop :=
  Forall2
    (fun row entry =>
       fst entry = book_of row
       /\ similarity target (vector_of row) = Ok (snd entry))
    rows pool.

(* ------------------------------------------------------------------ *)
(** ** The popularity fallback, in the words of the specification *)

(** A row the popularity fallback may recommend to the user: a book with its
    fingerprint, at least 10 ratings, a [star_equivalent] of at least 4.0,
    and outside the exclusion set the flag implies. *)
Definition popular_row (db : database) (user_id : Z) (exclude_read : bool)
  (row : Book.t * BookFingerprint.t) : Prop :=
  In (fst row) (books db)
  /\ In (snd row) (book_fingerprints db)
  /\ BookFingerprint.book_id (snd row) = Book.id (fst row)
  /\ 10 <= BookFingerprint.total_ratings (snd row)
  /\ (exists q : Q,
         BookFingerprint.star_equivalent (snd row) = Some q /\ (4 # 1 <= q)%Q)
  /\ ~ excluded_by_flag db user_id exclude_read (Book.id (fst row)).

(* ================================================================== *)
(** * More sample data *)



(** The sample database after the fingerprint of book 1 was computed. *)
Definition rated_db : database := fst (update_book_fingerprint 7 demo_db 1).

(** A request of user 13, who has not rated book 1 yet, that sets [pace] to 3
    and nothing else. *)
Definition first_request : MultiDimensionalRatingCreate :=
  mk_rating_create
    (fun d => match d with
              | Pace => Set_ (Some 3)
              | _ => Unset
              end)
    1.

(* ================================================================== *)
(** * The two kinds of recommendation *)

(** An entry of the first strategy: a book of the table with a fingerprint
    at or above the floor, recommended for its similar feel at score 0.9. *)
Definition similar_feel_entry (db : database) (r : recommendation) : Prop :=
  reason r = SimilarFeel
  /\ score r = (9 # 10)%Q
  /\ In (book r) (books db)
  /\ has_reliable_fingerprint db RELIABILITY_FLOOR (book r).

(** An entry of the popularity fallback: a book whose fingerprint has at
    least 10 ratings and a [star_equivalent] of at least 4.0, which the reason
    quotes, at score 0.7. *)
Definition highly_rated_entry (db : database) (r : recommendation) : Prop :=
  score r = (7 # 10)%Q
  /\ exists fp : BookFingerprint.t,
      In (book r, fp) (books_join_fingerprints db)
      /\ reason r = HighlyRated (BookFingerprint.star_equivalent fp)
      /\ 10 <= BookFingerprint.total_ratings fp
      /\ exists q : Q,
          BookFingerprint.star_equivalent fp = Some q /\ (4 # 1 <= q)%Q.

(** The recommendation the fallback makes of a popular row. *)
Definition popular_entry (row : Book.t * BookFingerprint.t) : recommendation :=
  mk_recommendation (fst row)
    (HighlyRated (BookFingerprint.star_equivalent (snd row))) (7 # 10).

(* ================================================================== *)
(** * app/services/embeddings.py: the text that is embedded

    Strings are sequences of ASCII characters here.  The sentence-transformers
    model is an argument: [None] when the library is not installed, otherwise
    the [encode] method, which may raise.  For a fixed model the cache of
    [generate_embedding] does not change what it returns. *)

(** [c.isspace()] on an ASCII character. *)
Definition is_space (c : ascii) : bool :=
  let n := nat_of_ascii c in
  ((9 <=? n) && (n <=? 13) || (28 <=? n) && (n <=? 32))%nat.

Fixpoint lstrip (s : string) : string :=
  match s with
  | EmptyString => EmptyString
  | String c s' => if is_space c then lstrip s' else s
  end.

Fixpoint rstrip (s : string) : string :=
  match s with
  | EmptyString => EmptyString
  | String c s' =>
      match rstrip s' with
      | EmptyString => if is_space c then EmptyString else String c EmptyString
      | r => String c r
      end
  end.

(** [s.strip()]. *)
Definition strip (s : string) : string := rstrip (lstrip s).

(** Truthiness of a string. *)
Definition nonempty (s : string) : bool :=
  match s with
  | EmptyString => false
  | String _ _ => true
  end.

Definition generate_embedding (model : option (string -> result (list R)))
  (text : string) : option (list R) :=
  if negb (nonempty text) || negb (nonempty (strip text)) then None
  else
    match model with
    | None => None
    | Some encode =>
        match encode text with
        | Ok embedding => Some embedding
        | Raise _ => None
        end
    end.

(** [description[:500] + "..." if len(description) > 500 else description]. *)
Definition shortened (description : string) : string :=
  if (500 <? String.length description)%nat
  then String.append (substring 0 500 description) "..."
  else description.

(** The list [parts] of [generate_book_embedding]. *)
Definition book_parts (title author : string) (description : option string)
  (genres : option (list string)) : list string :=
  (if nonempty title then [String.append "Title: " title] else [])
  ++ (if nonempty author then [String.append "Author: " author] else [])
  ++ match genres with
     | Some (g :: gs) =>
         [String.append "Genres: " (String.concat ", " (g :: gs))]
     | _ => []
     end
  ++ match description with
     | Some d =>
         if nonempty d then [String.append "Description: " (shortened d)]
         else []
     | None => []
     end.

Definition generate_book_embedding (model : option (string -> result (list R)))
  (title author : string) (description : option string)
  (genres : option (list string)) : option (list R) :=
  match book_parts title author description genres with
  | [] => None
  | part :: parts =>
      let combined_text := String.concat " | " (part :: parts) in
      generate_embedding model combined_text
  end.

(** Every character of a string is white space. *)
Fixpoint all_space (s : string) : bool :=
  match s with
  | EmptyString => true
  | String c s' => is_space c && all_space s'
  end.

(** What the model answers on a text, as [generate_embedding] passes it on. *)
Definition encoded (model : option (string -> result (list R)))
  (text : string) : option (list R) :=
  match model with
  | None => None
  | Some encode =>
      match encode text with
      | Ok embedding => Some embedding
      | Raise _ => None
      end
  end.

(** Some field of the book gives a part of the text. *)
Definition has_content (title author : string) (description : option string)
  (genres : option (list string)) : bool :=
  nonempty title || nonempty author
  || match genres with Some (_ :: _) => true | _ => false end
  || match description with Some d => nonempty d | None => false end.


(* ================================================================== *)
(** * Sums and means *)

Lemma fold_left_Zadd (l : list Z) (a : Z) :
  fold_left Z.add l a = a + fold_right Z.add 0 l.
Proof.
  revert a; induction l as [|x l IH]; intros a; simpl.
  - lia.
  - rewrite IH; lia.
Qed.

Lemma fold_left_Qplus (l : list Q) (a : Q) :
  (fold_left Qplus l a == a + total_Q l)%Q.
Proof.
  revert a; induction l as [|x l IH]; intros a; simpl.
  - ring.
  - rewrite IH; ring.
Qed.

Lemma sum_Q_total (l : list Q) : (sum_Q l == total_Q l)%Q.
Proof. unfold sum_Q; rewrite fold_left_Qplus; ring. Qed.

Lemma inject_sum_Z (l : list Z) :
  (inject_Z (sum_Z l) == total_Q (map inject_Z l))%Q.
Proof.
  unfold sum_Z; rewrite fold_left_Zadd, Z.add_0_l.
  induction l as [|x l IH]; simpl.
  - reflexivity.
  - rewrite inject_Z_plus, IH; reflexivity.
Qed.

Lemma len_Q_cons_nonzero {A : Type} (x : A) (l : list A) :
  ~ (len_Q (x :: l) == 0)%Q.
Proof.
  unfold len_Q, Qeq, inject_Z; cbn [Qnum Qden length].
  lia.
Qed.

Lemma len_Q_map {A B : Type} (f : A -> B) (l : list A) :
  len_Q (map f l) = len_Q l.
Proof. unfold len_Q; now rewrite length_map. Qed.

Lemma sql_avg_is_mean (col : list (option Z)) :
  is_mean_of (map inject_Z (non_null col)) (sql_avg col).
Proof.
  unfold sql_avg.
  destruct (non_null col) as [|v vs]; [reflexivity|].
  unfold is_mean_of; cbn [map].
  eexists; split; [reflexivity|].
  change (inject_Z v :: map inject_Z vs) with (map inject_Z (v :: vs)).
  rewrite len_Q_map, <- inject_sum_Z.
  rewrite Qmult_comm; apply Qmult_div_r, len_Q_cons_nonzero.
Qed.

Lemma mean_or_none_is_mean (xs : list Q) : is_mean_of xs (mean_or_none xs).
Proof.
  destruct xs as [|x xs]; [reflexivity|].
  unfold is_mean_of, mean_or_none.
  eexists; split; [reflexivity|].
  rewrite <- sum_Q_total.
  rewrite Qmult_comm; apply Qmult_div_r, len_Q_cons_nonzero.
Qed.

(* ================================================================== *)
(** * Numbers a float holds exactly *)

Lemma trailing_zeros_nonneg (p : positive) : 0 <= trailing_zeros p.
Proof. induction p; cbn [trailing_zeros]; lia. Qed.

Lemma odd_part_split (p : positive) :
  Zpos p = Zpos (odd_part p) * 2 ^ trailing_zeros p.
Proof.
  induction p as [p IH|p IH|]; cbn [odd_part trailing_zeros];
    [rewrite Z.pow_0_r; lia | | reflexivity].
  pose proof (trailing_zeros_nonneg p).
  rewrite Z.pow_add_r, Z.pow_1_r by lia.
  rewrite (Pos2Z.inj_xO p), IH; ring.
Qed.

Lemma odd_part_odd (p : positive) : Z.odd (Zpos (odd_part p)) = true.
Proof. induction p; cbn [odd_part]; auto. Qed.

Lemma odd_divides_half (o y : Z) :
  Z.odd o = true -> (o | 2 * y) -> (o | y).
Proof.
  intros Hodd [c Hc].
  assert (Heven : Z.even c = true).
  { assert (H : Z.even (c * o) = true) by (rewrite <- Hc, Z.even_mul; reflexivity).
    rewrite Z.even_mul, <- (Z.negb_odd o), Hodd, orb_false_r in H; exact H. }
  apply Z.even_spec in Heven; destruct Heven as [c' ->].
  exists c'; lia.
Qed.

Lemma odd_divides_scaled (o n s : Z) :
  Z.odd o = true -> 0 <= s -> (o | n * 2 ^ s) -> (o | n).
Proof.
  intros Hodd Hs; revert n; pattern s; apply natlike_ind; [| |exact Hs].
  - intros n; now rewrite Z.pow_0_r, Z.mul_1_r.
  - intros x Hx IH n Hdiv; apply IH.
    apply odd_divides_half; [exact Hodd|].
    rewrite Z.pow_succ_r in Hdiv by exact Hx.
    replace (2 * (n * 2 ^ x)) with (n * (2 * 2 ^ x)) by ring; exact Hdiv.
Qed.

Lemma odd_power_unique (o1 o2 a b : Z) :
  Z.odd o1 = true -> Z.odd o2 = true -> 0 <= a -> 0 <= b ->
  o1 * 2 ^ a = o2 * 2 ^ b -> o1 = o2 /\ a = b.
Proof.
  assert (Hle : forall o1 o2 a b,
             Z.odd o1 = true -> 0 <= a <= b ->
             o1 * 2 ^ a = o2 * 2 ^ b -> o1 = o2 /\ a = b).
  { clear; intros o1 o2 a b Hodd Hab Heq.
    replace b with ((b - a) + a) in Heq by lia.
    rewrite Z.pow_add_r, Z.mul_assoc in Heq by lia.
    apply Z.mul_cancel_r in Heq; [|apply Z.pow_nonzero; lia].
    destruct (Z.eq_dec a b) as [->|Hne].
    - rewrite Z.sub_diag, Z.pow_0_r, Z.mul_1_r in Heq; auto.
    - exfalso.
      replace (b - a) with (Z.succ (b - a - 1)) in Heq by lia.
      rewrite Z.pow_succ_r in Heq by lia.
      rewrite Heq, !Z.odd_mul in Hodd; cbn in Hodd.
      now rewrite andb_false_r in Hodd. }
  intros H1 H2 Ha Hb Heq.
  destruct (Z.le_ge_cases a b) as [Hab|Hab].
  - apply (Hle o1 o2 a b); auto.
  - symmetry in Heq; destruct (Hle o2 o1 b a) as [-> ->]; auto.
Qed.

Lemma log2_odd_part (p : positive) :
  Z.log2 (Zpos p) = trailing_zeros p + Z.log2 (Zpos (odd_part p)).
Proof.
  rewrite (odd_part_split p) at 1.
  apply Z.log2_mul_pow2; [lia | apply trailing_zeros_nonneg].
Qed.

Lemma below_power (x b : Z) : 0 < x -> 0 <= b -> Z.log2 x < b -> x < 2 ^ b.
Proof. intros Hx Hb H; now apply Z.log2_lt_pow2. Qed.

Lemma is_binary64_sound (q : Q) : is_binary64 q = true -> binary64_value q.
Proof.
  unfold is_binary64, binary64_value; cbv zeta; intros H.
  apply andb_true_iff in H; destruct H as [Hmod Hc].
  apply Z.eqb_eq in Hmod.
  pose proof (odd_part_split (Qden q)) as Hden.
  pose proof (trailing_zeros_nonneg (Qden q)) as Hk.
  set (od := Zpos (odd_part (Qden q))) in *.
  set (k := trailing_zeros (Qden q)) in *.
  assert (Hn : Qnum q = od * (Qnum q / od))
    by (apply Z.div_exact; [subst od; discriminate | exact Hmod]).
  set (c' := Qnum q / od) in *.
  assert (Hgoal : forall m e,
             Z.abs m < 2 ^ 53 -> - 1074 <= e <= 971 ->
             c' * 2 ^ 1074 = m * 2 ^ (e + 1074) * 2 ^ k ->
             exists m e : Z,
               Z.abs m < 2 ^ 53 /\ - 1074 <= e <= 971
               /\ (q * inject_Z (2 ^ 1074) == inject_Z (m * 2 ^ (e + 1074)))%Q).
  { intros m e Hm He Heq; exists m, e; split; [exact Hm|]; split; [exact He|].
    unfold Qeq; cbn [Qnum Qden Qmult inject_Z].
    rewrite Pos.mul_1_r, Z.mul_1_r, Hden, Hn.
    set (A := 2 ^ 1074) in *; set (E := 2 ^ (e + 1074)) in *.
    set (K := 2 ^ k) in *.
    replace (od * c' * A) with (od * (c' * A)) by ring.
    rewrite Heq; ring. }
  destruct c' as [|c|c] eqn:Hc'; cbn [Z.abs] in Hc.
  - apply (Hgoal 0 0); [reflexivity | lia | ring].
  - apply andb_true_iff in Hc; destruct Hc as [Hc Hhigh].
    apply andb_true_iff in Hc; destruct Hc as [Hsig Hlow].
    apply Z.ltb_lt in Hsig, Hhigh; apply Z.leb_le in Hlow.
    pose proof (odd_part_split c) as Hsplit.
    pose proof (trailing_zeros_nonneg c) as Ht.
    rewrite log2_odd_part in Hhigh.
    set (o := Zpos (odd_part c)) in *; set (t := trailing_zeros c) in *.
    set (j := Z.max 0 (t - k - 971)).
    assert (Hoj : o * 2 ^ j < 2 ^ 53).
    { destruct (Z.eq_dec j 0) as [->|Hj]; [rewrite Z.pow_0_r; lia|].
      pose proof (Z.log2_nonneg o).
      rewrite Z.mul_comm.
      apply below_power; [|lia|].
      - apply Z.mul_pos_pos; [apply Z.pow_pos_nonneg; lia | subst o; lia].
      - rewrite Z.mul_comm, Z.log2_mul_pow2 by (subst o; lia). lia. }
    assert (Hpos : 0 < o * 2 ^ j)
      by (apply Z.mul_pos_pos; [subst o; lia | apply Z.pow_pos_nonneg; lia]).
    apply (Hgoal (o * 2 ^ j) (t - k - j));
      [rewrite Z.abs_eq by lia; exact Hoj | lia |].
    rewrite Hsplit; fold o t.
    rewrite <- !Z.mul_assoc, <- !Z.pow_add_r by lia.
    do 2 f_equal; lia.
  - apply andb_true_iff in Hc; destruct Hc as [Hc Hhigh].
    apply andb_true_iff in Hc; destruct Hc as [Hsig Hlow].
    apply Z.ltb_lt in Hsig, Hhigh; apply Z.leb_le in Hlow.
    pose proof (odd_part_split c) as Hsplit.
    pose proof (trailing_zeros_nonneg c) as Ht.
    rewrite log2_odd_part in Hhigh.
    set (o := Zpos (odd_part c)) in *; set (t := trailing_zeros c) in *.
    set (j := Z.max 0 (t - k - 971)).
    assert (Hoj : o * 2 ^ j < 2 ^ 53).
    { destruct (Z.eq_dec j 0) as [->|Hj]; [rewrite Z.pow_0_r; lia|].
      pose proof (Z.log2_nonneg o).
      rewrite Z.mul_comm.
      apply below_power; [|lia|].
      - apply Z.mul_pos_pos; [apply Z.pow_pos_nonneg; lia | subst o; lia].
      - rewrite Z.mul_comm, Z.log2_mul_pow2 by (subst o; lia). lia. }
    assert (Hpos : 0 < o * 2 ^ j)
      by (apply Z.mul_pos_pos; [subst o; lia | apply Z.pow_pos_nonneg; lia]).
    apply (Hgoal (- (o * 2 ^ j)) (t - k - j));
      [rewrite Z.abs_opp, Z.abs_eq by lia; exact Hoj | lia |].
    change (Z.neg c) with (- Z.pos c); rewrite Hsplit; fold o t.
    rewrite !Z.mul_opp_l; f_equal.
    rewrite <- !Z.mul_assoc, <- !Z.pow_add_r by lia.
    do 2 f_equal; lia.
Qed.

Lemma is_binary64_complete (q : Q) : binary64_value q -> is_binary64 q = true.
Proof.
  intros [m [e [Hm [He Heq]]]].
  unfold Qeq in Heq; cbn [Qnum Qden Qmult inject_Z] in Heq.
  rewrite Pos.mul_1_r, Z.mul_1_r in Heq.
  pose proof (odd_part_split (Qden q)) as Hden.
  pose proof (trailing_zeros_nonneg (Qden q)) as Hk.
  pose proof (odd_part_odd (Qden q)) as Hodd.
  unfold is_binary64; cbv zeta.
  set (od := Zpos (odd_part (Qden q))) in *.
  set (k := trailing_zeros (Qden q)) in *.
  assert (Hod : od <> 0) by (subst od; discriminate).
  rewrite Hden in Heq.
  assert (Hdiv : (od | Qnum q)).
  { apply (odd_divides_scaled od (Qnum q) 1074); [exact Hodd | lia |].
    exists (m * 2 ^ (e + 1074) * 2 ^ k); rewrite Heq; ring. }
  destruct Hdiv as [c' Hc'].
  rewrite Hc', Z.mod_mul, Z.div_mul, Z.eqb_refl by exact Hod; cbn [andb].
  assert (Hcore : Z.abs c' * 2 ^ (0 + 1074) = Z.abs m * 2 ^ (e + 1074 + k)).
  { rewrite Hc' in Heq.
    assert (H : c' * 2 ^ 1074 = m * 2 ^ (e + 1074 + k)).
    { apply (Z.mul_cancel_l _ _ od Hod).
      rewrite (Z.pow_add_r 2 (e + 1074) k) by lia.
      set (A := 2 ^ 1074) in *; set (E := 2 ^ (e + 1074)) in *.
      set (K := 2 ^ k) in *.
      replace (od * (c' * A)) with (c' * od * A) by ring.
      rewrite Heq; ring. }
    apply (f_equal Z.abs) in H; rewrite !Z.abs_mul in H.
    rewrite !(Z.abs_eq (2 ^ _)) in H by (apply Z.pow_nonneg; lia).
    exact H. }
  destruct (Z.abs c') as [|c|c] eqn:Hc; [reflexivity | | reflexivity].
  assert (Hpm : exists pm, Z.abs m = Zpos pm).
  { destruct m as [|pm|pm]; cbn [Z.abs] in *; [|now exists pm|now exists pm].
    exfalso; rewrite Z.mul_0_l in Hcore.
    apply Z.mul_eq_0 in Hcore; destruct Hcore as [H|H]; [discriminate|].
    revert H; apply Z.pow_nonzero; lia. }
  destruct Hpm as [pm Hpm]; rewrite Hpm in *.
  pose proof (odd_part_split c) as Hsc.
  pose proof (odd_part_split pm) as Hsm.
  pose proof (trailing_zeros_nonneg c) as Htc.
  pose proof (trailing_zeros_nonneg pm) as Htm.
  pose proof (log2_odd_part c) as Hlc.
  pose proof (log2_odd_part pm) as Hlm.
  rewrite Hsc, Hsm in Hcore.
  rewrite <- !Z.mul_assoc, <- !Z.pow_add_r in Hcore by lia.
  apply odd_power_unique in Hcore;
    [| apply odd_part_odd | apply odd_part_odd | lia | lia].
  destruct Hcore as [Ho Ht].
  assert (Hlog : Z.log2 (Zpos pm) < 53)
    by (apply Z.log2_lt_pow2; [lia | exact Hm]).
  assert (Hle : Zpos (odd_part pm) <= Zpos pm).
  { assert (1 <= 2 ^ trailing_zeros pm)
      by (apply Z.lt_pred_le, Z.pow_pos_nonneg; lia).
    set (P := 2 ^ trailing_zeros pm) in *; nia. }
  apply andb_true_iff; split; [apply andb_true_iff; split|].
  - apply Z.ltb_lt; rewrite Ho; lia.
  - apply Z.leb_le; lia.
  - apply Z.ltb_lt; rewrite Hlc, Ho; lia.
Qed.

(** [is_binary64] decides whether a rational is the value of a float. *)
Lemma is_binary64_spec (q : Q) : is_binary64 q = true <-> binary64_value q.
Proof. split; [apply is_binary64_sound | apply is_binary64_complete]. Qed.

(* ================================================================== *)
(** * Cosine similarity *)

Lemma Reqb_true (a b : R) : Reqb a b = true <-> a = b.
Proof. unfold Reqb; destruct (Req_dec_T a b); split; congruence. Qed.

Lemma Reqb_false (a b : R) : Reqb a b = false <-> a <> b.
Proof. unfold Reqb; destruct (Req_dec_T a b); split; congruence. Qed.

Lemma cosine_similarity_same_length (vec1 vec2 : list R) :
  length vec1 = length vec2 ->
  cosine_similarity vec1 vec2 = Ok (cosine_value vec1 vec2).
Proof.
  intros Hlen; unfold cosine_similarity, cosine_value.
  rewrite Hlen, Nat.eqb_refl; simpl.
  destruct (Reqb (magnitude vec1) 0) eqn:H1; simpl; [reflexivity|].
  destruct (Reqb (magnitude vec2) 0) eqn:H2; simpl; [reflexivity|].
  apply Reqb_false in H1, H2.
  unfold py_truediv.
  destruct (Req_dec_T (magnitude vec1 * magnitude vec2) 0) as [H0|_].
  - apply Rmult_integral in H0; tauto.
  - reflexivity.
Qed.

(** C9.  [cosine_similarity] raises [ValueError] (the spec's
    DimensionMismatch) when the two vectors differ in length.  On vectors of
    one length it always returns: 0.0 when either magnitude is exactly zero,
    and otherwise the quotient, whose division is reached with both
    magnitudes, and so their product, nonzero. *)
Theorem cosine_similarity_total (vec1 vec2 : list R) :
  (length vec1 <> length vec2 ->
   cosine_similarity vec1 vec2
   = Raise (ValueError "Vectors must have same dimension"))
  /\ (length vec1 = length vec2 ->
      exists r : R,
        cosine_similarity vec1 vec2 = Ok r
        /\ (magnitude vec1 = 0%R \/ magnitude vec2 = 0%R -> r = 0%R)
        /\ (magnitude vec1 <> 0%R -> magnitude vec2 <> 0%R ->
            (magnitude vec1 * magnitude vec2)%R <> 0%R
            /\ py_truediv (dot vec1 vec2) (magnitude vec1 * magnitude vec2)
               = Ok r)).
Proof.
  split.
  - intros Hlen; unfold cosine_similarity.
    apply Nat.eqb_neq in Hlen; now rewrite Hlen.
  - intros Hlen; exists (cosine_value vec1 vec2).
    split; [now apply cosine_similarity_same_length|].
    unfold cosine_value; split.
    + intros [H|H]; apply Reqb_true in H; rewrite H; simpl;
        [reflexivity | now rewrite orb_true_r].
    + intros H1 H2.
      assert (H12 : (magnitude vec1 * magnitude vec2)%R <> 0%R).
      { intros H0; apply Rmult_integral in H0; tauto. }
      split; [exact H12|].
      apply Reqb_false in H1, H2; rewrite H1, H2; simpl.
      unfold py_truediv.
      destruct (Req_dec_T (magnitude vec1 * magnitude vec2) 0); [tauto|reflexivity].
Qed.

Lemma cosine_similarity_total_witness :
  cosine_similarity [1%R; 0%R] [1%R]
  = Raise (ValueError "Vectors must have same dimension")
  /\ exists r : R, cosine_similarity [0%R; 0%R] [3%R; 4%R] = Ok r
                   /\ (magnitude [0%R; 0%R] = 0%R
                       \/ magnitude [3%R; 4%R] = 0%R -> r = 0%R).
Proof.
  split.
  - apply (cosine_similarity_total [1%R; 0%R] [1%R]); simpl; lia.
  - destruct (cosine_similarity_total [0%R; 0%R] [3%R; 4%R]) as [_ H].
    destruct (H eq_refl) as [r [Hr [Hz _]]].
    exists r; split; [exact Hr | exact Hz].
Defined.

(* ================================================================== *)
(** * Fingerprint recompute *)

Lemma find_map_replace {A : Type} (p : A -> bool) (new : A) (l : list A) (x : A) :
  p new = true ->
  find p l = Some x ->
  find p (map (fun y => if p y then new else y) l) = Some new.
Proof.
  intros Hnew; induction l as [|y l IH]; simpl; [discriminate|].
  destruct (p y) eqn:Hy.
  - intros _; now rewrite Hnew.
  - intros H; rewrite Hy; auto.
Qed.

Lemma find_app_new {A : Type} (p : A -> bool) (new : A) (l : list A) :
  p new = true ->
  find p l = None ->
  find p (l ++ [new]) = Some new.
Proof.
  intros Hnew; induction l as [|y l IH]; simpl.
  - now rewrite Hnew.
  - destruct (p y); [discriminate|auto].
Qed.

Lemma update_book_fingerprint_ratings (now : Z) (db : database) (book_id : Z) :
  multi_dimensional_ratings (fst (update_book_fingerprint now db book_id))
  = multi_dimensional_ratings db.
Proof.
  unfold update_book_fingerprint.
  destruct (get_fingerprint db book_id); reflexivity.
Qed.

Lemma update_book_fingerprint_stored (now : Z) (db : database) (book_id : Z) :
  get_fingerprint (fst (update_book_fingerprint now db book_id)) book_id
  = Some (snd (update_book_fingerprint now db book_id)).
Proof.
  unfold update_book_fingerprint.
  destruct (get_fingerprint db book_id) as [old|] eqn:Hget;
    unfold get_fingerprint in *; cbn [fst snd set_fingerprints book_fingerprints].
  - eapply (find_map_replace (fun fp => BookFingerprint.book_id fp =? book_id));
      [apply Z.eqb_refl | exact Hget].
  - apply (find_app_new (fun fp => BookFingerprint.book_id fp =? book_id));
      [apply Z.eqb_refl | exact Hget].
Qed.

(** The row of the recompute: the statistics, under a stamp. *)
Lemma update_book_fingerprint_value (now : Z) (db : database) (book_id : Z) :
  snd (update_book_fingerprint now db book_id)
  = let stats := fingerprint_stats db book_id in
    BookFingerprint.mk book_id
      (stats_avg stats Pace) (stats_avg stats EmotionalImpact)
      (stats_avg stats Complexity) (stats_avg stats CharacterDevelopment)
      (stats_avg stats PlotQuality) (stats_avg stats ProseStyle)
      (stats_avg stats Originality)
      (mean_or_none (non_null (map (stats_avg stats) all_dimensions)))
      (stats_total_ratings stats)
      (BookFingerprint.updated_at (snd (update_book_fingerprint now db book_id))).
Proof.
  unfold update_book_fingerprint.
  destruct (get_fingerprint db book_id); reflexivity.
Qed.

Lemma update_book_fingerprint_aggregate (now : Z) (db : database) (book_id : Z) :
  aggregate_of (ratings_of_book db book_id)
    (snd (update_book_fingerprint now db book_id)).
Proof.
  rewrite update_book_fingerprint_value; cbv zeta.
  unfold aggregate_of; repeat split.
  - intros d; unfold dimension_values.
    destruct d; cbn [BookFingerprint.avg BookFingerprint.avg_pace
      BookFingerprint.avg_emotional_impact BookFingerprint.avg_complexity
      BookFingerprint.avg_character_development BookFingerprint.avg_plot_quality
      BookFingerprint.avg_prose_style BookFingerprint.avg_originality
      fingerprint_stats stats_avg];
      apply sql_avg_is_mean.
  - unfold dimension_means.
    cbn [BookFingerprint.star_equivalent].
    match goal with
    | |- is_mean_of ?xs (mean_or_none ?ys) => change xs with ys
    end.
    apply mean_or_none_is_mean.
Qed.


Lemma aggregate_of_nil (fp : BookFingerprint.t) : aggregate_of [] fp -> unrated fp.
Proof.
  intros [Havg [Hstar Htotal]].
  assert (Hnone : forall d, BookFingerprint.avg d fp = None).
  { intros d; exact (Havg d). }
  repeat split; [exact Hnone | | exact Htotal].
  unfold dimension_means in Hstar; cbn [map all_dimensions] in Hstar.
  now rewrite !Hnone in Hstar.
Qed.


(* ------------------------------------------------------------------ *)
(** ** The recompute against the words of the specification *)









(* ------------------------------------------------------------------ *)
(** ** Two recomputes in a row *)







(* ================================================================== *)
(** * Updating an existing rating *)

Lemma dimension_eq_dec (d1 d2 : dimension) : {d1 = d2} + {d1 <> d2}.
Proof. decide equality. Defined.

Lemma get_set_same (d : dimension) (v : option Z) (r : MultiDimensionalRating.t) :
  MultiDimensionalRating.get d (MultiDimensionalRating.set d v r) = v.
Proof. destruct d; reflexivity. Qed.

Lemma get_set_other (d d' : dimension) (v : option Z)
  (r : MultiDimensionalRating.t) :
  d <> d' ->
  MultiDimensionalRating.get d (MultiDimensionalRating.set d' v r)
  = MultiDimensionalRating.get d r.
Proof. destruct d, d'; intros H; try reflexivity; contradiction. Qed.

Lemma identity_columns_set (d : dimension) (v : option Z)
  (r : MultiDimensionalRating.t) :
  identity_columns (MultiDimensionalRating.set d v r) = identity_columns r.
Proof. destruct d; reflexivity. Qed.

Section ApplyUpdate.
Variable rating_data : MultiDimensionalRatingCreate.

Lemma dump_items_cons (x : dimension) (ds : list dimension) :
  dump_items rating_data (x :: ds)
  = match rc_dimension rating_data x with
    | Unset => []
    | Set_ v => [(x, v)]
    end ++ dump_items rating_data ds.
Proof. reflexivity. Qed.

Lemma setattr_all_cons (x : dimension) (ds : list dimension)
  (r : MultiDimensionalRating.t) :
  setattr_all (dump_items rating_data (x :: ds)) r
  = setattr_all (dump_items rating_data ds)
      match rc_dimension rating_data x with
      | Unset => r
      | Set_ v => MultiDimensionalRating.set x v r
      end.
Proof.
  rewrite dump_items_cons; unfold setattr_all; rewrite fold_left_app.
  now destruct (rc_dimension rating_data x).
Qed.

Lemma setattr_all_identity (ds : list dimension)
  (r : MultiDimensionalRating.t) :
  identity_columns (setattr_all (dump_items rating_data ds) r)
  = identity_columns r.
Proof.
  revert r; induction ds as [|x ds IH]; intros r; [reflexivity|].
  rewrite setattr_all_cons, IH.
  destruct (rc_dimension rating_data x);
    [reflexivity | apply identity_columns_set].
Qed.

Lemma setattr_all_untouched (ds : list dimension)
  (r : MultiDimensionalRating.t) (d : dimension) :
  ~ In d ds ->
  MultiDimensionalRating.get d (setattr_all (dump_items rating_data ds) r)
  = MultiDimensionalRating.get d r.
Proof.
  revert r; induction ds as [|x ds IH]; intros r Hin; [reflexivity|].
  rewrite setattr_all_cons, IH by (intros H; apply Hin; now right).
  destruct (rc_dimension rating_data x); [reflexivity|].
  apply get_set_other; intros ->; apply Hin; now left.
Qed.

Lemma setattr_all_get (ds : list dimension)
  (r : MultiDimensionalRating.t) (d : dimension) :
  NoDup ds -> In d ds ->
  MultiDimensionalRating.get d (setattr_all (dump_items rating_data ds) r)
  = match rc_dimension rating_data d with
    | Unset => MultiDimensionalRating.get d r
    | Set_ v => v
    end.
Proof.
  revert r; induction ds as [|x ds IH]; intros r Hnd Hin; [destruct Hin|].
  inversion Hnd as [|? ? Hx Hds]; subst.
  rewrite setattr_all_cons.
  destruct (dimension_eq_dec d x) as [->|Hne].
  - rewrite setattr_all_untouched by exact Hx.
    destruct (rc_dimension rating_data x); [reflexivity | apply get_set_same].
  - destruct Hin as [->|Hin]; [contradiction|].
    rewrite (IH _ Hds Hin).
    destruct (rc_dimension rating_data d); [|reflexivity].
    destruct (rc_dimension rating_data x);
      [reflexivity | now apply get_set_other].
Qed.
End ApplyUpdate.

Lemma all_dimensions_complete (d : dimension) : In d all_dimensions.
Proof. destruct d; simpl; tauto. Qed.

Lemma all_dimensions_NoDup : NoDup all_dimensions.
Proof.
  unfold all_dimensions.
  repeat (constructor; [simpl; intuition discriminate|]).
  constructor.
Qed.


(** C10.  When the user already has a rating for the book, the upsert
    overwrites the dimensions the request sets (a dimension set to null
    becomes null) and keeps the stored value of every dimension the request
    leaves out; the rating's id, [user_id], [book_id] and [created_at] are
    unchanged, and the updated row takes the old one's place in the table. *)
Theorem update_rating_keeps_unset_dimensions (now : Z) (db : database)
  (rating_data : MultiDimensionalRatingCreate) (current_user : Z)
  (b : Book.t) (existing : MultiDimensionalRating.t) :
  get_book db (rc_book_id rating_data) = Some b ->
  get_rating db current_user (rc_book_id rating_data) = Some existing ->
  exists (db' : database) (rating : MultiDimensionalRating.t),
    create_or_update_rating now db rating_data current_user = Ok (db', rating)
    /\ (forall d : dimension,
           MultiDimensionalRating.get d rating
           = match rc_dimension rating_data d with
             | Unset => MultiDimensionalRating.get d existing
             | Set_ v => v
             end)
    /\ MultiDimensionalRating.id rating = MultiDimensionalRating.id existing
    /\ MultiDimensionalRating.user_id rating
       = MultiDimensionalRating.user_id existing
    /\ MultiDimensionalRating.book_id rating
       = MultiDimensionalRating.book_id existing
    /\ MultiDimensionalRating.created_at rating
       = MultiDimensionalRating.created_at existing
    /\ multi_dimensional_ratings db'
       = map (fun r => if MultiDimensionalRating.id r
                          =? MultiDimensionalRating.id existing
                       then rating else r)
             (multi_dimensional_ratings db)
    /\ In rating (multi_dimensional_ratings db').
Proof.
  intros Hbook Hexisting.
  unfold create_or_update_rating; rewrite Hbook, Hexisting.
  set (rating := MultiDimensionalRating.set_updated_at now _).
  set (db1 := set_ratings _ db).
  pose proof (update_book_fingerprint_ratings now db1 (rc_book_id rating_data))
    as Hrt.
  destruct (update_book_fingerprint now db1 (rc_book_id rating_data))
    as [db2 fp]; cbn [fst] in Hrt.
  exists db2, rating; split; [reflexivity|].
  pose proof (setattr_all_identity rating_data all_dimensions existing) as Hid.
  unfold identity_columns in Hid; injection Hid as Hid1 Hid2 Hid3 Hid4.
  split; [|split; [exact Hid1|split; [exact Hid2|split; [exact Hid3|
            split; [exact Hid4|split]]]]].
  - intros d; subst rating.
    transitivity (MultiDimensionalRating.get d
                    (setattr_all (model_dump_exclude_unset rating_data) existing)).
    + now destruct d.
    + apply setattr_all_get;
        [apply all_dimensions_NoDup | apply all_dimensions_complete].
  - rewrite Hrt; reflexivity.
  - rewrite Hrt; subst db1; cbn [multi_dimensional_ratings set_ratings].
    unfold get_rating in Hexisting.
    destruct (find_some _ _ Hexisting) as [Hin _].
    apply in_map_iff; exists existing; split; [|exact Hin].
    now rewrite Z.eqb_refl.
Qed.

Lemma update_rating_keeps_unset_dimensions_witness :
  exists (db' : database) (rating : MultiDimensionalRating.t),
    create_or_update_rating 8 demo_db demo_request 10 = Ok (db', rating)
    /\ MultiDimensionalRating.pace rating = None
    /\ MultiDimensionalRating.emotional_impact rating = Some 4
    /\ MultiDimensionalRating.complexity rating = Some 2
    /\ MultiDimensionalRating.created_at rating = 100.
Proof.
  destruct (update_rating_keeps_unset_dimensions 8 demo_db demo_request 10
              (Book.mk 1 None) demo_rating_1 eq_refl eq_refl)
    as [db' [rating [Hrun [Hdims [_ [_ [_ [Hcreated _]]]]]]]].
  exists db', rating; split; [exact Hrun|].
  split; [exact (Hdims Pace)|].
  split; [exact (Hdims EmotionalImpact)|].
  split; [exact (Hdims Complexity) | exact Hcreated].
Defined.

(* ================================================================== *)
(** * The stable descending sort *)

Section StableSortFacts.
Context {A K : Type}.
Variable key : A -> K.
Variable ltb : K -> K -> bool.

Lemma insert_desc_perm (x : A) (l : list A) :
  Permutation (x :: l) (insert_desc key ltb x l).
Proof.
  induction l as [|y l IH]; simpl; [reflexivity|].
  destruct (ltb (key x) (key y)); [|reflexivity].
  rewrite perm_swap; now constructor.
Qed.

Lemma sort_desc_perm (l : list A) : Permutation l (sort_desc key ltb l).
Proof.
  induction l as [|x l IH]; simpl; [reflexivity|].
  rewrite <- insert_desc_perm; now constructor.
Qed.

Lemma sort_desc_In (l : list A) (x : A) :
  In x (sort_desc key ltb l) <-> In x l.
Proof.
  split; apply Permutation_in;
    [symmetry|]; apply sort_desc_perm.
Qed.


(** Order: the comparison is asymmetric and its complement transitive. *)
Hypothesis ltb_asym : forall a b, ltb a b = true -> ltb b a = false.
Hypothesis geb_trans :
  forall a b c, ltb a b = false -> ltb b c = false -> ltb a c = false.


Lemma insert_desc_sorted (x : A) (l : list A) :
  StronglySorted (fun a b => ltb (key a) (key b) = false) l ->
  StronglySorted (fun a b => ltb (key a) (key b) = false)
    (insert_desc key ltb x l).
Proof.
  induction 1 as [|y l Hs IH Hy]; simpl.
  - repeat constructor.
  - destruct (ltb (key x) (key y)) eqn:Hxy.
    + constructor; [exact IH|].
      eapply Permutation_Forall; [apply insert_desc_perm|].
      constructor; [now apply ltb_asym | exact Hy].
    + constructor; [now constructor|].
      constructor; [exact Hxy|].
      eapply Forall_impl; [|exact Hy].
      intros z Hz; cbv beta in *; eauto.
Qed.

Lemma sort_desc_sorted (l : list A) :
  StronglySorted (fun a b => ltb (key a) (key b) = false)
    (sort_desc key ltb l).
Proof.
  induction l as [|x l IH]; simpl;
    [constructor | now apply insert_desc_sorted].
Qed.

(** Stability: a class of items that the comparison does not separate keeps
    its order. *)
Variable same : A -> bool.
Hypothesis same_tied :
  forall x y, same x = true -> same y = true -> ltb (key x) (key y) = false.

Lemma insert_desc_filter (x : A) (l : list A) :
  filter same (insert_desc key ltb x l) = filter same (x :: l).
Proof.
  induction l as [|y l IH]; [reflexivity|].
  cbn [insert_desc].
  destruct (ltb (key x) (key y)) eqn:Hxy; [|reflexivity].
  cbn [filter] in *; rewrite IH.
  destruct (same x) eqn:Hx, (same y) eqn:Hy; try reflexivity.
  rewrite (same_tied x y Hx Hy) in Hxy; discriminate.
Qed.

Lemma sort_desc_filter (l : list A) :
  filter same (sort_desc key ltb l) = filter same l.
Proof.
  induction l as [|x l IH]; [reflexivity|].
  cbn [sort_desc]; rewrite insert_desc_filter.
  cbn [filter]; now rewrite IH.
Qed.
End StableSortFacts.

Lemma Rltb_true (a b : R) : Rltb a b = true <-> (a < b)%R.
Proof. unfold Rltb; destruct (Rlt_dec a b); split; intros; congruence. Qed.

Lemma Rltb_false (a b : R) : Rltb a b = false <-> (a >= b)%R.
Proof.
  unfold Rltb; destruct (Rlt_dec a b); split; intros; try congruence; lra.
Qed.

Lemma StronglySorted_impl {A : Type} (P Q : A -> A -> Prop) (l : list A) :
  (forall x y, P x y -> Q x y) -> StronglySorted P l -> StronglySorted Q l.
Proof.
  intros HPQ; induction 1 as [|x l Hs IH Hx]; constructor; [exact IH|].
  eapply Forall_impl; [|exact Hx]; auto.
Qed.

Lemma sort_by_similarity_ranking (pool : list (Book.t * R)) :
  ranking_of pool (sort_by_similarity pool).
Proof.
  unfold ranking_of, sort_by_similarity; split; [apply sort_desc_perm|]; split.
  - apply StronglySorted_impl
      with (P := fun x y => Rltb (snd x) (snd y) = false).
    + intros x y H; now apply Rltb_false.
    + apply sort_desc_sorted.
      * intros a b H; apply Rltb_true in H; apply Rltb_false; lra.
      * intros a b c H1 H2; apply Rltb_false in H1, H2; apply Rltb_false; lra.
  - intros s; apply sort_desc_filter.
    intros x y Hx Hy; apply Reqb_true in Hx, Hy.
    apply Rltb_false; lra.
Qed.

Lemma py_slice_to_nonneg {A : Type} (n : Z) (l : list A) :
  0 <= n -> py_slice_to n l = firstn (Z.to_nat n) l.
Proof.
  intros Hn; unfold py_slice_to.
  destruct (0 <=? n) eqn:H; [reflexivity | lia].
Qed.

Lemma In_firstn {A : Type} (n : nat) (l : list A) (x : A) :
  In x (firstn n l) -> In x l.
Proof.
  intros H; rewrite <- (firstn_skipn n l); apply in_or_app; now left.
Qed.

Lemma NoDup_firstn {A : Type} (n : nat) (l : list A) :
  NoDup l -> NoDup (firstn n l).
Proof.
  intros H; rewrite <- (firstn_skipn n l) in H.
  now apply NoDup_app_remove_r in H.
Qed.

Lemma py_slice_to_In {A : Type} (n : Z) (l : list A) (x : A) :
  In x (py_slice_to n l) -> In x l.
Proof. unfold py_slice_to; destruct (0 <=? n); apply In_firstn. Qed.

Lemma py_slice_to_length {A : Type} (n : Z) (l : list A) :
  0 <= n -> Z.of_nat (length (py_slice_to n l)) <= n.
Proof.
  intros Hn; rewrite py_slice_to_nonneg by exact Hn.
  rewrite length_firstn; lia.
Qed.

(* ================================================================== *)
(** * Similarity search *)

Lemma filter_filter {A : Type} (f g : A -> bool) (l : list A) :
  filter f (filter g l) = filter (fun x => g x && f x) l.
Proof.
  induction l as [|x l IH]; [reflexivity|].
  cbn [filter]; destruct (g x); cbn [filter andb]; now rewrite IH.
Qed.

Lemma mem_In (x : Z) (xs : list Z) : mem x xs = true <-> In x xs.
Proof.
  unfold mem; rewrite existsb_exists; split.
  - intros [y [Hy Hxy]]; apply Z.eqb_eq in Hxy; now subst.
  - intros H; exists x; split; [exact H | apply Z.eqb_refl].
Qed.

Lemma mem_not_In (x : Z) (xs : list Z) : mem x xs = false <-> ~ In x xs.
Proof.
  rewrite <- mem_In; destruct (mem x xs); split; congruence.
Qed.

Lemma where_not_excluded_In {A : Type} (id_of : A -> Z)
  (exclude_book_ids : option (list Z)) (rows : list A) (row : A) :
  In row (where_not_excluded id_of exclude_book_ids rows) <->
  In row rows /\ not_excluded exclude_book_ids (id_of row).
Proof.
  unfold where_not_excluded, not_excluded.
  destruct exclude_book_ids as [[|x xs]|]; simpl; try tauto.
  rewrite filter_In, negb_true_iff.
  rewrite (mem_not_In (id_of row) (x :: xs)); simpl; tauto.
Qed.

Lemma books_join_fingerprints_In (db : database) (row : Book.t * BookFingerprint.t) :
  In row (books_join_fingerprints db) <->
  In (fst row) (books db)
  /\ In (snd row) (book_fingerprints db)
  /\ BookFingerprint.book_id (snd row) = Book.id (fst row).
Proof.
  unfold books_join_fingerprints; rewrite in_flat_map; split.
  - intros [b [Hb Hrow]].
    apply in_map_iff in Hrow; destruct Hrow as [fp [<- Hfp]].
    apply filter_In in Hfp; destruct Hfp as [Hfp Hid].
    apply Z.eqb_eq in Hid; simpl; auto.
  - destruct row as [b fp]; simpl; intros [Hb [Hfp Hid]].
    exists b; split; [exact Hb|].
    apply in_map, filter_In; split; [exact Hfp | now apply Z.eqb_eq].
Qed.

Lemma fingerprint_candidates_In (db : database) (book_id : Z)
  (exclude_book_ids : option (list Z)) (row : Book.t * BookFingerprint.t) :
  In row (fingerprint_candidates db book_id exclude_book_ids) <->
  In row (books_join_fingerprints db)
  /\ BookFingerprint.book_id (snd row) <> book_id
  /\ RELIABILITY_FLOOR <= BookFingerprint.total_ratings (snd row)
  /\ not_excluded exclude_book_ids (Book.id (fst row)).
Proof.
  unfold fingerprint_candidates.
  rewrite (where_not_excluded_In (fun row => Book.id (fst row))).
  rewrite filter_In, andb_true_iff, negb_true_iff, Z.eqb_neq, Z.leb_le.
  tauto.
Qed.

Lemma fingerprint_vector_length (fp : BookFingerprint.t) :
  length (BookFingerprint.fingerprint_vector fp) = 7%nat.
Proof. reflexivity. Qed.

Lemma fingerprint_loop (target_fp : BookFingerprint.t)
  (rows : list (Book.t * BookFingerprint.t)) (acc : list (Book.t * R)) :
  for_each
    (fun acc row =>
       let fp_vector := BookFingerprint.fingerprint_vector (snd row) in
       similarity <-
         cosine_similarity (BookFingerprint.fingerprint_vector target_fp)
           fp_vector ;;
       Ok (acc ++ [(fst row, similarity)]))
    rows acc
  = Ok (acc
        ++ map (fun row =>
                  (fst row,
                   cosine_value (BookFingerprint.fingerprint_vector target_fp)
                     (BookFingerprint.fingerprint_vector (snd row))))
               rows).
Proof.
  revert acc; induction rows as [|row rows IH]; intros acc; cbn [for_each map].
  - now rewrite app_nil_r.
  - cbv zeta.
    rewrite cosine_similarity_same_length
      by now rewrite !fingerprint_vector_length.
    cbn [bind]; rewrite IH, <- app_assoc; reflexivity.
Qed.

Lemma ranked_by_fingerprint_pool (db : database) (book_id : Z)
  (exclude_book_ids : option (list Z)) :
  ranked_by_fingerprint db book_id exclude_book_ids
  = Ok (sort_by_similarity (fingerprint_pool db book_id exclude_book_ids)).
Proof.
  unfold ranked_by_fingerprint, fingerprint_pool.
  destruct (get_fingerprint db book_id) as [target_fp|]; [|reflexivity].
  destruct (BookFingerprint.total_ratings target_fp <? RELIABILITY_FLOOR);
    [reflexivity|].
  cbv zeta; rewrite fingerprint_loop; reflexivity.
Qed.

Lemma embedding_loop (target : list R) (candidates : list Book.t)
  (acc : list (Book.t * R)) :
  forallb
    (fun b => match truthy_embedding (Book.description_embedding b) with
              | Some e => (length e =? length target)%nat
              | None => true
              end)
    candidates = true ->
  for_each
    (fun acc book =>
       match truthy_embedding (Book.description_embedding book) with
       | Some embedding =>
           similarity <- cosine_similarity target embedding ;;
           Ok (acc ++ [(book, similarity)])
       | None => Ok acc
       end)
    candidates acc
  = Ok (acc
        ++ flat_map
             (fun b => match truthy_embedding (Book.description_embedding b) with
                       | Some e => [(b, cosine_value target e)]
                       | None => []
                       end)
             candidates).
Proof.
  revert acc; induction candidates as [|b candidates IH]; intros acc Hall;
    cbn [for_each flat_map forallb] in *.
  - now rewrite app_nil_r.
  - apply andb_true_iff in Hall; destruct Hall as [Hb Hall].
    destruct (truthy_embedding (Book.description_embedding b)) as [e|].
    + apply Nat.eqb_eq in Hb.
      rewrite cosine_similarity_same_length by (symmetry; exact Hb).
      cbn [bind]; rewrite IH by exact Hall.
      now rewrite <- app_assoc.
    + cbn [bind]; rewrite IH by exact Hall; reflexivity.
Qed.

Lemma ranked_by_embedding_pool (db : database) (book_id : Z)
  (exclude_book_ids : option (list Z)) :
  embeddings_match_target db book_id exclude_book_ids = true ->
  ranked_by_embedding db book_id exclude_book_ids
  = Ok (sort_by_similarity (embedding_pool db book_id exclude_book_ids)).
Proof.
  unfold ranked_by_embedding, embedding_pool, embeddings_match_target.
  destruct (target_embedding db book_id) as [target|]; [|reflexivity].
  intros Hall; rewrite embedding_loop by exact Hall; reflexivity.
Qed.

Lemma take_books_In (limit : Z) (ranked : list (Book.t * R)) (b : Book.t) :
  In b (take_books limit ranked) -> exists s : R, In (b, s) ranked.
Proof.
  unfold take_books; intros H.
  apply in_map_iff in H; destruct H as [[b' s] [<- H]].
  exists s; now apply py_slice_to_In in H.
Qed.

Lemma take_books_nil (limit : Z) : take_books limit [] = [].
Proof.
  unfold take_books, py_slice_to.
  destruct (0 <=? limit); now rewrite firstn_nil.
Qed.

(** C3.  When the anchor book has no fingerprint, or one with fewer than 3
    ratings, fingerprint similarity returns the empty list.  For every anchor
    the search returns a list, and every book in it has a fingerprint with at
    least 3 ratings, is not the anchor, and is outside the exclusion list the
    caller passed. *)
Theorem fingerprint_similarity_floor (db : database) (book_id : Z) (limit : Z)
  (exclude_book_ids : option (list Z)) :
  (get_fingerprint db book_id = None ->
   get_similar_books_by_fingerprint db book_id limit exclude_book_ids = Ok [])
  /\ (forall target_fp : BookFingerprint.t,
         get_fingerprint db book_id = Some target_fp ->
         BookFingerprint.total_ratings target_fp < RELIABILITY_FLOOR ->
         get_similar_books_by_fingerprint db book_id limit exclude_book_ids
         = Ok [])
  /\ exists similar : list Book.t,
      get_similar_books_by_fingerprint db book_id limit exclude_book_ids
      = Ok similar
      /\ Forall
           (fun b => In b (books db)
                     /\ has_reliable_fingerprint db RELIABILITY_FLOOR b
                     /\ Book.id b <> book_id
                     /\ not_excluded exclude_book_ids (Book.id b))
           similar.
Proof.
  unfold get_similar_books_by_fingerprint.
  rewrite ranked_by_fingerprint_pool; cbn [bind].
  split; [|split].
  - intros Hnone; unfold fingerprint_pool; rewrite Hnone.
    cbn [sort_by_similarity sort_desc]; now rewrite take_books_nil.
  - intros target_fp Hsome Hlow; unfold fingerprint_pool; rewrite Hsome.
    apply Z.ltb_lt in Hlow; rewrite Hlow.
    cbn [sort_by_similarity sort_desc]; now rewrite take_books_nil.
  - eexists; split; [reflexivity|].
    apply Forall_forall; intros b Hb.
    apply take_books_In in Hb; destruct Hb as [s Hb].
    apply (proj1 (sort_desc_In snd Rltb _ _)) in Hb.
    unfold fingerprint_pool in Hb.
    destruct (get_fingerprint db book_id) as [target_fp|]; [|destruct Hb].
    destruct (BookFingerprint.total_ratings target_fp <? RELIABILITY_FLOOR);
      [destruct Hb|].
    apply in_map_iff in Hb; destruct Hb as [[b' fp] [Heq Hrow]].
    cbn [fst snd] in Heq; injection Heq as -> _.
    apply fingerprint_candidates_In in Hrow; cbn [fst snd] in Hrow.
    destruct Hrow as [Hjoin [Hanchor [Hfloor Hexcl]]].
    apply books_join_fingerprints_In in Hjoin; cbn [fst snd] in Hjoin.
    destruct Hjoin as [Hbook [Hfp Hid]].
    split; [exact Hbook|]; split; [now exists fp|].
    split; [congruence | exact Hexcl].
Qed.

Lemma fingerprint_similarity_floor_witness :
  get_similar_books_by_fingerprint tie_db 9 10 None = Ok []
  /\ get_similar_books_by_fingerprint sparse_db 1 10 None = Ok []
  /\ exists similar : list Book.t,
      get_similar_books_by_fingerprint tie_db 1 10 (Some [2]) = Ok similar
      /\ Forall
           (fun b => In b (books tie_db)
                     /\ has_reliable_fingerprint tie_db RELIABILITY_FLOOR b
                     /\ Book.id b <> 1
                     /\ not_excluded (Some [2]) (Book.id b))
           similar.
Proof.
  split; [|split].
  - apply (fingerprint_similarity_floor tie_db 9 10 None); reflexivity.
  - apply (proj1 (proj2 (fingerprint_similarity_floor sparse_db 1 10 None))
             (flat_fingerprint 1 2)); reflexivity.
  - apply (fingerprint_similarity_floor tie_db 1 10 (Some [2])).
Defined.

(* ------------------------------------------------------------------ *)
(** ** The candidate queries against the words of the specification *)

Lemma filter_all {A : Type} (l : list A) : filter (fun _ => true) l = l.
Proof. induction l as [|x l IH]; [reflexivity | cbn; now rewrite IH]. Qed.

Lemma where_not_excluded_listed {A : Type} (id_of : A -> Z)
  (exclude_book_ids : option (list Z)) (rows : list A) :
  where_not_excluded id_of exclude_book_ids rows
  = filter (fun row => negb (listed exclude_book_ids (id_of row))) rows.
Proof.
  destruct exclude_book_ids as [[|x xs]|]; cbn [where_not_excluded listed];
    [symmetry; apply filter_all | reflexivity | symmetry; apply filter_all].
Qed.

Lemma filter_of_flat_map {X Y : Type} (keep : Y -> bool)
  (rows_of : X -> list Y) (xs : list X) :
  filter keep (flat_map rows_of xs)
  = flat_map (fun x => filter keep (rows_of x)) xs.
Proof.
  induction xs as [|x xs IH]; [reflexivity|].
  cbn [flat_map]; now rewrite filter_app, IH.
Qed.

Lemma filter_of_pairs {A B : Type} (p : A * B -> bool) (q : B -> bool)
  (a : A) (l : list B) :
  filter p (map (pair a) (filter q l))
  = flat_map (fun b => if q b && p (a, b) then [(a, b)] else []) l.
Proof.
  induction l as [|b l IH]; [reflexivity|].
  cbn [filter flat_map].
  destruct (q b); cbn [map filter andb]; [|exact IH].
  destruct (p (a, b)); cbn [app]; now rewrite IH.
Qed.

Lemma rows_to_score_query (db : database) (book_id : Z)
  (exclude_book_ids : option (list Z)) :
  fingerprint_candidates db book_id exclude_book_ids
  = rows_to_score db book_id exclude_book_ids.
Proof.
  unfold fingerprint_candidates, rows_to_score, books_join_fingerprints.
  rewrite where_not_excluded_listed, filter_filter, filter_of_flat_map.
  apply flat_map_ext; intros b.
  rewrite filter_of_pairs.
  apply flat_map_ext; intros fp; cbn [fst snd].
  now rewrite !andb_assoc.
Qed.

Lemma books_to_score_query (db : database) (book_id : Z)
  (exclude_book_ids : option (list Z)) :
  flat_map
    (fun b => match truthy_embedding (Book.description_embedding b) with
              | Some e => [(b, e)]
              | None => []
              end)
    (embedding_candidates db book_id exclude_book_ids)
  = books_to_score db book_id exclude_book_ids.
Proof.
  unfold embedding_candidates, books_to_score, sql_limit.
  rewrite where_not_excluded_listed, filter_filter.
  change (Z.to_nat EMBEDDING_CANDIDATE_CAP) with 100%nat.
  apply flat_map_ext; intros b.
  now destruct (Book.description_embedding b) as [[|x e]|].
Qed.

(** The loops of the two searches collect the scores in the order of the
    rows. *)
Lemma computed_fingerprint_loop (similarity : list R -> list R -> result R)
  (target : list R) (rows : list (Book.t * BookFingerprint.t))
  (pool acc : list (Book.t * R)) :
  scored_with similarity target fst
    (fun row => BookFingerprint.fingerprint_vector (snd row)) rows pool ->
  for_each
    (fun acc row =>
       let fp_vector := BookFingerprint.fingerprint_vector (snd row) in
       score <- similarity target fp_vector ;;
       Ok (acc ++ [(fst row, score)]))
    rows acc
  = Ok (acc ++ pool).
Proof.
  unfold scored_with; intros Hscored; revert acc.
  induction Hscored as [|row [b s] rows pool [Hb Hs] _ IH]; intros acc;
    cbn [for_each].
  - now rewrite app_nil_r.
  - cbv zeta; cbn [fst snd] in *; rewrite Hs; cbn [bind].
    rewrite IH, <- app_assoc, Hb; reflexivity.
Qed.

Lemma computed_embedding_loop (similarity : list R -> list R -> result R)
  (target : list R) (candidates : list Book.t) (pool acc : list (Book.t * R)) :
  scored_with similarity target fst snd
    (flat_map
       (fun b => match truthy_embedding (Book.description_embedding b) with
                 | Some e => [(b, e)]
                 | None => []
                 end)
       candidates)
    pool ->
  for_each
    (fun acc book =>
       match truthy_embedding (Book.description_embedding book) with
       | Some embedding =>
           score <- similarity target embedding ;;
           Ok (acc ++ [(book, score)])
       | None => Ok acc
       end)
    candidates acc
  = Ok (acc ++ pool).
Proof.
  unfold scored_with; revert pool acc.
  induction candidates as [|b candidates IH]; intros pool acc Hscored;
    cbn [for_each flat_map] in *.
  - inversion Hscored; now rewrite app_nil_r.
  - destruct (truthy_embedding (Book.description_embedding b)) as [e|].
    + cbn [app] in Hscored.
      inversion Hscored as [|row [b' s] rows pool' [Hb Hs] Hrest]; subst.
      cbn [fst snd] in *; rewrite Hs; cbn [bind].
      rewrite (IH pool' _ Hrest), <- app_assoc, Hb; reflexivity.
    + cbn [app bind] in *; now apply IH.
Qed.

Lemma target_embedding_found (db : database) (book_id : Z) (b : Book.t)
  (target : list R) :
  get_book db book_id = Some b ->
  Book.description_embedding b = Some target ->
  target <> [] ->
  target_embedding db book_id = Some target.
Proof.
  intros Hb He Hne; unfold target_embedding; rewrite Hb, He.
  destruct target; [contradiction | reflexivity].
Qed.

(** With the real-number [cosine_similarity] for the scoring function the
    searches of [Computed] are the searches of the embedding. *)
Lemma computed_searches_exact (db : database) (book_id limit : Z)
  (exclude_book_ids : option (list Z)) :
  Computed.get_similar_books_by_fingerprint cosine_similarity db book_id limit
    exclude_book_ids
  = get_similar_books_by_fingerprint db book_id limit exclude_book_ids
  /\ Computed.get_similar_books_by_embedding cosine_similarity db book_id
       limit exclude_book_ids
     = get_similar_books_by_embedding db book_id limit exclude_book_ids.
Proof. split; reflexivity. Qed.

Lemma py_slice_to_cut {A : Type} (n : Z) (l : list A) :
  exists k : nat,
    py_slice_to n l = firstn k l /\ (0 <= n -> k = Z.to_nat n).
Proof.
  unfold py_slice_to; destruct (0 <=? n) eqn:Hn.
  - exists (Z.to_nat n); auto.
  - eexists; split; [reflexivity|].
    apply Z.leb_gt in Hn; lia.
Qed.

(** C4, as the code has it.  Both similarity searches sort their scored
    candidates by descending score with a stable sort and return a front
    part of the sorted list, the first [limit] when [limit] is not negative:
    the result lists the candidates by descending similarity as computed,
    candidates whose computed scores are equal in the order the candidate
    query returned them (book ids play no part).  This holds whatever
    function computes the scores, hence for the scores of the floating-point
    [cosine_similarity]; a search returns when that function returns a score
    for every candidate it scores.  The fingerprint search scores every row
    above the floor that is not the anchor's and not excluded; the embedding
    search scores the first 100 such books only. *)
Theorem similarity_ranking_stable (similarity : list R -> list R -> result R) :
  (forall (db : database) (book_id limit : Z)
      (exclude_book_ids : option (list Z)) (anchor : BookFingerprint.t)
      (pool : list (Book.t * R)),
      get_fingerprint db book_id = Some anchor ->
      3 <= BookFingerprint.total_ratings anchor ->
      scored_with similarity (BookFingerprint.fingerprint_vector anchor) fst
        (fun row => BookFingerprint.fingerprint_vector (snd row))
        (rows_to_score db book_id exclude_book_ids) pool ->
      exists (ranked : list (Book.t * R)) (k : nat),
        ranking_of pool ranked
        /\ Computed.get_similar_books_by_fingerprint similarity db book_id
             limit exclude_book_ids
           = Ok (map fst (firstn k ranked))
        /\ (0 <= limit -> k = Z.to_nat limit))
  /\ (forall (db : database) (book_id limit : Z)
        (exclude_book_ids : option (list Z)) (b : Book.t) (target : list R)
        (pool : list (Book.t * R)),
        get_book db book_id = Some b ->
        Book.description_embedding b = Some target ->
        target <> [] ->
        scored_with similarity target fst snd
          (books_to_score db book_id exclude_book_ids) pool ->
        exists (ranked : list (Book.t * R)) (k : nat),
          ranking_of pool ranked
          /\ Computed.get_similar_books_by_embedding similarity db book_id
               limit exclude_book_ids
             = Ok (map fst (firstn k ranked))
          /\ (0 <= limit -> k = Z.to_nat limit)).
Proof.
  split.
  - intros db book_id limit exclude_book_ids anchor pool Hanchor Hfloor Hscored.
    destruct (py_slice_to_cut limit (sort_by_similarity pool)) as [k [Hk Hcut]].
    exists (sort_by_similarity pool), k.
    split; [apply sort_by_similarity_ranking|]; split; [|exact Hcut].
    unfold Computed.get_similar_books_by_fingerprint,
      Computed.ranked_by_fingerprint.
    rewrite Hanchor.
    replace (BookFingerprint.total_ratings anchor <? RELIABILITY_FLOOR)
      with false by (symmetry; apply Z.ltb_ge; exact Hfloor).
    cbv zeta; rewrite rows_to_score_query.
    rewrite (computed_fingerprint_loop similarity _ _ pool []) by exact Hscored.
    cbn [bind app]; unfold take_books; now rewrite Hk.
  - intros db book_id limit exclude_book_ids b target pool Hb He Hne Hscored.
    destruct (py_slice_to_cut limit (sort_by_similarity pool)) as [k [Hk Hcut]].
    exists (sort_by_similarity pool), k.
    split; [apply sort_by_similarity_ranking|]; split; [|exact Hcut].
    unfold Computed.get_similar_books_by_embedding,
      Computed.ranked_by_embedding.
    rewrite (target_embedding_found db book_id b target Hb He Hne).
    rewrite (computed_embedding_loop similarity target _ pool [])
      by (rewrite books_to_score_query; exact Hscored).
    cbn [bind app]; unfold take_books; now rewrite Hk.
Qed.

Lemma similarity_ranking_stable_witness :
  (exists ranked : list (Book.t * R),
      ranking_of
        [(Book.mk 3 None,
          cosine_value
            (BookFingerprint.fingerprint_vector (flat_fingerprint 1 3))
            (BookFingerprint.fingerprint_vector (flat_fingerprint 3 3)));
         (Book.mk 2 None,
          cosine_value
            (BookFingerprint.fingerprint_vector (flat_fingerprint 1 3))
            (BookFingerprint.fingerprint_vector (flat_fingerprint 2 3)))]
        ranked
      /\ Computed.get_similar_books_by_fingerprint cosine_similarity tie_db 1
           1 None
         = Ok (map fst (firstn 1 ranked)))
  /\ (exists ranked : list (Book.t * R),
         ranking_of
           [(Book.mk 2 (Some [0%R; 1%R]), cosine_value [1%R; 0%R] [0%R; 1%R]);
            (Book.mk 3 (Some [1%R; 1%R]), cosine_value [1%R; 0%R] [1%R; 1%R])]
           ranked
         /\ Computed.get_similar_books_by_embedding cosine_similarity
              embedded_db 1 1 None
            = Ok (map fst (firstn 1 ranked))).
Proof.
  destruct (similarity_ranking_stable cosine_similarity) as [Hfp Hemb].
  split.
  - destruct (Hfp tie_db 1 1 None (flat_fingerprint 1 3)
                [(Book.mk 3 None,
                  cosine_value
                    (BookFingerprint.fingerprint_vector (flat_fingerprint 1 3))
                    (BookFingerprint.fingerprint_vector (flat_fingerprint 3 3)));
                 (Book.mk 2 None,
                  cosine_value
                    (BookFingerprint.fingerprint_vector (flat_fingerprint 1 3))
                    (BookFingerprint.fingerprint_vector (flat_fingerprint 2 3)))])
      as [ranked [k [Hrank [Hres Hk]]]].
    + reflexivity.
    + simpl; lia.
    + repeat (constructor;
              [split; [reflexivity
                      | now apply cosine_similarity_same_length]|]).
      constructor.
    + exists ranked; split; [exact Hrank|].
      rewrite Hres, Hk by lia; reflexivity.
  - destruct (Hemb embedded_db 1 1 None (Book.mk 1 (Some [1%R; 0%R]))
                [1%R; 0%R]
                [(Book.mk 2 (Some [0%R; 1%R]),
                  cosine_value [1%R; 0%R] [0%R; 1%R]);
                 (Book.mk 3 (Some [1%R; 1%R]),
                  cosine_value [1%R; 0%R] [1%R; 1%R])])
      as [ranked [k [Hrank [Hres Hk]]]].
    + reflexivity.
    + reflexivity.
    + discriminate.
    + repeat (constructor;
              [split; [reflexivity
                      | now apply cosine_similarity_same_length]|]).
      constructor.
    + exists ranked; split; [exact Hrank|].
      rewrite Hres, Hk by lia; reflexivity.
Defined.

Lemma tie_db_candidates :
  fingerprint_candidates tie_db 1 None
  = [(Book.mk 3 None, flat_fingerprint 3 3);
     (Book.mk 2 None, flat_fingerprint 2 3)].
Proof. reflexivity. Qed.

(** C4, as the claim has it, fails: the three books of [tie_db] have one
    fingerprint, so books 3 and 2 are equally similar to book 1; the search
    returns them as the query does, book 3 before book 2, not by ascending
    id. *)
Lemma similarity_ties_keep_query_order :
  exists ranked : list (Book.t * R),
    ranked_by_fingerprint tie_db 1 None = Ok ranked
    /\ get_similar_books_by_fingerprint tie_db 1 10 None
       = Ok [Book.mk 3 None; Book.mk 2 None]
    /\ take_books 10 ranked = [Book.mk 3 None; Book.mk 2 None]
    /\ ~ ranked_with_id_tiebreak ranked.
Proof.
  unfold get_similar_books_by_fingerprint.
  rewrite ranked_by_fingerprint_pool; cbn [bind].
  eexists; split; [reflexivity|].
  unfold fingerprint_pool.
  change (get_fingerprint tie_db 1) with (Some (flat_fingerprint 1 3)).
  cbv iota beta.
  change (BookFingerprint.total_ratings (flat_fingerprint 1 3) <? RELIABILITY_FLOOR)
    with false.
  cbv iota; rewrite tie_db_candidates; cbn [map fst snd].
  change (BookFingerprint.fingerprint_vector (flat_fingerprint 3 3))
    with (BookFingerprint.fingerprint_vector (flat_fingerprint 2 3)).
  set (c := cosine_value _ _).
  assert (Hsorted : sort_by_similarity [(Book.mk 3 None, c); (Book.mk 2 None, c)]
                    = [(Book.mk 3 None, c); (Book.mk 2 None, c)]).
  { unfold sort_by_similarity; cbn [sort_desc insert_desc snd].
    replace (Rltb c c) with false; [reflexivity|].
    symmetry; apply Rltb_false; lra. }
  rewrite Hsorted.
  split; [reflexivity|]; split; [reflexivity|].
  unfold ranked_with_id_tiebreak; intros Hs.
  inversion Hs as [|x l _ Hx]; subst.
  inversion Hx as [|y l' Hy _]; subst.
  cbn [fst snd Book.id] in Hy.
  destruct Hy as [Hy|[_ Hy]]; [lra | lia].
Qed.

(* ================================================================== *)
(** * Browse by mood *)

Lemma dict_get_mood_filters_unknown (k : string) :
  ~ In k mood_labels -> dict_get mood_filters k = None.
Proof.
  intros Hk; unfold mood_filters; cbn [dict_get].
  repeat match goal with
         | |- context [String.eqb ?a k] =>
             destruct (String.eqb_spec a k) as [Heq|_];
             [exfalso; apply Hk; subst k; simpl; auto 10|]
         end.
  reflexivity.
Qed.


(** C6, as the code has it.  A mood string whose lower-case form is not one
    of the four labels gets the empty list: the query logs a warning and
    raises nothing. *)
Theorem unknown_mood_returns_empty (db : database) (mood : string) (limit : Z) :
  ~ In (lower mood) mood_labels -> get_books_by_mood db mood limit = Ok [].
Proof.
  intros Hk; unfold get_books_by_mood.
  now rewrite dict_get_mood_filters_unknown.
Qed.

Lemma unknown_mood_returns_empty_witness :
  get_books_by_mood cozy_db "Cozy" 10 = Ok [].
Proof.
  apply (unknown_mood_returns_empty cozy_db "Cozy" 10).
  simpl; intros [H|[H|[H|[H|[]]]]]; discriminate H.
Defined.

(** C6, as the claim has it, fails: "cozy" is none of the four labels, and
    the query returns the empty list for it rather than raising. *)
Lemma unknown_mood_does_not_raise :
  ~ In "cozy"%string mood_labels
  /\ get_books_by_mood cozy_db "cozy" 10 = Ok []
  /\ ~ exists e : exn, get_books_by_mood cozy_db "cozy" 10 = Raise e.
Proof.
  split; [|split].
  - simpl; intros [H|[H|[H|[H|[]]]]]; discriminate H.
  - reflexivity.
  - intros [e He]; discriminate He.
Qed.

Lemma mood_conditions (label : string) (predicate : BookFingerprint.t -> bool) :
  mood_predicate label = Some predicate ->
  exists f fs conditions,
    dict_get mood_filters label = Some (f :: fs)
    /\ map_result mood_condition (f :: fs) = Ok conditions
    /\ forall fp, forallb (fun c => c fp) conditions = predicate fp.
Proof.
  unfold mood_predicate.
  destruct (String.eqb_spec label "comfort") as [->|_];
    [|destruct (String.eqb_spec label "challenge") as [->|_];
      [|destruct (String.eqb_spec label "escape") as [->|_];
        [|destruct (String.eqb_spec label "contemplative") as [->|_];
          [|discriminate]]]];
    intros [= <-]; do 3 eexists;
    (split; [reflexivity|]; split; [reflexivity|]);
    intros fp; cbn [forallb]; now rewrite andb_true_r.
Qed.

(** C5, as the code has it.  For every known mood label, matched on the
    lower-cased input, the query applies the label's dimension-range
    predicates to the books whose fingerprint has at least 5 ratings, a
    stricter constant than the floor of 3 that fingerprint similarity uses;
    every returned book has a fingerprint with at least 5 ratings, hence at
    least 3, that satisfies the predicates. *)
Theorem mood_query_floor_is_five (db : database) (mood : string) (limit : Z)
  (predicate : BookFingerprint.t -> bool) :
  mood_predicate (lower mood) = Some predicate ->
  get_books_by_mood db mood limit
  = Ok (mood_query MOOD_MIN_RATINGS predicate db limit)
  /\ Forall
       (fun b =>
          exists fp : BookFingerprint.t,
            In fp (book_fingerprints db)
            /\ BookFingerprint.book_id fp = Book.id b
            /\ MOOD_MIN_RATINGS <= BookFingerprint.total_ratings fp
            /\ RELIABILITY_FLOOR <= BookFingerprint.total_ratings fp
            /\ predicate fp = true)
       (mood_query MOOD_MIN_RATINGS predicate db limit).
Proof.
  intros Hpred; split.
  - destruct (mood_conditions _ _ Hpred) as [f [fs [conditions [Hget [Hmap Hall]]]]].
    unfold get_books_by_mood, mood_query; rewrite Hget, Hmap; cbn [bind].
    do 3 f_equal; apply filter_ext; intros row; apply Hall.
  - apply Forall_forall; intros b Hb; unfold mood_query in Hb.
    apply in_map_iff in Hb; destruct Hb as [[b' fp] [<- Hrow]].
    apply In_firstn in Hrow.
    apply filter_In in Hrow; destruct Hrow as [Hrow Hp].
    apply filter_In in Hrow; destruct Hrow as [Hrow Hfloor].
    apply books_join_fingerprints_In in Hrow; cbn [fst snd] in *.
    apply Z.leb_le in Hfloor.
    exists fp; repeat split; try tauto.
    unfold MOOD_MIN_RATINGS, RELIABILITY_FLOOR in *; lia.
Qed.

Lemma mood_query_floor_is_five_witness :
  get_books_by_mood cozy_db "Comfort" 10 = Ok [Book.mk 8 None].
Proof.
  apply (mood_query_floor_is_five cozy_db "Comfort" 10
           (fun fp =>
              sql_ge (BookFingerprint.avg_emotional_impact fp) (4 # 1)
              && sql_le (BookFingerprint.avg_complexity fp) (3 # 1))).
  reflexivity.
Defined.

(** C5, as the claim has it, fails: book 7 of [cozy_db] has a fingerprint
    over 3 ratings, which clears the floor of fingerprint similarity, and
    satisfies the comfort predicates, so the query over the books at or above
    that floor holds it; the mood query leaves it out. *)
Lemma mood_query_ignores_similarity_floor :
  has_reliable_fingerprint cozy_db RELIABILITY_FLOOR (Book.mk 7 None)
  /\ mood_predicate "comfort" = Some (fun fp =>
         sql_ge (BookFingerprint.avg_emotional_impact fp) (4 # 1)
         && sql_le (BookFingerprint.avg_complexity fp) (3 # 1))
  /\ mood_query RELIABILITY_FLOOR
       (fun fp =>
          sql_ge (BookFingerprint.avg_emotional_impact fp) (4 # 1)
          && sql_le (BookFingerprint.avg_complexity fp) (3 # 1))
       cozy_db 10
     = [Book.mk 7 None; Book.mk 8 None]
  /\ get_books_by_mood cozy_db "comfort" 10 = Ok [Book.mk 8 None]
  /\ get_books_by_mood cozy_db "comfort" 10
     <> Ok (mood_query RELIABILITY_FLOOR
              (fun fp =>
                 sql_ge (BookFingerprint.avg_emotional_impact fp) (4 # 1)
                 && sql_le (BookFingerprint.avg_complexity fp) (3 # 1))
              cozy_db 10).
Proof.
  split; [|split; [|split; [|split]]].
  - exists (cozy_fingerprint 7 3); simpl; repeat split; try tauto.
    unfold RELIABILITY_FLOOR; lia.
  - reflexivity.
  - reflexivity.
  - reflexivity.
  - intros H; vm_compute in H; discriminate H.
Qed.

(* ================================================================== *)
(** * Favorites *)

Lemma is_highly_rated_star (r : MultiDimensionalRating.t) :
  is_highly_rated r
  = sql_ge (MultiDimensionalRating.star_equivalent r) (4 # 1).
Proof.
  unfold is_highly_rated, truthy_Q, sql_ge.
  destruct (MultiDimensionalRating.star_equivalent r) as [q|]; [|reflexivity].
  destruct (Qle_bool (4 # 1) q) eqn:Hle; [|apply andb_false_r].
  rewrite andb_true_r.
  destruct (Qeq_bool q (0 # 1)) eqn:Hz; [|reflexivity].
  apply Qle_bool_iff in Hle; apply Qeq_bool_iff in Hz.
  rewrite Hz in Hle; unfold Qle in Hle; simpl in Hle; lia.
Qed.

Lemma highly_rated_book_ids_loved (db : database) (user_id : Z) :
  highly_rated_book_ids db user_id
  = map MultiDimensionalRating.book_id (loved_ratings db user_id).
Proof.
  unfold highly_rated_book_ids, loved_ratings, user_ratings_of.
  rewrite filter_filter; f_equal.
  apply filter_ext; intros r; now rewrite is_highly_rated_star.
Qed.

(** C8, as the code has it.  The anchors of the first strategy are the books
    of the user's own ratings with [star_equivalent >= 4.0], in the order the
    ratings query returns them (the query has no ORDER BY), the first 3 at
    most. *)
Theorem favorites_in_query_order (db : database) (user_id : Z) :
  favorite_book_ids db user_id
  = firstn 3 (map MultiDimensionalRating.book_id (loved_ratings db user_id))
  /\ (length (favorite_book_ids db user_id) <= 3)%nat
  /\ Forall
       (fun book_id =>
          exists r : MultiDimensionalRating.t,
            In r (multi_dimensional_ratings db)
            /\ MultiDimensionalRating.user_id r = user_id
            /\ MultiDimensionalRating.book_id r = book_id
            /\ exists q : Q,
                MultiDimensionalRating.star_equivalent r = Some q
                /\ (4 # 1 <= q)%Q)
       (favorite_book_ids db user_id).
Proof.
  assert (Heq : favorite_book_ids db user_id
                = firstn 3 (map MultiDimensionalRating.book_id
                              (loved_ratings db user_id))).
  { unfold favorite_book_ids; rewrite highly_rated_book_ids_loved.
    now rewrite py_slice_to_nonneg by lia. }
  split; [exact Heq|]; split.
  - rewrite Heq; apply firstn_le_length.
  - rewrite Heq; apply Forall_forall; intros book_id Hb.
    apply In_firstn, in_map_iff in Hb; destruct Hb as [r [<- Hr]].
    unfold loved_ratings in Hr; apply filter_In in Hr.
    destruct Hr as [Hin Hr]; apply andb_true_iff in Hr; destruct Hr as [Hu Hs].
    exists r; split; [exact Hin|]; split; [now apply Z.eqb_eq|].
    split; [reflexivity|].
    unfold sql_ge in Hs.
    destruct (MultiDimensionalRating.star_equivalent r) as [q|];
      [|discriminate].
    exists q; split; [reflexivity | now apply Qle_bool_iff].
Qed.

(** C8, as the claim has it, fails: user 10 of [history_db] loved books 1, 2,
    3 and 4, in that order in time; the anchors are books 1, 2 and 3, the
    three oldest, where most recent first gives 4, 3 and 2. *)
Lemma favorites_not_most_recent_first :
  favorite_book_ids history_db 10 = [1; 2; 3]
  /\ favorites_most_recent_first history_db 10 = [4; 3; 2]
  /\ favorite_book_ids history_db 10 <> favorites_most_recent_first history_db 10.
Proof.
  split; [reflexivity|]; split; [reflexivity|].
  intros H; vm_compute in H; discriminate H.
Qed.

(* ================================================================== *)
(** * Personalised recommendations *)

Lemma filter_keeps_distinct_keys {A K : Type} (key : A -> K) (rows : list A)
  (keep : A -> bool) (Hkeys : NoDup (map key rows)) :
  NoDup (map key (filter keep rows)).
Proof.
  induction rows as [|row rows IH]; cbn [map filter] in *; [constructor|].
  inversion Hkeys as [|? ? Hrow Hrows]; subst.
  destruct (keep row); cbn [map]; [|auto].
  constructor; [|auto].
  intros Hin; apply Hrow.
  apply in_map_iff in Hin; destruct Hin as [y [Hy Hin]].
  apply filter_In in Hin; destruct Hin as [Hin _].
  rewrite <- Hy; now apply in_map.
Qed.

Lemma NoDup_map_perm {A B : Type} (f : A -> B) (l l' : list A) :
  Permutation l l' -> NoDup (map f l) -> NoDup (map f l').
Proof.
  intros Hp; apply Permutation_NoDup; now apply Permutation_map.
Qed.

Lemma NoDup_map_firstn {A B : Type} (f : A -> B) (n : nat) (l : list A) :
  NoDup (map f l) -> NoDup (map f (firstn n l)).
Proof. intros H; rewrite <- firstn_map; now apply NoDup_firstn. Qed.

Lemma NoDup_map_py_slice_to {A B : Type} (f : A -> B) (n : Z) (l : list A) :
  NoDup (map f l) -> NoDup (map f (py_slice_to n l)).
Proof. unfold py_slice_to; destruct (0 <=? n); apply NoDup_map_firstn. Qed.

Lemma filter_key_at_most_one (fps : list BookFingerprint.t) (k : Z) :
  NoDup (map BookFingerprint.book_id fps) ->
  (length (filter (fun fp => (BookFingerprint.book_id fp =? k)%Z) fps) <= 1)%nat.
Proof.
  induction fps as [|fp fps IH]; cbn [map filter]; [simpl; lia|].
  intros H; inversion H as [|? ? Hfp Hfps]; subst.
  destruct (BookFingerprint.book_id fp =? k) eqn:Hk; [|auto].
  apply Z.eqb_eq in Hk.
  assert (Hnone : filter (fun fp' => BookFingerprint.book_id fp' =? k) fps = []).
  { destruct (filter (fun fp' => BookFingerprint.book_id fp' =? k) fps)
      as [|fp' rest] eqn:Hf; [reflexivity|].
    exfalso; apply Hfp.
    assert (Hin : In fp' (filter (fun fp' => BookFingerprint.book_id fp' =? k) fps)).
    { rewrite Hf; now left. }
    apply filter_In in Hin; destruct Hin as [Hin Hk'].
    apply Z.eqb_eq in Hk'; rewrite Hk, <- Hk'; now apply in_map. }
  rewrite Hnone; simpl; lia.
Qed.

Lemma books_join_fingerprints_ids (db : database) :
  primary_keys_unique db ->
  NoDup (map (fun row => Book.id (fst row)) (books_join_fingerprints db)).
Proof.
  intros [Hbooks Hfps]; unfold books_join_fingerprints.
  induction (books db) as [|b bs IH]; cbn [flat_map map]; [constructor|].
  inversion Hbooks as [|? ? Hb Hbs]; subst.
  rewrite map_app; apply NoDup_app.
  - rewrite map_map; cbn [fst].
    pose proof (filter_key_at_most_one (book_fingerprints db) (Book.id b) Hfps)
      as Hone.
    destruct (filter (fun fp => BookFingerprint.book_id fp =? Book.id b)
                (book_fingerprints db)) as [|fp [|fp' rest]];
      cbn [map length] in *; [constructor | | lia].
    constructor; [intros [] | constructor].
  - now apply IH.
  - intros id Hid Hrest.
    rewrite map_map in Hid; cbn [fst] in Hid.
    apply in_map_iff in Hid; destruct Hid as [fp [<- _]].
    apply Hb.
    apply in_map_iff in Hrest; destruct Hrest as [[b' fp'] [Heq Hin]].
    apply in_flat_map in Hin; destruct Hin as [b'' [Hb'' Hin]].
    apply in_map_iff in Hin; destruct Hin as [fp'' [Hpair _]].
    injection Hpair as -> ->; cbn [fst] in Heq.
    rewrite <- Heq; now apply in_map.
Qed.

Lemma initial_exclude_ids_complete (db : database) (user_id : Z)
  (exclude_read : bool) (id : Z) :
  excluded_by_flag db user_id exclude_read id ->
  In id (initial_exclude_ids db user_id exclude_read).
Proof.
  intros [ub [Hin [Hu [Hb Hflag]]]]; unfold initial_exclude_ids, user_books_of.
  assert (Huser : In ub (filter (fun ub => UserBook.user_id ub =? user_id)
                           (user_books db))).
  { apply filter_In; split; [exact Hin | now apply Z.eqb_eq]. }
  destruct exclude_read.
  - rewrite <- Hb; now apply in_map.
  - rewrite <- Hb; apply in_map, filter_In; split; [exact Huser|].
    destruct Hflag as [Hf|[Hf|Hf]]; [discriminate | |]; rewrite Hf;
      [reflexivity | apply orb_true_r].
Qed.

(** The invariant of the first strategy's loops: the recommended ids are
    distinct, all in [exclude_ids], and none in the initial [exclude_ids],
    which [exclude_ids] only grows from. *)
Section PlannerInvariant.
Variable excluded0 : list Z.

Lemma add_similar_invariant (st : planner_state) (b : Book.t) :
  (NoDup (map recommended_id (fst st))
   /\ (forall id, In id (map recommended_id (fst st)) -> In id (snd st))
   /\ (forall id, In id excluded0 -> In id (snd st))
   /\ (forall id, In id (map recommended_id (fst st)) -> ~ In id excluded0)) ->
  let st' := add_similar st b in
  NoDup (map recommended_id (fst st'))
  /\ (forall id, In id (map recommended_id (fst st')) -> In id (snd st'))
  /\ (forall id, In id excluded0 -> In id (snd st'))
  /\ (forall id, In id (map recommended_id (fst st')) -> ~ In id excluded0).
Proof.
  intros [Hnd [Hsub [Hgrow Hout]]]; unfold add_similar.
  destruct (mem (Book.id b) (snd st)) eqn:Hmem; cbn [negb]; [tauto|].
  apply mem_not_In in Hmem; cbn [fst snd].
  rewrite map_app; cbn [map recommended_id book].
  split; [|split; [|split]].
  - apply NoDup_app; [exact Hnd | repeat constructor; intros [] |].
    intros id Hid [<-|[]]; apply Hmem; auto.
  - intros id Hid; apply in_app_or in Hid.
    destruct Hid as [Hid|[<-|[]]]; [right; auto | now left].
  - intros id Hid; right; auto.
  - intros id Hid; apply in_app_or in Hid.
    destruct Hid as [Hid|[<-|[]]]; [auto|].
    intros H0; apply Hmem; auto.
Qed.

Lemma fold_add_similar_invariant (similar : list Book.t) (st : planner_state) :
  (NoDup (map recommended_id (fst st))
   /\ (forall id, In id (map recommended_id (fst st)) -> In id (snd st))
   /\ (forall id, In id excluded0 -> In id (snd st))
   /\ (forall id, In id (map recommended_id (fst st)) -> ~ In id excluded0)) ->
  let st' := fold_left add_similar similar st in
  NoDup (map recommended_id (fst st'))
  /\ (forall id, In id (map recommended_id (fst st')) -> In id (snd st'))
  /\ (forall id, In id excluded0 -> In id (snd st'))
  /\ (forall id, In id (map recommended_id (fst st')) -> ~ In id excluded0).
Proof.
  revert st; induction similar as [|b similar IH]; intros st Hinv;
    cbn [fold_left]; [exact Hinv|].
  apply IH, add_similar_invariant, Hinv.
Qed.

Lemma strategy_one_invariant (db : database) (favorites : list Z)
  (st : planner_state) :
  (NoDup (map recommended_id (fst st))
   /\ (forall id, In id (map recommended_id (fst st)) -> In id (snd st))
   /\ (forall id, In id excluded0 -> In id (snd st))
   /\ (forall id, In id (map recommended_id (fst st)) -> ~ In id excluded0)) ->
  exists st' : planner_state,
    for_each (similar_to_favorite db) favorites st = Ok st'
    /\ NoDup (map recommended_id (fst st'))
    /\ (forall id, In id (map recommended_id (fst st')) -> In id (snd st'))
    /\ (forall id, In id excluded0 -> In id (snd st'))
    /\ (forall id, In id (map recommended_id (fst st')) -> ~ In id excluded0).
Proof.
  revert st; induction favorites as [|book_id favorites IH]; intros st Hinv;
    cbn [for_each].
  - exists st; split; [reflexivity | exact Hinv].
  - unfold similar_to_favorite at 1, get_similar_books_by_fingerprint.
    rewrite ranked_by_fingerprint_pool; cbn [bind].
    apply IH, fold_add_similar_invariant, Hinv.
Qed.
End PlannerInvariant.

Lemma popular_books_In (db : database) (exclude_ids : list Z) (n : Z)
  (row : Book.t * BookFingerprint.t) :
  In row (popular_books db exclude_ids n) ->
  In row (books_join_fingerprints db) /\ ~ In (Book.id (fst row)) exclude_ids.
Proof.
  unfold popular_books, sql_limit; intros H.
  apply In_firstn in H.
  apply (proj1 (sort_desc_In _ Z.ltb _ _)) in H.
  apply filter_In in H; destruct H as [Hin Hp].
  apply andb_true_iff in Hp; destruct Hp as [_ Hp].
  apply negb_true_iff, mem_not_In in Hp; auto.
Qed.

Lemma popular_books_ids (db : database) (exclude_ids : list Z) (n : Z) :
  primary_keys_unique db ->
  NoDup (map (fun row => Book.id (fst row)) (popular_books db exclude_ids n)).
Proof.
  intros Hkeys; unfold popular_books, sql_limit.
  apply NoDup_map_firstn.
  eapply NoDup_map_perm; [apply sort_desc_perm|].
  apply filter_keeps_distinct_keys, books_join_fingerprints_ids, Hkeys.
Qed.

(** C2.  With the primary keys of the book and fingerprint tables in force,
    the planner returns a list of recommendations whose book ids are pairwise
    distinct, none of whose books is in the exclusion set the flag implies
    (the user's whole library when the flag is set, the library books marked
    finished or dnf otherwise), and whose length is at most [limit], for
    [limit] a count, that is not negative. *)
Theorem recommendations_distinct_bounded_filtered (db : database)
  (user_id limit : Z) (exclude_read : bool) :
  primary_keys_unique db ->
  exists recs : list recommendation,
    get_personalized_recommendations db user_id limit exclude_read = Ok recs
    /\ NoDup (map recommended_id recs)
    /\ (0 <= limit -> Z.of_nat (length recs) <= limit)
    /\ Forall
         (fun r => ~ excluded_by_flag db user_id exclude_read (recommended_id r))
         recs.
Proof.
  intros Hkeys; unfold get_personalized_recommendations.
  set (excluded0 := initial_exclude_ids db user_id exclude_read).
  destruct (strategy_one_invariant excluded0 db (favorite_book_ids db user_id)
              ([], excluded0)) as [st [Hrun [Hnd [Hsub [Hgrow Hout]]]]].
  { cbn [fst snd map]; repeat split; try (intros ? []); auto; constructor. }
  rewrite Hrun; cbn [bind].
  set (recs_all :=
         if Z.of_nat (length (fst st)) <? limit
         then fst st ++ map _ (popular_books db (snd st) _)
         else fst st).
  assert (Hall : NoDup (map recommended_id recs_all)
                 /\ forall id, In id (map recommended_id recs_all) ->
                               ~ In id excluded0).
  { subst recs_all.
    destruct (Z.of_nat (length (fst st)) <? limit); [|auto].
    rewrite map_app, map_map; cbn [recommended_id book].
    split.
    - apply NoDup_app; [exact Hnd | now apply popular_books_ids |].
      intros id Hid Hpop.
      apply in_map_iff in Hpop; destruct Hpop as [row [<- Hrow]].
      apply popular_books_In in Hrow; destruct Hrow as [_ Hrow]; auto.
    - intros id Hid; apply in_app_or in Hid; destruct Hid as [Hid|Hid]; [auto|].
      apply in_map_iff in Hid; destruct Hid as [row [<- Hrow]].
      apply popular_books_In in Hrow; destruct Hrow as [_ Hrow]; auto. }
  destruct Hall as [Hall_nd Hall_out].
  eexists; split; [reflexivity|]; split; [|split].
  - apply NoDup_map_py_slice_to.
    eapply NoDup_map_perm; [apply sort_desc_perm | exact Hall_nd].
  - intros Hlimit; now apply py_slice_to_length.
  - apply Forall_forall; intros r Hr Hexcl.
    apply py_slice_to_In in Hr.
    apply (proj1 (sort_desc_In _ Qltb _ _)) in Hr.
    apply (Hall_out (recommended_id r)); [now apply in_map|].
    now apply initial_exclude_ids_complete.
Qed.

Lemma library_db_keys : primary_keys_unique library_db.
Proof.
  split; simpl; repeat (constructor; [simpl; intuition discriminate|]);
    constructor.
Defined.

Lemma recommendations_distinct_bounded_filtered_witness :
  exists recs : list recommendation,
    get_personalized_recommendations library_db 10 3 false = Ok recs
    /\ NoDup (map recommended_id recs)
    /\ Z.of_nat (length recs) <= 3
    /\ Forall
         (fun r => ~ excluded_by_flag library_db 10 false (recommended_id r))
         recs.
Proof.
  destruct (recommendations_distinct_bounded_filtered library_db 10 3 false
              library_db_keys) as [recs [Hrun [Hnd [Hlen Hexcl]]]].
  exists recs; split; [exact Hrun|]; split; [exact Hnd|].
  split; [apply Hlen; lia | exact Hexcl].
Defined.

(* ================================================================== *)
(** * Worked examples *)

(** Three ratings of pace 5, 5 and 4: the stored average is 14/3, and one
    rating of emotional impact 4 alone sets that average. *)
Example demo_fingerprint :
  snd (update_book_fingerprint 7 demo_db 1)
  = BookFingerprint.mk 1
      (Some (14 # 3)%Q) (Some (4 # 1)%Q) None None None None None
      (Some (26 # 6)%Q) 3 7.
Proof. reflexivity. Qed.

(** Deleting the single rating a book has leaves an unrated fingerprint. *)
Example delete_only_rating :
  exists db' fp,
    delete_rating 9 (mk_database [Book.mk 1 None] [] [demo_rating_1] []) 1 10
    = Ok db'
    /\ multi_dimensional_ratings db' = []
    /\ get_fingerprint db' 1 = Some fp
    /\ unrated fp.
Proof.
  do 2 eexists; split; [reflexivity|]; split; [reflexivity|].
  split; [reflexivity|].
  repeat split; intros d; destruct d; reflexivity.
Qed.

Example lower_mixed_case : lower "CoMfort" = "comfort"%string.
Proof. reflexivity. Qed.

Example column_of_filter_key :
  avg_column (remove_all "_min" "emotional_impact_min") = Ok EmotionalImpact
  /\ endswith "complexity_max" "_min" = false
  /\ endswith "complexity_max" "_max" = true.
Proof. repeat split. Qed.

(** A book that averages 4 on complexity is no comfort read, whatever its
    emotional impact. *)
Example comfort_excludes_complex :
  get_books_by_mood cozy_db "comfort" 10 = Ok [Book.mk 8 None]
  /\ In (flat_fingerprint 9 5) (book_fingerprints cozy_db).
Proof. split; [reflexivity | simpl; auto]. Qed.

Example slice_bounds :
  py_slice_to 2 [1; 2; 3] = [1; 2]
  /\ py_slice_to 5 [1; 2; 3] = [1; 2; 3]
  /\ py_slice_to (-1) [1; 2; 3] = [1; 2].
Proof. repeat split. Qed.

Example stable_sort_keeps_ties :
  sort_desc fst Z.ltb [(3, 1); (1, 2); (3, 3); (1, 4); (5, 5)]
  = [(5, 5); (3, 1); (3, 3); (1, 2); (1, 4)].
Proof. reflexivity. Qed.

Lemma sort_desc_tied {A K : Type} (key : A -> K) (ltb : K -> K -> bool)
  (l : list A) :
  (forall x y, In x l -> In y l -> ltb (key x) (key y) = false) ->
  sort_desc key ltb l = l.
Proof.
  induction l as [|x l IH]; intros Htied; [reflexivity|].
  cbn [sort_desc]; rewrite IH by (intros; apply Htied; now right).
  destruct l as [|y l]; [reflexivity|].
  cbn [insert_desc]; rewrite Htied; [reflexivity | now left | right; now left].
Qed.

(** User 10 has finished book 1, which they loved, and wants to read book 2.
    All other books resemble book 1 equally, so with a limit of 3 and the
    flag off the recommendations are books 2, 3 and 4, in query order, each
    for its similar feel. *)
Example library_recommendations :
  exists recs : list recommendation,
    get_personalized_recommendations library_db 10 3 false = Ok recs
    /\ map recommended_id recs = [2; 3; 4]
    /\ map reason recs = [SimilarFeel; SimilarFeel; SimilarFeel].
Proof.
  unfold get_personalized_recommendations.
  change (favorite_book_ids library_db 10) with [1].
  change (initial_exclude_ids library_db 10 false) with [1].
  cbn [for_each]; unfold similar_to_favorite at 1, get_similar_books_by_fingerprint.
  rewrite ranked_by_fingerprint_pool; cbn [bind snd].
  unfold fingerprint_pool.
  change (get_fingerprint library_db 1) with (Some (flat_fingerprint 1 3)).
  cbv iota beta.
  change (BookFingerprint.total_ratings (flat_fingerprint 1 3) <? RELIABILITY_FLOOR)
    with false.
  cbv iota.
  change (fingerprint_candidates library_db 1 (Some [1]))
    with [(Book.mk 2 None, flat_fingerprint 2 4);
          (Book.mk 3 None, flat_fingerprint 3 3);
          (Book.mk 4 None, flat_fingerprint 4 5);
          (Book.mk 5 None, flat_fingerprint 5 12)].
  cbn [map fst snd].
  change (BookFingerprint.fingerprint_vector (flat_fingerprint 2 4))
    with (BookFingerprint.fingerprint_vector (flat_fingerprint 1 3)).
  change (BookFingerprint.fingerprint_vector (flat_fingerprint 3 3))
    with (BookFingerprint.fingerprint_vector (flat_fingerprint 1 3)).
  change (BookFingerprint.fingerprint_vector (flat_fingerprint 4 5))
    with (BookFingerprint.fingerprint_vector (flat_fingerprint 1 3)).
  change (BookFingerprint.fingerprint_vector (flat_fingerprint 5 12))
    with (BookFingerprint.fingerprint_vector (flat_fingerprint 1 3)).
  set (c := cosine_value _ _).
  unfold sort_by_similarity; rewrite (sort_desc_tied snd Rltb).
  - eexists; split; [reflexivity|]; split; reflexivity.
  - intros x y Hx Hy; apply Rltb_false.
    assert (Hc : forall z, In z [(Book.mk 2 None, c); (Book.mk 3 None, c);
                                 (Book.mk 4 None, c); (Book.mk 5 None, c)] ->
                           snd z = c).
    { intros z Hz; simpl in Hz; intuition (subst; reflexivity). }
    rewrite (Hc x Hx), (Hc y Hy); lra.
Qed.

(** User 11 has rated nothing: the list is filled from the popularity
    fallback, here book 5 with its 12 ratings. *)
Example fallback_recommendations :
  get_personalized_recommendations library_db 11 2 true
  = Ok [mk_recommendation (Book.mk 5 None) (HighlyRated (Some (4 # 1)%Q))
          (7 # 10)%Q].
Proof. reflexivity. Qed.


(* ================================================================== *)
(** * More on cosine similarity *)

Lemma fold_left_Rplus (l : list R) (a : R) :
  fold_left Rplus l a = (a + sum_R l)%R.
Proof.
  unfold sum_R; revert a; induction l as [|x l IH]; intros a; cbn [fold_left].
  - lra.
  - rewrite IH, (IH (0 + x)%R); lra.
Qed.

Lemma sum_R_cons (x : R) (l : list R) : sum_R (x :: l) = (x + sum_R l)%R.
Proof.
  unfold sum_R at 1; cbn [fold_left]; rewrite fold_left_Rplus; lra.
Qed.

Lemma dot_cons (x y : R) (a b : list R) :
  dot (x :: a) (y :: b) = (x * y + dot a b)%R.
Proof. unfold dot; cbn [combine map fst snd]; apply sum_R_cons. Qed.

Lemma dot_comm (a b : list R) : dot a b = dot b a.
Proof.
  revert b; induction a as [|x a IH]; intros [|y b]; try reflexivity.
  rewrite !dot_cons, IH; lra.
Qed.

Lemma sum_squares_nonneg (v : list R) :
  (0 <= sum_R (map (fun a => (a * a)%R) v))%R.
Proof.
  induction v as [|x v IH]; cbn [map].
  - unfold sum_R; simpl; lra.
  - rewrite sum_R_cons; nra.
Qed.

Lemma magnitude_nonneg (v : list R) : (0 <= magnitude v)%R.
Proof. unfold magnitude; apply sqrt_pos. Qed.

Lemma sum_squares_zero (v : list R) :
  sum_R (map (fun a => (a * a)%R) v) = 0%R <-> Forall (fun x => x = 0%R) v.
Proof.
  induction v as [|x v IH]; cbn [map].
  - split; [constructor | reflexivity].
  - rewrite sum_R_cons.
    pose proof (sum_squares_nonneg v) as Hv.
    split.
    + intros H.
      assert (Hx : (x * x = 0)%R) by nra.
      constructor; [nra | apply IH; nra].
    + intros H; inversion H as [|? ? Hx Hrest]; subst.
      apply IH in Hrest; rewrite Hrest; lra.
Qed.

Lemma magnitude_zero (v : list R) :
  magnitude v = 0%R <-> Forall (fun x => x = 0%R) v.
Proof.
  rewrite <- sum_squares_zero; unfold magnitude; split.
  - apply sqrt_eq_0, sum_squares_nonneg.
  - intros ->; apply sqrt_0.
Qed.

(** The similarity does not depend on the order of its two arguments, the
    mismatch error included. *)
Theorem cosine_similarity_symmetric (vec1 vec2 : list R) :
  cosine_similarity vec1 vec2 = cosine_similarity vec2 vec1.
Proof.
  unfold cosine_similarity.
  rewrite (Nat.eqb_sym (length vec2) (length vec1)).
  destruct (length vec1 =? length vec2)%nat; cbn [negb]; [|reflexivity].
  rewrite (dot_comm vec2 vec1), (orb_comm (Reqb (magnitude vec2) 0)),
    (Rmult_comm (magnitude vec2)).
  reflexivity.
Qed.

(* ================================================================== *)
(** * Averages stay in the rating range *)

Lemma total_Q_bounds (xs : list Q) (lo hi : Q) :
  Forall (fun x => (lo <= x)%Q /\ (x <= hi)%Q) xs ->
  (lo * len_Q xs <= total_Q xs)%Q /\ (total_Q xs <= hi * len_Q xs)%Q.
Proof.
  induction 1 as [|x xs [Hlo Hhi] _ [IHlo IHhi]].
  - change (len_Q (@nil Q)) with (0 # 1)%Q; cbn [total_Q fold_right].
    split; Lqa.lra.
  - assert (Hlen : (len_Q (x :: xs) == 1 + len_Q xs)%Q).
    { unfold len_Q; cbn [length]; rewrite Nat2Z.inj_succ, <- Z.add_1_l.
      now rewrite inject_Z_plus. }
    cbn [total_Q fold_right]; fold (total_Q xs).
    rewrite Hlen; split; Lqa.lra.
Qed.

Lemma mean_in_bounds (xs : list Q) (m : option Q) (lo hi q : Q) :
  Forall (fun x => (lo <= x)%Q /\ (x <= hi)%Q) xs ->
  is_mean_of xs m -> m = Some q -> (lo <= q)%Q /\ (q <= hi)%Q.
Proof.
  intros Hall Hmean ->.
  destruct xs as [|x xs]; [discriminate|].
  destruct Hmean as [q' [[= <-] Hq]].
  destruct (total_Q_bounds _ lo hi Hall) as [Hlo Hhi].
  assert (Hpos : (0 < len_Q (x :: xs))%Q).
  { unfold len_Q, Qlt, inject_Z; cbn [Qnum Qden length]; lia. }
  rewrite <- Hq in Hlo, Hhi.
  split; Lqa.nra.
Qed.

Lemma non_null_In {A : Type} (l : list (option A)) (a : A) :
  In a (non_null l) <-> In (Some a) l.
Proof.
  induction l as [|[x|] l IH]; cbn [non_null In].
  - tauto.
  - rewrite IH; split; intros [H|H]; auto; left; congruence.
  - rewrite IH; split; [auto | intros [H|H]; [discriminate | exact H]].
Qed.

Lemma dimension_values_in_range (d : dimension)
  (rows : list MultiDimensionalRating.t) :
  (forall r, In r rows -> rating_in_range r) ->
  Forall (fun x => (1 # 1 <= x)%Q /\ (x <= 5 # 1)%Q) (dimension_values d rows).
Proof.
  intros Hrows; apply Forall_forall; intros x Hx.
  unfold dimension_values in Hx.
  apply in_map_iff in Hx; destruct Hx as [z [<- Hz]].
  apply non_null_In, in_map_iff in Hz; destruct Hz as [r [Hget Hr]].
  destruct (Hrows r Hr d z Hget) as [Hlo Hhi].
  unfold Qle, inject_Z; cbn [Qnum Qden]; lia.
Qed.

(** The one-number summary of a rating, under the range constraints of the
    table: it is null exactly when no dimension is set, and otherwise lies
    between 1 and 5. *)
Theorem rating_star_equivalent_range (r : MultiDimensionalRating.t) :
  rating_in_range r ->
  match MultiDimensionalRating.star_equivalent r with
  | Some q => in_rating_range q
              /\ exists d z, MultiDimensionalRating.get d r = Some z
  | None => forall d, MultiDimensionalRating.get d r = None
  end.
Proof.
  intros Hrange.
  unfold MultiDimensionalRating.star_equivalent.
  set (dims := [MultiDimensionalRating.pace r;
                MultiDimensionalRating.emotional_impact r;
                MultiDimensionalRating.complexity r;
                MultiDimensionalRating.character_development r;
                MultiDimensionalRating.plot_quality r;
                MultiDimensionalRating.prose_style r;
                MultiDimensionalRating.originality r]).
  assert (Hdims : dims = map (fun d => MultiDimensionalRating.get d r)
                           all_dimensions) by reflexivity.
  destruct (non_null dims) as [|z zs] eqn:Hnn.
  - intros d.
    destruct (MultiDimensionalRating.get d r) as [z|] eqn:Hget; [|reflexivity].
    assert (Hin : In z (non_null dims)).
    { apply non_null_In; rewrite Hdims.
      apply in_map_iff; exists d; split;
        [exact Hget | apply all_dimensions_complete]. }
    rewrite Hnn in Hin; destruct Hin.
  - split.
    + assert (Hall : Forall (fun x => (1 # 1 <= x)%Q /\ (x <= 5 # 1)%Q)
                       (map inject_Z (z :: zs))).
      { apply Forall_forall; intros x Hx.
        apply in_map_iff in Hx; destruct Hx as [y [<- Hy]].
        rewrite <- Hnn in Hy; apply non_null_In in Hy.
        rewrite Hdims in Hy; apply in_map_iff in Hy.
        destruct Hy as [d [Hget _]].
        destruct (Hrange d y Hget) as [Hlo Hhi].
        unfold Qle, inject_Z; cbn [Qnum Qden]; lia. }
      eapply mean_in_bounds; [exact Hall | | reflexivity].
      unfold is_mean_of; cbn [map].
      eexists; split; [reflexivity|].
      change (inject_Z z :: map inject_Z zs) with (map inject_Z (z :: zs)).
      rewrite len_Q_map, <- inject_sum_Z.
      rewrite Qmult_comm; apply Qmult_div_r, len_Q_cons_nonzero.
    + assert (Hin : In (Some z) dims).
      { apply non_null_In; rewrite Hnn; now left. }
      rewrite Hdims in Hin; apply in_map_iff in Hin.
      destruct Hin as [d [Hget _]]; now exists d, z.
Qed.

Lemma demo_rating_1_in_range : rating_in_range demo_rating_1.
Proof.
  intros d z; destruct d; cbn; intros H; inversion H; subst; lia.
Defined.

Lemma rating_star_equivalent_range_witness :
  match MultiDimensionalRating.star_equivalent demo_rating_1 with
  | Some q => in_rating_range q
              /\ exists d z, MultiDimensionalRating.get d demo_rating_1 = Some z
  | None => forall d, MultiDimensionalRating.get d demo_rating_1 = None
  end.
Proof.
  apply (rating_star_equivalent_range demo_rating_1 demo_rating_1_in_range).
Defined.

(** Under the range constraints of the ratings table, the recompute stores
    averages between 1 and 5: each dimension average that is not null, and
    [star_equivalent] when it is not null. *)
Theorem fingerprint_averages_in_range (now : Z) (db : database) (book_id : Z) :
  (forall r, In r (ratings_of_book db book_id) -> rating_in_range r) ->
  let fp := snd (update_book_fingerprint now db book_id) in
  (forall (d : dimension) (q : Q),
      BookFingerprint.avg d fp = Some q -> in_rating_range q)
  /\ (forall q : Q,
         BookFingerprint.star_equivalent fp = Some q -> in_rating_range q).
Proof.
  intros Hrange fp.
  destruct (update_book_fingerprint_aggregate now db book_id)
    as [Havg [Hstar _]]; fold fp in Havg, Hstar.
  assert (Hdim : forall d q, BookFingerprint.avg d fp = Some q ->
                             in_rating_range q).
  { intros d q Hq.
    eapply mean_in_bounds;
      [apply (dimension_values_in_range d), Hrange | apply Havg | exact Hq]. }
  split; [exact Hdim|].
  intros q Hq.
  eapply mean_in_bounds; [|exact Hstar | exact Hq].
  apply Forall_forall; intros x Hx.
  unfold dimension_means in Hx; apply non_null_In, in_map_iff in Hx.
  destruct Hx as [d [Hd _]]; exact (Hdim d x Hd).
Qed.

Lemma fingerprint_averages_in_range_witness :
  in_rating_range (14 # 3)%Q /\ in_rating_range (26 # 6)%Q.
Proof.
  assert (Hrows : forall r, In r (ratings_of_book demo_db 1) -> rating_in_range r).
  { intros r [<-|[<-|[<-|[]]]] d z; destruct d; cbn; intros H;
      inversion H; subst; lia. }
  destruct (fingerprint_averages_in_range 7 demo_db 1 Hrows) as [Hdim Hstar].
  split; [exact (Hdim Pace _ eq_refl) | exact (Hstar _ eq_refl)].
Defined.

(* ================================================================== *)
(** * Fingerprint vectors *)

Lemma or_else_Q_nonzero (o : option Q) : ~ (or_else_Q o (3 # 1) == 0)%Q.
Proof.
  unfold or_else_Q; destruct o as [q|]; [|discriminate].
  destruct (Qeq_bool q (0 # 1)) eqn:Hq; [discriminate|].
  intros H0; apply Qeq_bool_iff in H0; congruence.
Qed.

Lemma Q2R_nonzero (q : Q) : ~ (q == 0)%Q -> Q2R q <> 0%R.
Proof.
  intros Hq H0; apply Hq, Qreals.eqR_Qeq.
  now rewrite H0, RMicromega.Q2R_0.
Qed.

Lemma fingerprint_vector_nonzero (fp : BookFingerprint.t) :
  Forall (fun x => x <> 0%R) (BookFingerprint.fingerprint_vector fp).
Proof.
  unfold BookFingerprint.fingerprint_vector.
  repeat constructor; apply Q2R_nonzero, or_else_Q_nonzero.
Qed.

(** A fingerprint vector has 7 entries and none of them is zero, since a
    null or zero average is filled with 3.0; so any two fingerprints can be
    compared: [cosine_similarity] returns a score for their vectors and never
    raises its [ValueError]. *)
Theorem fingerprint_vector_comparable (fp1 fp2 : BookFingerprint.t) :
  let v1 := BookFingerprint.fingerprint_vector fp1 in
  let v2 := BookFingerprint.fingerprint_vector fp2 in
  length v1 = 7%nat
  /\ Forall (fun x => x <> 0%R) v1
  /\ exists r : R, cosine_similarity v1 v2 = Ok r.
Proof.
  intros v1 v2.
  split; [reflexivity|].
  split; [apply fingerprint_vector_nonzero|].
  rewrite cosine_similarity_same_length by reflexivity.
  eexists; reflexivity.
Qed.

(* ================================================================== *)
(** * What the recompute leaves alone *)

Lemma find_map_other {A : Type} (p q : A -> bool) (new : A) (l : list A) :
  (forall x, q x = true -> p x = false) ->
  p new = false ->
  find p (map (fun y => if q y then new else y) l) = find p l.
Proof.
  intros Hqp Hnew; induction l as [|y l IH]; [reflexivity|].
  cbn [map find].
  destruct (q y) eqn:Hq.
  - rewrite Hnew, (Hqp y Hq); exact IH.
  - destruct (p y); [reflexivity | exact IH].
Qed.

Lemma find_app_other {A : Type} (p : A -> bool) (new : A) (l : list A) :
  p new = false -> find p (l ++ [new]) = find p l.
Proof.
  intros Hnew; induction l as [|y l IH]; cbn [app find].
  - now rewrite Hnew.
  - destruct (p y); [reflexivity | exact IH].
Qed.

Lemma update_book_fingerprint_other (now : Z) (db : database)
  (book_id other : Z) :
  other <> book_id ->
  get_fingerprint (fst (update_book_fingerprint now db book_id)) other
  = get_fingerprint db other.
Proof.
  intros Hne; unfold update_book_fingerprint.
  destruct (get_fingerprint db book_id);
    unfold get_fingerprint; cbn [fst set_fingerprints book_fingerprints].
  - apply (find_map_other (fun fp => BookFingerprint.book_id fp =? other)
             (fun fp => BookFingerprint.book_id fp =? book_id)).
    + intros fp Hfp; apply Z.eqb_eq in Hfp; apply Z.eqb_neq; congruence.
    + cbn; apply Z.eqb_neq; congruence.
  - apply find_app_other; cbn; apply Z.eqb_neq; congruence.
Qed.


Lemma map_replace_same_key {A K : Type} (key : A -> K) (q : A -> bool)
  (new : A) (l : list A) :
  (forall x, q x = true -> key x = key new) ->
  map key (map (fun y => if q y then new else y) l) = map key l.
Proof.
  intros Hq; induction l as [|y l IH]; [reflexivity|].
  cbn [map]; rewrite IH; f_equal.
  destruct (q y) eqn:Hy; [symmetry; auto | reflexivity].
Qed.

Lemma update_book_fingerprint_key (now : Z) (db : database) (book_id : Z) :
  fingerprint_key_unique db ->
  fingerprint_key_unique (fst (update_book_fingerprint now db book_id)).
Proof.
  unfold fingerprint_key_unique, update_book_fingerprint; intros Hkey.
  destruct (get_fingerprint db book_id) as [old|] eqn:Hget;
    cbn [fst set_fingerprints book_fingerprints].
  - rewrite map_replace_same_key; [exact Hkey|].
    intros fp Hfp; now apply Z.eqb_eq in Hfp.
  - rewrite map_app; apply NoDup_app; [exact Hkey | repeat constructor; intros [] |].
    intros id Hid [<-|[]].
    apply in_map_iff in Hid; destruct Hid as [fp [Hfp Hin]].
    unfold get_fingerprint in Hget.
    pose proof (find_none _ _ Hget fp Hin) as Hno; cbn in Hno.
    apply Z.eqb_neq in Hno; contradiction.
Qed.

(** The recompute of one book writes that book's fingerprint row and nothing
    else: the books, library and ratings tables are as they were, the
    fingerprint of every other book reads as before, and the fingerprint
    table keeps one row per book, growing by one row only when the book had
    none. *)
Theorem update_book_fingerprint_frame (now : Z) (db : database) (book_id : Z) :
  let db' := fst (update_book_fingerprint now db book_id) in
  books db' = books db
  /\ user_books db' = user_books db
  /\ multi_dimensional_ratings db' = multi_dimensional_ratings db
  /\ (forall other : Z,
         other <> book_id -> get_fingerprint db' other = get_fingerprint db other)
  /\ (fingerprint_key_unique db -> fingerprint_key_unique db')
  /\ length (book_fingerprints db')
     = match get_fingerprint db book_id with
       | Some _ => length (book_fingerprints db)
       | None => S (length (book_fingerprints db))
       end.
Proof.
  intros db'; subst db'.
  split; [|split; [|split; [|split; [|split]]]].
  - unfold update_book_fingerprint; now destruct (get_fingerprint db book_id).
  - unfold update_book_fingerprint; now destruct (get_fingerprint db book_id).
  - apply update_book_fingerprint_ratings.
  - intros other; apply update_book_fingerprint_other.
  - apply update_book_fingerprint_key.
  - unfold update_book_fingerprint.
    destruct (get_fingerprint db book_id);
      cbn [fst set_fingerprints book_fingerprints].
    + apply length_map.
    + rewrite length_app; cbn [length]; lia.
Qed.

Lemma update_book_fingerprint_frame_witness :
  get_fingerprint (fst (update_book_fingerprint 60 tie_db 2)) 3
  = get_fingerprint tie_db 3
  /\ fingerprint_key_unique (fst (update_book_fingerprint 60 tie_db 2)).
Proof.
  destruct (update_book_fingerprint_frame 60 tie_db 2)
    as [_ [_ [_ [Hother [Hkey _]]]]].
  split; [apply Hother; lia|].
  apply Hkey; unfold fingerprint_key_unique; simpl.
  repeat (constructor; [simpl; intuition discriminate|]); constructor.
Defined.

(* ================================================================== *)
(** * Rating writes *)

Lemma create_or_update_rating_steps (now : Z) (db : database)
  (rating_data : MultiDimensionalRatingCreate) (current_user : Z) (b : Book.t) :
  get_book db (rc_book_id rating_data) = Some b ->
  create_or_update_rating now db rating_data current_user
  = Ok (fst (update_book_fingerprint now
               (fst (upsert_rating now db rating_data current_user))
               (rc_book_id rating_data)),
        snd (upsert_rating now db rating_data current_user)).
Proof.
  intros Hbook; unfold create_or_update_rating, upsert_rating; rewrite Hbook.
  destruct (get_rating db current_user (rc_book_id rating_data));
    cbv zeta; cbn [fst snd];
    match goal with
    | |- context [update_book_fingerprint ?n ?d ?k] =>
        destruct (update_book_fingerprint n d k)
    end; reflexivity.
Qed.

Lemma create_or_update_rating_missing_book (now : Z) (db : database)
  (rating_data : MultiDimensionalRatingCreate) (current_user : Z) :
  get_book db (rc_book_id rating_data) = None ->
  create_or_update_rating now db rating_data current_user
  = Raise (HTTPException 404 "Book not found").
Proof. intros H; unfold create_or_update_rating; now rewrite H. Qed.

Lemma delete_rating_steps (now : Z) (db : database) (book_id current_user : Z)
  (rating : MultiDimensionalRating.t) :
  get_rating db current_user book_id = Some rating ->
  delete_rating now db book_id current_user
  = Ok (fst (update_book_fingerprint now (remove_rating db rating) book_id)).
Proof.
  intros Hr; unfold delete_rating, remove_rating; rewrite Hr.
  match goal with
  | |- context [update_book_fingerprint ?n ?d ?k] =>
      destruct (update_book_fingerprint n d k)
  end; reflexivity.
Qed.

Lemma get_rating_found (db : database) (user_id book_id : Z)
  (r : MultiDimensionalRating.t) :
  get_rating db user_id book_id = Some r ->
  In r (multi_dimensional_ratings db)
  /\ MultiDimensionalRating.user_id r = user_id
  /\ MultiDimensionalRating.book_id r = book_id.
Proof.
  unfold get_rating; intros H; apply find_some in H.
  destruct H as [Hin Hp]; apply andb_true_iff in Hp.
  destruct Hp as [Hu Hb]; apply Z.eqb_eq in Hu, Hb; auto.
Qed.

Lemma get_rating_missing (db : database) (user_id book_id : Z)
  (r : MultiDimensionalRating.t) :
  get_rating db user_id book_id = None ->
  In r (multi_dimensional_ratings db) ->
  user_book_key r <> (user_id, book_id).
Proof.
  unfold get_rating; intros H Hin Hkey.
  pose proof (find_none _ _ H r Hin) as Hno; cbn in Hno.
  unfold user_book_key in Hkey; injection Hkey as Hu Hb.
  rewrite Hu, Hb, !Z.eqb_refl in Hno; discriminate.
Qed.

Lemma NoDup_map_inj {A K : Type} (key : A -> K) (l : list A) (x y : A) :
  NoDup (map key l) -> In x l -> In y l -> key x = key y -> x = y.
Proof.
  induction l as [|a l IH]; cbn [map]; [intros _ []|].
  intros Hnd Hx Hy Hkey; inversion Hnd as [|? ? Ha Hl]; subst.
  destruct Hx as [->|Hx], Hy as [->|Hy]; auto.
  - exfalso; apply Ha; rewrite Hkey; now apply in_map.
  - exfalso; apply Ha; rewrite <- Hkey; now apply in_map.
Qed.

Lemma updated_rating_identity (now : Z)
  (rating_data : MultiDimensionalRatingCreate)
  (existing : MultiDimensionalRating.t) :
  identity_columns
    (MultiDimensionalRating.set_updated_at now
       (setattr_all (model_dump_exclude_unset rating_data) existing))
  = identity_columns existing.
Proof.
  rewrite <- (setattr_all_identity rating_data all_dimensions existing).
  reflexivity.
Qed.

Lemma next_rating_id_fresh (db : database) (r : MultiDimensionalRating.t) :
  In r (multi_dimensional_ratings db) ->
  MultiDimensionalRating.id r < next_rating_id db.
Proof.
  unfold next_rating_id.
  induction (multi_dimensional_ratings db) as [|x l IH]; [intros []|].
  cbn [map fold_right]; intros [->|Hin]; [lia|].
  specialize (IH Hin); lia.
Qed.


Lemma upsert_rating_key (now : Z) (db : database)
  (rating_data : MultiDimensionalRatingCreate) (current_user : Z) :
  user_book_key (snd (upsert_rating now db rating_data current_user))
  = (current_user, rc_book_id rating_data).
Proof.
  unfold upsert_rating.
  destruct (get_rating db current_user (rc_book_id rating_data)) as [existing|]
    eqn:Hget; cbv zeta; cbn [snd]; [|reflexivity].
  apply get_rating_found in Hget; destruct Hget as [_ [Hu Hb]].
  pose proof (updated_rating_identity now rating_data existing) as Hid.
  unfold identity_columns in Hid; injection Hid as _ Hu' Hb' _.
  unfold user_book_key; f_equal;
    [rewrite <- Hu; exact Hu' | rewrite <- Hb; exact Hb'].
Qed.




Lemma remove_rating_rows (db : database) (rating r : MultiDimensionalRating.t) :
  In r (multi_dimensional_ratings (remove_rating db rating)) <->
  In r (multi_dimensional_ratings db)
  /\ MultiDimensionalRating.id r <> MultiDimensionalRating.id rating.
Proof.
  unfold remove_rating; cbn [set_ratings multi_dimensional_ratings].
  now rewrite filter_In, negb_true_iff, Z.eqb_neq.
Qed.


(* ------------------------------------------------------------------ *)
(** ** How many ratings a write leaves *)











(* ------------------------------------------------------------------ *)
(** ** The fingerprint table as a cache *)








(* ================================================================== *)
(** * Keys of the ratings table *)

Lemma map_replace_same_key_in {A K : Type} (key : A -> K) (q : A -> bool)
  (new : A) (l : list A) :
  (forall x, In x l -> q x = true -> key x = key new) ->
  map key (map (fun y => if q y then new else y) l) = map key l.
Proof.
  intros Hq; induction l as [|y l IH]; [reflexivity|].
  cbn [map]; rewrite IH by (intros; apply Hq; [now right | assumption]).
  f_equal; destruct (q y) eqn:Hy; [|reflexivity].
  symmetry; apply Hq; [now left | exact Hy].
Qed.

Lemma upsert_rating_keys (now : Z) (db : database)
  (rating_data : MultiDimensionalRatingCreate) (current_user : Z) :
  rating_keys_unique db ->
  rating_keys_unique (fst (upsert_rating now db rating_data current_user)).
Proof.
  intros [Hids Hkeys]; unfold rating_keys_unique.
  pose proof (upsert_rating_key now db rating_data current_user) as Hkey.
  unfold upsert_rating in *.
  destruct (get_rating db current_user (rc_book_id rating_data)) as [existing|]
    eqn:Hget; cbv zeta in *;
    cbn [fst snd set_ratings multi_dimensional_ratings] in *.
  - pose proof (updated_rating_identity now rating_data existing) as Hid.
    unfold identity_columns in Hid; injection Hid as Hid _ _ _.
    apply get_rating_found in Hget; destruct Hget as [Hin [Hu Hb]].
    assert (Hsame : forall r, In r (multi_dimensional_ratings db) ->
              (MultiDimensionalRating.id r =? MultiDimensionalRating.id existing)
              = true -> r = existing).
    { intros r Hr Heq; apply Z.eqb_eq in Heq.
      now apply (NoDup_map_inj MultiDimensionalRating.id
                   (multi_dimensional_ratings db)). }
    split.
    + rewrite map_replace_same_key_in; [exact Hids|].
      intros r Hr Heq; rewrite (Hsame r Hr Heq); symmetry; exact Hid.
    + rewrite map_replace_same_key_in; [exact Hkeys|].
      intros r Hr Heq; rewrite (Hsame r Hr Heq), Hkey.
      unfold user_book_key; congruence.
  - split; rewrite map_app; cbn [map].
    + apply NoDup_app; [exact Hids | repeat constructor; intros [] |].
      intros id Hid [<-|[]].
      apply in_map_iff in Hid; destruct Hid as [r [Hr Hin]].
      pose proof (next_rating_id_fresh db r Hin) as Hfresh.
      cbn [MultiDimensionalRating.id] in Hr; lia.
    + apply NoDup_app; [exact Hkeys | repeat constructor; intros [] |].
      intros key Hin [<-|[]].
      apply in_map_iff in Hin; destruct Hin as [r [Hr Hin]].
      now apply (get_rating_missing db current_user (rc_book_id rating_data) r).
Qed.

Lemma remove_rating_keys (db : database) (rating : MultiDimensionalRating.t) :
  rating_keys_unique db -> rating_keys_unique (remove_rating db rating).
Proof.
  intros [Hids Hkeys]; unfold rating_keys_unique, remove_rating.
  cbn [set_ratings multi_dimensional_ratings].
  split; now apply filter_keeps_distinct_keys.
Qed.

Lemma update_book_fingerprint_rating_keys (now : Z) (db : database)
  (book_id : Z) :
  rating_keys_unique db ->
  rating_keys_unique (fst (update_book_fingerprint now db book_id)).
Proof.
  unfold rating_keys_unique; now rewrite update_book_fingerprint_ratings.
Qed.

(** The keys of the ratings table survive the router's writes: rating ids stay
    distinct and no user ever holds two ratings of one book, after a create or
    update and after a delete. *)
Theorem rating_writes_keep_keys_unique :
  (forall (now : Z) (db : database)
      (rating_data : MultiDimensionalRatingCreate) (current_user : Z)
      (b : Book.t),
      rating_keys_unique db ->
      get_book db (rc_book_id rating_data) = Some b ->
      exists db' rating,
        create_or_update_rating now db rating_data current_user
        = Ok (db', rating)
        /\ rating_keys_unique db')
  /\ (forall (now : Z) (db : database) (book_id current_user : Z)
        (rating : MultiDimensionalRating.t),
        rating_keys_unique db ->
        get_rating db current_user book_id = Some rating ->
        exists db',
          delete_rating now db book_id current_user = Ok db'
          /\ rating_keys_unique db').
Proof.
  split.
  - intros now db rating_data current_user b Hkeys Hbook.
    rewrite (create_or_update_rating_steps _ _ _ _ _ Hbook).
    do 2 eexists; split; [reflexivity|].
    now apply update_book_fingerprint_rating_keys, upsert_rating_keys.
  - intros now db book_id current_user rating Hkeys Hrating.
    rewrite (delete_rating_steps _ _ _ _ _ Hrating).
    eexists; split; [reflexivity|].
    now apply update_book_fingerprint_rating_keys, remove_rating_keys.
Qed.

Lemma rated_db_keys : rating_keys_unique rated_db.
Proof.
  split; simpl; repeat (constructor; [simpl; intuition discriminate|]);
    constructor.
Defined.

Lemma rating_writes_keep_keys_unique_witness :
  (exists db' rating,
      create_or_update_rating 8 rated_db demo_request 10 = Ok (db', rating)
      /\ rating_keys_unique db')
  /\ (exists db',
         delete_rating 9 rated_db 1 10 = Ok db' /\ rating_keys_unique db').
Proof.
  destruct rating_writes_keep_keys_unique as [Hwrite Hdelete].
  split.
  - apply (Hwrite 8 rated_db demo_request 10 (Book.mk 1 None) rated_db_keys).
    reflexivity.
  - apply (Hdelete 9 rated_db 1 10 demo_rating_1 rated_db_keys); reflexivity.
Defined.

(* ================================================================== *)
(** * Reading back what was written *)

Lemma find_map_replace_hit {A : Type} (p q : A -> bool) (new e : A)
  (l : list A) :
  find p l = Some e -> q e = true -> p new = true ->
  find p (map (fun y => if q y then new else y) l) = Some new.
Proof.
  intros Hfind Hq Hnew; induction l as [|y l IH]; [discriminate|].
  cbn [map find] in *.
  destruct (q y) eqn:Hy; [now rewrite Hnew|].
  destruct (p y) eqn:Hp; [|auto].
  injection Hfind as ->; congruence.
Qed.

Lemma upsert_rating_lookup (now : Z) (db : database)
  (rating_data : MultiDimensionalRatingCreate) (current_user : Z) :
  get_rating (fst (upsert_rating now db rating_data current_user))
    current_user (rc_book_id rating_data)
  = Some (snd (upsert_rating now db rating_data current_user)).
Proof.
  pose proof (upsert_rating_key now db rating_data current_user) as Hkey.
  unfold user_book_key in Hkey; injection Hkey as Hu Hb.
  assert (Hmatch :
            (MultiDimensionalRating.user_id
               (snd (upsert_rating now db rating_data current_user))
             =? current_user)
            && (MultiDimensionalRating.book_id
                  (snd (upsert_rating now db rating_data current_user))
                =? rc_book_id rating_data) = true).
  { now rewrite Hu, Hb, !Z.eqb_refl. }
  clear Hu Hb; unfold upsert_rating in *.
  destruct (get_rating db current_user (rc_book_id rating_data)) as [existing|]
    eqn:Hget; cbv zeta in *; cbn [fst snd] in *;
    unfold get_rating in *; cbn [set_ratings multi_dimensional_ratings].
  - eapply (find_map_replace_hit
              (fun r => (MultiDimensionalRating.user_id r =? current_user)
                        && (MultiDimensionalRating.book_id r
                            =? rc_book_id rating_data)));
      [exact Hget | apply Z.eqb_refl | exact Hmatch].
  - apply (find_app_new
             (fun r => (MultiDimensionalRating.user_id r =? current_user)
                       && (MultiDimensionalRating.book_id r
                           =? rc_book_id rating_data)));
      [exact Hmatch | exact Hget].
Qed.

Lemma get_rating_after_recompute (now : Z) (db : database)
  (book_id user b : Z) :
  get_rating (fst (update_book_fingerprint now db book_id)) user b
  = get_rating db user b.
Proof.
  unfold get_rating; now rewrite update_book_fingerprint_ratings.
Qed.

Lemma get_book_after_recompute (now : Z) (db : database) (book_id b : Z) :
  get_book (fst (update_book_fingerprint now db book_id)) b = get_book db b.
Proof.
  unfold get_book, update_book_fingerprint.
  now destruct (get_fingerprint db book_id).
Qed.

(** A rating that was just submitted reads back: for a book that exists the
    upsert succeeds, and [get_user_rating] of the same user and book then
    returns the very rating the upsert returned, which belongs to that user
    and book.  For a book that does not exist the upsert is refused with 404
    "Book not found". *)
Theorem rating_reads_back (now : Z) (db : database)
  (rating_data : MultiDimensionalRatingCreate) (current_user : Z) :
  (forall b : Book.t,
      get_book db (rc_book_id rating_data) = Some b ->
      exists db' rating,
        create_or_update_rating now db rating_data current_user
        = Ok (db', rating)
        /\ get_user_rating db' (rc_book_id rating_data) current_user
           = Ok rating
        /\ MultiDimensionalRating.user_id rating = current_user
        /\ MultiDimensionalRating.book_id rating = rc_book_id rating_data)
  /\ (get_book db (rc_book_id rating_data) = None ->
      create_or_update_rating now db rating_data current_user
      = Raise (HTTPException 404 "Book not found")).
Proof.
  split; [|apply create_or_update_rating_missing_book].
  intros b Hbook.
  rewrite (create_or_update_rating_steps _ _ _ _ _ Hbook).
  do 2 eexists; split; [reflexivity|].
  pose proof (upsert_rating_key now db rating_data current_user) as Hkey.
  unfold user_book_key in Hkey; injection Hkey as Hu Hb.
  split; [|split; [exact Hu | exact Hb]].
  unfold get_user_rating.
  now rewrite get_rating_after_recompute, upsert_rating_lookup.
Qed.

Lemma rating_reads_back_witness :
  (exists db' rating,
      create_or_update_rating 8 demo_db first_request 13 = Ok (db', rating)
      /\ get_user_rating db' 1 13 = Ok rating
      /\ MultiDimensionalRating.user_id rating = 13
      /\ MultiDimensionalRating.book_id rating = 1)
  /\ create_or_update_rating 8 empty_database first_request 13
     = Raise (HTTPException 404 "Book not found").
Proof.
  destruct (rating_reads_back 8 demo_db first_request 13) as [Hok _].
  destruct (rating_reads_back 8 empty_database first_request 13) as [_ Hmiss].
  split; [apply (Hok (Book.mk 1 None)) | apply Hmiss]; reflexivity.
Defined.

(** A first rating: when the user has no rating of the book yet, the upsert
    appends one row and leaves the others as they are; the new row has a
    fresh id, the user and book of the request, every dimension as the
    request gives it and null where the request omits it, the clock reading
    as [created_at] and no [updated_at]. *)
Theorem first_rating_is_inserted (now : Z) (db : database)
  (rating_data : MultiDimensionalRatingCreate) (current_user : Z) (b : Book.t) :
  get_book db (rc_book_id rating_data) = Some b ->
  get_rating db current_user (rc_book_id rating_data) = None ->
  exists db' rating,
    create_or_update_rating now db rating_data current_user = Ok (db', rating)
    /\ multi_dimensional_ratings db' = multi_dimensional_ratings db ++ [rating]
    /\ ~ In (MultiDimensionalRating.id rating)
          (map MultiDimensionalRating.id (multi_dimensional_ratings db))
    /\ (forall d : dimension,
           MultiDimensionalRating.get d rating
           = match rc_dimension rating_data d with
             | Unset => None
             | Set_ v => v
             end)
    /\ MultiDimensionalRating.created_at rating = now
    /\ MultiDimensionalRating.updated_at rating = None.
Proof.
  intros Hbook Hnone.
  rewrite (create_or_update_rating_steps _ _ _ _ _ Hbook).
  do 2 eexists; split; [reflexivity|].
  rewrite update_book_fingerprint_ratings.
  unfold upsert_rating; rewrite Hnone; cbv zeta.
  cbn [fst snd set_ratings multi_dimensional_ratings].
  split; [reflexivity|]; split; [|split; [|split; reflexivity]].
  - cbn [MultiDimensionalRating.id]; intros Hin.
    apply in_map_iff in Hin; destruct Hin as [r [Hr Hin]].
    pose proof (next_rating_id_fresh db r Hin); lia.
  - intros d; destruct d; reflexivity.
Qed.

Lemma first_rating_is_inserted_witness :
  exists db' rating,
    create_or_update_rating 8 demo_db first_request 13 = Ok (db', rating)
    /\ multi_dimensional_ratings db'
       = multi_dimensional_ratings demo_db ++ [rating]
    /\ MultiDimensionalRating.pace rating = Some 3
    /\ MultiDimensionalRating.complexity rating = None.
Proof.
  destruct (first_rating_is_inserted 8 demo_db first_request 13
              (Book.mk 1 None) eq_refl eq_refl)
    as [db' [rating [Hrun [Hrows [_ [Hdims _]]]]]].
  exists db', rating; split; [exact Hrun|]; split; [exact Hrows|].
  split; [exact (Hdims Pace) | exact (Hdims Complexity)].
Defined.

Lemma find_none_all {A : Type} (p : A -> bool) (l : list A) :
  (forall x, In x l -> p x = false) -> find p l = None.
Proof.
  induction l as [|y l IH]; [reflexivity|]; intros H; cbn [find].
  rewrite (H y (or_introl eq_refl)); apply IH; intros; apply H; now right.
Qed.

Lemma filter_swap {A : Type} (p q : A -> bool) (l : list A) :
  filter p (filter q l) = filter q (filter p l).
Proof.
  induction l as [|y l IH]; [reflexivity|].
  cbn [filter]; destruct (q y) eqn:Hq, (p y) eqn:Hp; cbn [filter];
    rewrite ?Hq, ?Hp, IH; reflexivity.
Qed.

(** A deleted rating is gone: with the keys of the ratings table in force,
    deleting the user's rating of a book succeeds, removes that row and no
    other, and a later [get_user_rating] of the same user and book answers
    404.  Deleting where there is no rating answers 404 "Rating not found". *)
Theorem deleted_rating_is_gone (now : Z) (db : database)
  (book_id current_user : Z) :
  (forall rating : MultiDimensionalRating.t,
      rating_keys_unique db ->
      get_rating db current_user book_id = Some rating ->
      exists db',
        delete_rating now db book_id current_user = Ok db'
        /\ get_user_rating db' book_id current_user
           = Raise (HTTPException 404 "Rating not found")
        /\ (forall r, In r (multi_dimensional_ratings db') <->
                      In r (multi_dimensional_ratings db) /\ r <> rating))
  /\ (get_rating db current_user book_id = None ->
      delete_rating now db book_id current_user
      = Raise (HTTPException 404 "Rating not found")).
Proof.
  split.
  - intros rating [Hids Hkeys] Hrating.
    rewrite (delete_rating_steps _ _ _ _ _ Hrating).
    eexists; split; [reflexivity|].
    apply get_rating_found in Hrating; destruct Hrating as [Hin [Hu Hb]].
    assert (Hrows : forall r,
               In r (multi_dimensional_ratings (remove_rating db rating)) <->
               In r (multi_dimensional_ratings db) /\ r <> rating).
    { intros r; rewrite remove_rating_rows; split; intros [Hr Hne];
        (split; [exact Hr|]).
      - intros ->; now apply Hne.
      - intros Hid; apply Hne.
        now apply (NoDup_map_inj MultiDimensionalRating.id
                     (multi_dimensional_ratings db)). }
    split.
    + unfold get_user_rating; rewrite get_rating_after_recompute.
      unfold get_rating; rewrite find_none_all; [reflexivity|].
      intros r Hr; apply Hrows in Hr; destruct Hr as [Hr Hne].
      destruct ((MultiDimensionalRating.user_id r =? current_user)
                && (MultiDimensionalRating.book_id r =? book_id)) eqn:Hm;
        [|reflexivity].
      apply andb_true_iff in Hm; destruct Hm as [Hru Hrb].
      apply Z.eqb_eq in Hru, Hrb.
      exfalso; apply Hne.
      apply (NoDup_map_inj user_book_key (multi_dimensional_ratings db));
        auto.
      unfold user_book_key; congruence.
    + intros r; rewrite update_book_fingerprint_ratings; apply Hrows.
  - intros Hnone; unfold delete_rating; now rewrite Hnone.
Qed.

Lemma deleted_rating_is_gone_witness :
  (exists db',
      delete_rating 9 rated_db 1 10 = Ok db'
      /\ get_user_rating db' 1 10
         = Raise (HTTPException 404 "Rating not found"))
  /\ delete_rating 9 rated_db 2 10
     = Raise (HTTPException 404 "Rating not found").
Proof.
  destruct (deleted_rating_is_gone 9 rated_db 1 10) as [Hok _].
  destruct (deleted_rating_is_gone 9 rated_db 2 10) as [_ Hmiss].
  split; [|apply Hmiss; reflexivity].
  destruct (Hok demo_rating_1 rated_db_keys eq_refl) as [db' [H1 [H2 _]]].
  exists db'; auto.
Defined.




(** Deleting the only rating of a book resets its fingerprint: the stored row
    then has zero ratings and every average null, the book has no ratings
    left, and the fingerprint read reports no ratings. *)
Theorem deleting_last_rating_resets_fingerprint (now : Z) (db : database)
  (book_id current_user : Z) (rating : MultiDimensionalRating.t) (b : Book.t) :
  get_book db book_id = Some b ->
  get_rating db current_user book_id = Some rating ->
  ratings_of_book db book_id = [rating] ->
  exists db' fp,
    delete_rating now db book_id current_user = Ok db'
    /\ ratings_of_book db' book_id = []
    /\ get_book_fingerprint db' book_id = Ok (StoredFingerprint fp)
    /\ unrated fp
    /\ has_ratings fp = false.
Proof.
  intros Hbook Hrating Honly.
  rewrite (delete_rating_steps _ _ _ _ _ Hrating).
  assert (Hempty : ratings_of_book (remove_rating db rating) book_id = []).
  { unfold ratings_of_book, remove_rating in *.
    cbn [set_ratings multi_dimensional_ratings].
    rewrite filter_swap, Honly; cbn [filter].
    now rewrite Z.eqb_refl. }
  assert (Hbook' : get_book (remove_rating db rating) book_id = Some b)
    by exact Hbook.
  pose proof (update_book_fingerprint_aggregate now (remove_rating db rating)
                book_id) as Hagg.
  rewrite Hempty in Hagg.
  do 2 eexists; split; [reflexivity|].
  split; [|split; [|split]].
  - unfold ratings_of_book in *; now rewrite update_book_fingerprint_ratings.
  - unfold get_book_fingerprint.
    now rewrite get_book_after_recompute, Hbook',
      update_book_fingerprint_stored.
  - now apply aggregate_of_nil.
  - destruct Hagg as [_ [_ Htotal]]; unfold has_ratings.
    now rewrite Htotal.
Qed.

Lemma deleting_last_rating_resets_fingerprint_witness :
  exists db' fp,
    delete_rating 9 (mk_database [Book.mk 1 None] [] [demo_rating_1] []) 1 10
    = Ok db'
    /\ get_book_fingerprint db' 1 = Ok (StoredFingerprint fp)
    /\ unrated fp.
Proof.
  destruct (deleting_last_rating_resets_fingerprint 9
              (mk_database [Book.mk 1 None] [] [demo_rating_1] []) 1 10
              demo_rating_1 (Book.mk 1 None) eq_refl eq_refl eq_refl)
    as [db' [fp [H1 [_ [H3 [H4 _]]]]]].
  exists db', fp; auto.
Defined.

(* ================================================================== *)
(** * Vectors of ratings and fingerprints in range *)

Lemma sum_R_pos (l : list R) :
  l <> [] -> Forall (fun x => (0 < x)%R) l -> (0 < sum_R l)%R.
Proof.
  intros Hne Hall; destruct l as [|x l]; [contradiction|].
  clear Hne; revert x Hall; induction l as [|y l IH]; intros x Hall;
    inversion Hall as [|? ? Hx Hrest]; subst.
  - rewrite sum_R_cons; unfold sum_R; simpl; lra.
  - rewrite sum_R_cons; specialize (IH y Hrest); lra.
Qed.

Lemma dot_pos (a b : list R) :
  a <> [] -> length a = length b ->
  Forall (fun x => (0 < x)%R) a -> Forall (fun x => (0 < x)%R) b ->
  (0 < dot a b)%R.
Proof.
  intros Hne Hlen Ha Hb; unfold dot; apply sum_R_pos.
  - destruct a as [|x a], b as [|y b]; cbn [combine map];
      [contradiction | contradiction | discriminate Hlen | discriminate].
  - clear Hne; revert b Hlen Hb; induction Ha as [|x a Hx _ IH];
      intros [|y b] Hlen Hb; try discriminate; [constructor|].
    inversion Hb; subst; cbn [combine map fst snd]; constructor.
    + now apply Rmult_lt_0_compat.
    + apply IH; [now injection Hlen | assumption].
Qed.

Lemma fingerprint_entry_in_range (o : option Q) :
  (forall q, o = Some q -> in_rating_range q) ->
  (1 <= Q2R (or_else_Q o (3 # 1)) <= 5)%R.
Proof.
  intros Hrange; unfold or_else_Q.
  assert (H1 : Q2R (1 # 1) = 1%R) by (unfold Q2R; simpl; lra).
  assert (H3 : Q2R (3 # 1) = 3%R) by (unfold Q2R; simpl; lra).
  assert (H5 : Q2R (5 # 1) = 5%R) by (unfold Q2R; simpl; lra).
  destruct o as [q|]; [|rewrite H3; lra].
  destruct (Qeq_bool q (0 # 1)); [rewrite H3; lra|].
  destruct (Hrange q eq_refl) as [Hlo Hhi].
  apply Qreals.Qle_Rle in Hlo, Hhi; lra.
Qed.

(** Fingerprints whose averages lie in the rating range have vectors with
    every entry between 1 and 5, a null average counting as 3; the
    comparison of two such fingerprints returns a strictly positive
    similarity. *)
Theorem fingerprint_similarity_positive (fp1 fp2 : BookFingerprint.t) :
  (forall d q, BookFingerprint.avg d fp1 = Some q -> in_rating_range q) ->
  (forall d q, BookFingerprint.avg d fp2 = Some q -> in_rating_range q) ->
  Forall (fun x => (1 <= x <= 5)%R) (BookFingerprint.fingerprint_vector fp1)
  /\ exists r : R,
      cosine_similarity (BookFingerprint.fingerprint_vector fp1)
        (BookFingerprint.fingerprint_vector fp2) = Ok r
      /\ (0 < r)%R.
Proof.
  intros Hr1 Hr2.
  assert (Hvec : forall fp,
            (forall d q, BookFingerprint.avg d fp = Some q -> in_rating_range q) ->
            Forall (fun x => (1 <= x <= 5)%R)
              (BookFingerprint.fingerprint_vector fp)).
  { intros fp Hr.
    change (BookFingerprint.fingerprint_vector fp)
      with (map (fun d => Q2R (or_else_Q (BookFingerprint.avg d fp) (3 # 1)))
                all_dimensions).
    apply Forall_forall; intros x Hx.
    apply in_map_iff in Hx; destruct Hx as [d [<- _]].
    apply fingerprint_entry_in_range, Hr. }
  split; [now apply Hvec|].
  rewrite cosine_similarity_same_length by reflexivity.
  eexists; split; [reflexivity|].
  assert (Hpos : forall fp,
            (forall d q, BookFingerprint.avg d fp = Some q -> in_rating_range q) ->
            Forall (fun x => (0 < x)%R) (BookFingerprint.fingerprint_vector fp)).
  { intros fp Hr; eapply Forall_impl; [|apply (Hvec fp Hr)].
    intros x Hx; cbv beta in Hx; lra. }
  assert (Hmag : forall fp,
            (0 < magnitude (BookFingerprint.fingerprint_vector fp))%R).
  { intros fp.
    pose proof (magnitude_nonneg (BookFingerprint.fingerprint_vector fp)) as Hn.
    destruct (Req_dec_T (magnitude (BookFingerprint.fingerprint_vector fp)) 0)
      as [H0|H0]; [|lra].
    apply magnitude_zero in H0.
    unfold BookFingerprint.fingerprint_vector in H0.
    inversion H0 as [|x l Hx _]; subst.
    exfalso; revert Hx; apply Q2R_nonzero, or_else_Q_nonzero. }
  unfold cosine_value.
  pose proof (Hmag fp1) as Hm1; pose proof (Hmag fp2) as Hm2.
  replace (Reqb (magnitude (BookFingerprint.fingerprint_vector fp1)) 0)
    with false by (symmetry; apply Reqb_false; lra).
  replace (Reqb (magnitude (BookFingerprint.fingerprint_vector fp2)) 0)
    with false by (symmetry; apply Reqb_false; lra).
  cbn [orb]; apply Rdiv_lt_0_compat; [|now apply Rmult_lt_0_compat].
  apply dot_pos; [discriminate | reflexivity | now apply Hpos | now apply Hpos].
Qed.

Lemma flat_fingerprint_in_range (book_id total : Z) :
  forall d q,
    BookFingerprint.avg d (flat_fingerprint book_id total) = Some q ->
    in_rating_range q.
Proof.
  intros d q; destruct d; cbn; intros H; inversion H; subst;
    split; unfold Qle; cbn; lia.
Defined.

Lemma fingerprint_similarity_positive_witness :
  exists r : R,
    cosine_similarity
      (BookFingerprint.fingerprint_vector (flat_fingerprint 1 3))
      (BookFingerprint.fingerprint_vector (flat_fingerprint 2 3)) = Ok r
    /\ (0 < r)%R.
Proof.
  apply (fingerprint_similarity_positive (flat_fingerprint 1 3)
           (flat_fingerprint 2 3)
           (flat_fingerprint_in_range 1 3) (flat_fingerprint_in_range 2 3)).
Defined.

Lemma rating_entry_in_range (v : option Z) :
  (forall z, v = Some z -> 1 <= z <= 5) ->
  (1 <= rating_entry v <= 5)%R
  /\ (v = None -> rating_entry v = 3%R)
  /\ (forall z, v = Some z -> rating_entry v = IZR z).
Proof.
  intros Hrange; unfold rating_entry.
  destruct v as [z|]; [|repeat split; try lra; intros; discriminate].
  destruct (Hrange z eq_refl) as [Hlo Hhi].
  replace (z =? 0) with false by (symmetry; apply Z.eqb_neq; lia).
  repeat split.
  - now apply (IZR_le 1 z).
  - now apply (IZR_le z 5).
  - discriminate.
  - now intros ? [= <-].
Qed.

(** The vector of a rating within the range constraints: 7 entries between 1
    and 5, the rating of each dimension that is set and 3.0 for each one that
    is not; so it can be compared with any book fingerprint:
    [cosine_similarity] returns a score for the two vectors. *)
Theorem rating_vector_in_range (r : MultiDimensionalRating.t)
  (fp : BookFingerprint.t) :
  rating_in_range r ->
  length (rating_fingerprint_vector r) = 7%nat
  /\ rating_fingerprint_vector r
     = map (fun d => match MultiDimensionalRating.get d r with
                     | Some z => IZR z
                     | None => 3%R
                     end)
           all_dimensions
  /\ Forall (fun x => (1 <= x <= 5)%R) (rating_fingerprint_vector r)
  /\ exists s : R,
      cosine_similarity (rating_fingerprint_vector r)
        (BookFingerprint.fingerprint_vector fp) = Ok s.
Proof.
  intros Hrange.
  assert (Hentry : forall d,
            (1 <= rating_entry (MultiDimensionalRating.get d r) <= 5)%R
            /\ rating_entry (MultiDimensionalRating.get d r)
               = match MultiDimensionalRating.get d r with
                 | Some z => IZR z
                 | None => 3%R
                 end).
  { intros d.
    destruct (rating_entry_in_range (MultiDimensionalRating.get d r)
                (Hrange d)) as [Hb [Hnone Hsome]].
    split; [exact Hb|].
    destruct (MultiDimensionalRating.get d r); [now apply Hsome | now apply Hnone]. }
  split; [reflexivity|].
  assert (Hmap : rating_fingerprint_vector r
                 = map (fun d => rating_entry (MultiDimensionalRating.get d r))
                       all_dimensions) by reflexivity.
  split; [|split].
  - rewrite Hmap; apply map_ext; intros d; apply Hentry.
  - rewrite Hmap; apply Forall_forall; intros x Hx.
    apply in_map_iff in Hx; destruct Hx as [d [<- _]]; apply Hentry.
  - rewrite cosine_similarity_same_length by reflexivity.
    eexists; reflexivity.
Qed.

Lemma rating_vector_in_range_witness :
  rating_fingerprint_vector demo_rating_1
  = [5%R; 4%R; 3%R; 3%R; 3%R; 3%R; 3%R].
Proof.
  destruct (rating_vector_in_range demo_rating_1 (flat_fingerprint 1 3)
              demo_rating_1_in_range) as [_ [Hvec _]].
  exact Hvec.
Defined.

(* ================================================================== *)
(** * Radar chart data *)

(** The chart of a rating has the seven dimensions in a fixed order, each
    with the rating's value and 0 for a dimension that is not set.
    [get_radar_chart_data] returns that chart when the requesting user has
    rated the book.  In every other case it returns no chart: an unknown book
    answers 404, and for a known book the fallback hands the fingerprint
    object of the ORM to [from_rating], which reads it as a rating and raises
    [AttributeError]. *)
Theorem radar_chart_only_for_own_rating (db : database) (book_id : Z)
  (current_user : option Z) :
  (forall (user : Z) (r : MultiDimensionalRating.t),
      current_user = Some user ->
      get_rating db user book_id = Some r ->
      exists chart : list (string * Q),
        get_radar_chart_data db book_id current_user = Ok chart
        /\ map fst chart
           = ["Pace"; "Emotion"; "Complexity"; "Character"; "Plot"; "Prose";
              "Originality"]%string
        /\ map snd chart
           = map (fun d => match MultiDimensionalRating.get d r with
                           | Some z => inject_Z z
                           | None => (0 # 1)%Q
                           end)
                 all_dimensions)
  /\ ((current_user = None
       \/ exists user, current_user = Some user
                       /\ get_rating db user book_id = None) ->
      (get_book db book_id = None ->
       get_radar_chart_data db book_id current_user
       = Raise (HTTPException 404 "Book not found"))
      /\ (forall b : Book.t,
             get_book db book_id = Some b ->
             get_radar_chart_data db book_id current_user
             = Raise (AttributeError "pace"))).
Proof.
  unfold get_radar_chart_data; split.
  - intros user r -> ->; cbn [from_rating].
    eexists; split; [reflexivity|]; split.
    + reflexivity.
    + rewrite map_map; apply map_ext; intros d; cbn [snd].
      now destruct (MultiDimensionalRating.get d r).
  - intros Hnone.
    assert (Hlookup : match current_user with
                      | Some user => get_rating db user book_id
                      | None => None
                      end = None).
    { destruct Hnone as [->|[user [-> Hr]]]; [reflexivity | exact Hr]. }
    rewrite Hlookup; unfold get_book_fingerprint; split.
    + now intros ->.
    + intros b ->; now destruct (get_fingerprint db book_id).
Qed.

Lemma radar_chart_only_for_own_rating_witness :
  (exists chart : list (string * Q),
      get_radar_chart_data rated_db 1 (Some 10) = Ok chart
      /\ map snd chart
         = [(5 # 1)%Q; (4 # 1)%Q; (0 # 1)%Q; (0 # 1)%Q; (0 # 1)%Q; (0 # 1)%Q;
            (0 # 1)%Q])
  /\ get_radar_chart_data rated_db 1 None = Raise (AttributeError "pace")
  /\ get_radar_chart_data rated_db 1 (Some 13) = Raise (AttributeError "pace")
  /\ get_radar_chart_data rated_db 7 None
     = Raise (HTTPException 404 "Book not found").
Proof.
  split; [|split; [|split]].
  - destruct (radar_chart_only_for_own_rating rated_db 1 (Some 10)) as [Hown _].
    destruct (Hown 10 demo_rating_1 eq_refl eq_refl) as [chart [H1 [_ H3]]].
    exists chart; split; [exact H1 | exact H3].
  - destruct (radar_chart_only_for_own_rating rated_db 1 None) as [_ Hnone].
    apply (proj2 (Hnone (or_introl eq_refl)) (Book.mk 1 None)); reflexivity.
  - destruct (radar_chart_only_for_own_rating rated_db 1 (Some 13))
      as [_ Hnone].
    refine (proj2 (Hnone (or_intror (ex_intro _ 13 (conj eq_refl eq_refl))))
              (Book.mk 1 None) eq_refl).
  - destruct (radar_chart_only_for_own_rating rated_db 7 None) as [_ Hnone].
    apply (proj1 (Hnone (or_introl eq_refl))); reflexivity.
Defined.

(* ================================================================== *)
(** * Similarity by embedding *)

Lemma embedding_loop_mismatch (target : list R) (candidates : list Book.t)
  (acc : list (Book.t * R)) :
  forallb
    (fun b => match truthy_embedding (Book.description_embedding b) with
              | Some e => (length e =? length target)%nat
              | None => true
              end)
    candidates = false ->
  for_each
    (fun acc book =>
       match truthy_embedding (Book.description_embedding book) with
       | Some embedding =>
           similarity <- cosine_similarity target embedding ;;
           Ok (acc ++ [(book, similarity)])
       | None => Ok acc
       end)
    candidates acc
  = Raise (ValueError "Vectors must have same dimension").
Proof.
  revert acc; induction candidates as [|b candidates IH]; intros acc Hall;
    cbn [for_each forallb] in *; [discriminate|].
  destruct (truthy_embedding (Book.description_embedding b)) as [e|].
  - destruct (length e =? length target)%nat eqn:Hlen.
    + apply Nat.eqb_eq in Hlen.
      rewrite cosine_similarity_same_length by (symmetry; exact Hlen).
      cbn [bind]; apply IH; exact Hall.
    + unfold cosine_similarity.
      rewrite Nat.eqb_sym, Hlen; reflexivity.
  - cbn [bind]; apply IH; exact Hall.
Qed.

Lemma embedding_candidates_In (db : database) (book_id : Z)
  (exclude_book_ids : option (list Z)) (b : Book.t) :
  In b (embedding_candidates db book_id exclude_book_ids) ->
  In b (books db)
  /\ Book.id b <> book_id
  /\ not_excluded exclude_book_ids (Book.id b).
Proof.
  unfold embedding_candidates, sql_limit; intros H.
  apply In_firstn, where_not_excluded_In in H; destruct H as [H Hexcl].
  apply filter_In in H; destruct H as [Hin Hid].
  apply negb_true_iff, Z.eqb_neq in Hid; auto.
Qed.

Lemma embedding_pool_length (db : database) (book_id : Z)
  (exclude_book_ids : option (list Z)) :
  (length (embedding_pool db book_id exclude_book_ids) <= 100)%nat.
Proof.
  unfold embedding_pool.
  destruct (target_embedding db book_id) as [target|]; [|cbn; lia].
  assert (Hcand : (length (embedding_candidates db book_id exclude_book_ids)
                   <= 100)%nat).
  { unfold embedding_candidates, sql_limit; apply firstn_le_length. }
  revert Hcand.
  generalize (embedding_candidates db book_id exclude_book_ids) as l.
  intros l; generalize 100%nat as n; induction l as [|b l IH]; intros n Hn;
    cbn [flat_map length] in *; [lia|].
  rewrite length_app.
  destruct n as [|n]; [lia|].
  specialize (IH n ltac:(lia)).
  destruct (truthy_embedding (Book.description_embedding b)); cbn [length]; lia.
Qed.

Lemma take_books_length (limit : Z) (ranked : list (Book.t * R)) :
  (length (take_books limit ranked) <= length ranked)%nat
  /\ (0 <= limit -> Z.of_nat (length (take_books limit ranked)) <= limit).
Proof.
  unfold take_books; rewrite length_map; split.
  - unfold py_slice_to; destruct (0 <=? limit); rewrite length_firstn; lia.
  - apply py_slice_to_length.
Qed.

(** The embedding search: for a book that is unknown or has no embedding it
    returns the empty list.  When the candidates' embeddings have the length
    of the target's, it returns at most 100 books and at most [limit], each a
    book of the table other than the target, outside the exclusion list, and
    with an embedding of its own.  When some scored candidate's embedding has
    another length, the search raises the [ValueError] of
    [cosine_similarity]. *)
Theorem embedding_similarity_results (db : database) (book_id limit : Z)
  (exclude_book_ids : option (list Z)) :
  (target_embedding db book_id = None ->
   get_similar_books_by_embedding db book_id limit exclude_book_ids = Ok [])
  /\ (embeddings_match_target db book_id exclude_book_ids = true ->
      exists similar : list Book.t,
        get_similar_books_by_embedding db book_id limit exclude_book_ids
        = Ok similar
        /\ (length similar <= 100)%nat
        /\ (0 <= limit -> Z.of_nat (length similar) <= limit)
        /\ Forall
             (fun b => In b (books db)
                       /\ Book.id b <> book_id
                       /\ not_excluded exclude_book_ids (Book.id b)
                       /\ exists e, Book.description_embedding b = Some e
                                    /\ e <> [])
             similar)
  /\ (embeddings_match_target db book_id exclude_book_ids = false ->
      get_similar_books_by_embedding db book_id limit exclude_book_ids
      = Raise (ValueError "Vectors must have same dimension")).
Proof.
  split; [|split].
  - intros Hnone; unfold get_similar_books_by_embedding, ranked_by_embedding.
    rewrite Hnone; cbn [bind]; now rewrite take_books_nil.
  - intros Hmatch; unfold get_similar_books_by_embedding.
    rewrite ranked_by_embedding_pool by exact Hmatch; cbn [bind].
    eexists; split; [reflexivity|].
    destruct (take_books_length limit
                (sort_by_similarity
                   (embedding_pool db book_id exclude_book_ids)))
      as [Hlen Hlimit].
    split; [|split; [exact Hlimit|]].
    + unfold sort_by_similarity in Hlen at 2.
      rewrite <- (Permutation_length
                    (sort_desc_perm snd Rltb
                       (embedding_pool db book_id exclude_book_ids))) in Hlen.
      pose proof (embedding_pool_length db book_id exclude_book_ids); lia.
    + apply Forall_forall; intros b Hb.
      apply take_books_In in Hb; destruct Hb as [s Hb].
      apply (proj1 (sort_desc_In snd Rltb _ _)) in Hb.
      unfold embedding_pool in Hb.
      destruct (target_embedding db book_id) as [target|]; [|destruct Hb].
      apply in_flat_map in Hb; destruct Hb as [b' [Hcand Hb]].
      destruct (truthy_embedding (Book.description_embedding b')) as [e|] eqn:He;
        [|destruct Hb].
      destruct Hb as [[= -> _]|[]].
      apply embedding_candidates_In in Hcand.
      destruct Hcand as [Hin [Hid Hexcl]].
      repeat split; try assumption.
      unfold truthy_embedding in He.
      destruct (Book.description_embedding b) as [[|x xs]|]; try discriminate.
      eexists; split; [reflexivity | discriminate].
  - intros Hmatch; unfold get_similar_books_by_embedding, ranked_by_embedding.
    unfold embeddings_match_target in Hmatch.
    destruct (target_embedding db book_id) as [target|]; [|discriminate].
    now rewrite embedding_loop_mismatch.
Qed.

Lemma embedding_similarity_results_witness :
  get_similar_books_by_embedding embedded_db 4 5 None = Ok []
  /\ (exists similar : list Book.t,
         get_similar_books_by_embedding embedded_db 1 1 None = Ok similar
         /\ Z.of_nat (length similar) <= 1)
  /\ get_similar_books_by_embedding
       (mk_database [Book.mk 1 (Some [1%R; 0%R]); Book.mk 2 (Some [1%R])]
          [] [] [])
       1 5 None
     = Raise (ValueError "Vectors must have same dimension").
Proof.
  split; [|split].
  - apply (embedding_similarity_results embedded_db 4 5 None); reflexivity.
  - destruct (embedding_similarity_results embedded_db 1 1 None)
      as [_ [Hok _]].
    destruct (Hok eq_refl) as [similar [H1 [_ [H3 _]]]].
    exists similar; split; [exact H1 | apply H3; lia].
  - apply (embedding_similarity_results
             (mk_database [Book.mk 1 (Some [1%R; 0%R]); Book.mk 2 (Some [1%R])]
                [] [] [])
             1 5 None); reflexivity.
Defined.

(* ================================================================== *)
(** * The order and origin of recommendations *)

Lemma sort_desc_sorted_id {A K : Type} (key : A -> K) (ltb : K -> K -> bool)
  (l : list A) :
  StronglySorted (fun x y => ltb (key x) (key y) = false) l ->
  sort_desc key ltb l = l.
Proof.
  induction 1 as [|x l _ IH Hx]; [reflexivity|].
  cbn [sort_desc]; rewrite IH.
  destruct l as [|y l]; [reflexivity|].
  cbn [insert_desc]; inversion Hx as [|? ? Hy _]; subst.
  now rewrite Hy.
Qed.

Lemma scores_sorted (A B : list recommendation) :
  Forall (fun r => score r = (9 # 10)%Q) A ->
  Forall (fun r => score r = (7 # 10)%Q) B ->
  StronglySorted (fun x y => Qltb (score x) (score y) = false) (A ++ B).
Proof.
  intros HA HB; induction HA as [|x A Hx HA IH]; cbn [app].
  - induction HB as [|y B Hy HB IH]; [constructor|].
    constructor; [exact IH|].
    eapply Forall_impl; [|exact HB].
    intros z Hz; cbv beta in *; now rewrite Hy, Hz.
  - constructor; [exact IH|].
    apply Forall_app; split.
    + eapply Forall_impl; [|exact HA].
      intros z Hz; cbv beta in *; now rewrite Hx, Hz.
    + eapply Forall_impl; [|exact HB].
      intros z Hz; cbv beta in *; now rewrite Hx, Hz.
Qed.

Lemma ranked_fingerprint_books (db : database) (book_id limit : Z)
  (exclude_book_ids : option (list Z)) :
  Forall
    (fun b => In b (books db)
              /\ has_reliable_fingerprint db RELIABILITY_FLOOR b)
    (take_books limit
       (sort_by_similarity (fingerprint_pool db book_id exclude_book_ids))).
Proof.
  apply Forall_forall; intros b Hb.
  apply take_books_In in Hb; destruct Hb as [s Hb].
  apply (proj1 (sort_desc_In snd Rltb _ _)) in Hb.
  unfold fingerprint_pool in Hb.
  destruct (get_fingerprint db book_id) as [target_fp|]; [|destruct Hb].
  destruct (BookFingerprint.total_ratings target_fp <? RELIABILITY_FLOOR);
    [destruct Hb|].
  apply in_map_iff in Hb; destruct Hb as [[b' fp] [Heq Hrow]].
  cbn [fst snd] in Heq; injection Heq as -> _.
  apply fingerprint_candidates_In in Hrow; cbn [fst snd] in Hrow.
  destruct Hrow as [Hjoin [_ [Hfloor _]]].
  apply books_join_fingerprints_In in Hjoin; cbn [fst snd] in Hjoin.
  destruct Hjoin as [Hbook [Hfp Hid]].
  split; [exact Hbook | now exists fp].
Qed.

Lemma fold_add_similar_entries (db : database) (similar : list Book.t)
  (st : planner_state) :
  Forall
    (fun b => In b (books db)
              /\ has_reliable_fingerprint db RELIABILITY_FLOOR b)
    similar ->
  Forall (similar_feel_entry db) (fst st) ->
  Forall (similar_feel_entry db) (fst (fold_left add_similar similar st)).
Proof.
  intros Hsim; revert st; induction Hsim as [|b similar [Hb Hfp] _ IH];
    intros st Hst; cbn [fold_left]; [exact Hst|].
  apply IH; unfold add_similar.
  destruct (negb (mem (Book.id b) (snd st))); [|exact Hst].
  cbn [fst]; apply Forall_app; split; [exact Hst|].
  repeat constructor; assumption.
Qed.

Lemma strategy_one_entries (db : database) (favorites : list Z)
  (st : planner_state) :
  Forall (similar_feel_entry db) (fst st) ->
  exists st' : planner_state,
    for_each (similar_to_favorite db) favorites st = Ok st'
    /\ Forall (similar_feel_entry db) (fst st').
Proof.
  revert st; induction favorites as [|book_id favorites IH]; intros st Hst;
    cbn [for_each].
  - exists st; split; [reflexivity | exact Hst].
  - unfold similar_to_favorite at 1, get_similar_books_by_fingerprint.
    rewrite ranked_by_fingerprint_pool; cbn [bind].
    apply IH, fold_add_similar_entries; [apply ranked_fingerprint_books | exact Hst].
Qed.

Lemma popular_books_entries (db : database) (exclude_ids : list Z) (n : Z) :
  Forall (highly_rated_entry db)
    (map popular_entry (popular_books db exclude_ids n)).
Proof.
  apply Forall_forall; intros r Hr.
  apply in_map_iff in Hr; destruct Hr as [[b fp] [<- Hrow]].
  unfold popular_books, sql_limit in Hrow.
  apply In_firstn in Hrow.
  apply (proj1 (sort_desc_In _ Z.ltb _ _)) in Hrow.
  apply filter_In in Hrow; destruct Hrow as [Hjoin Hp]; cbn [fst snd] in Hp.
  apply andb_true_iff in Hp; destruct Hp as [Hp _].
  apply andb_true_iff in Hp; destruct Hp as [Htotal Hstar].
  apply Z.leb_le in Htotal.
  split; [reflexivity|].
  exists fp; cbn [popular_entry book reason fst snd].
  split; [exact Hjoin|]; split; [reflexivity|]; split; [exact Htotal|].
  unfold sql_ge in Hstar.
  destruct (BookFingerprint.star_equivalent fp) as [q|]; [|discriminate].
  exists q; split; [reflexivity | now apply Qle_bool_iff].
Qed.

Lemma py_slice_to_prefix {A : Type} (n : Z) (l : list A) :
  exists k : nat, py_slice_to n l = firstn k l.
Proof. unfold py_slice_to; destruct (0 <=? n); eexists; reflexivity. Qed.

(** The planner's list always reads: first the similar-feel entries, at score
    0.9, each a book with a fingerprint over at least 3 ratings; then the
    popularity entries, at score 0.7, each a book with at least 10 ratings
    and a [star_equivalent] of at least 4.0 that the reason quotes.  No
    popularity entry comes before a similar-feel entry. *)
Theorem recommendations_similar_then_popular (db : database)
  (user_id limit : Z) (exclude_read : bool) :
  exists (recs : list recommendation) (n : nat),
    get_personalized_recommendations db user_id limit exclude_read = Ok recs
    /\ Forall (similar_feel_entry db) (firstn n recs)
    /\ Forall (highly_rated_entry db) (skipn n recs).
Proof.
  unfold get_personalized_recommendations.
  destruct (strategy_one_entries db (favorite_book_ids db user_id)
              ([], initial_exclude_ids db user_id exclude_read))
    as [st [Hrun Hsim]]; [constructor|].
  rewrite Hrun; cbn [bind].
  set (popular :=
         if Z.of_nat (length (fst st)) <? limit
         then map popular_entry
                (popular_books db (snd st)
                   (limit - Z.of_nat (length (fst st))))
         else []).
  assert (Hall :
            (if Z.of_nat (length (fst st)) <? limit
             then fst st
                  ++ map (fun row =>
                            mk_recommendation (fst row)
                              (HighlyRated
                                 (BookFingerprint.star_equivalent (snd row)))
                              (7 # 10))
                         (popular_books db (snd st)
                            (limit - Z.of_nat (length (fst st))))
             else fst st)
            = fst st ++ popular).
  { subst popular; destruct (Z.of_nat (length (fst st)) <? limit);
      [reflexivity | now rewrite app_nil_r]. }
  rewrite Hall.
  assert (Hpop : Forall (highly_rated_entry db) popular).
  { subst popular; destruct (Z.of_nat (length (fst st)) <? limit);
      [apply popular_books_entries | constructor]. }
  rewrite sort_desc_sorted_id.
  2:{ apply scores_sorted.
      - eapply Forall_impl; [|exact Hsim]. intros r Hr; apply Hr.
      - eapply Forall_impl; [|exact Hpop]. intros r Hr; apply Hr. }
  destruct (py_slice_to_prefix limit (fst st ++ popular)) as [k Hk].
  rewrite Hk, firstn_app.
  exists (firstn k (fst st) ++ firstn (k - length (fst st)) popular),
    (length (firstn k (fst st))).
  split; [reflexivity|]; split.
  - rewrite firstn_app, firstn_all, Nat.sub_diag, firstn_0, app_nil_r.
    apply Forall_forall; intros r Hr; apply In_firstn in Hr.
    now apply (proj1 (Forall_forall _ _) Hsim).
  - rewrite skipn_app, skipn_all, Nat.sub_diag, skipn_0; cbn [app].
    apply Forall_forall; intros r Hr; apply In_firstn in Hr.
    now apply (proj1 (Forall_forall _ _) Hpop).
Qed.

Lemma StronglySorted_firstn {A : Type} (P : A -> A -> Prop) (n : nat)
  (l : list A) :
  StronglySorted P l -> StronglySorted P (firstn n l).
Proof.
  intros Hs; revert n; induction Hs as [|x l Hs IH Hx]; intros [|n];
    cbn [firstn]; try constructor; [apply IH|].
  apply Forall_forall; intros y Hy; apply In_firstn in Hy.
  now apply (proj1 (Forall_forall _ _) Hx).
Qed.

Lemma popular_books_sorted (db : database) (exclude_ids : list Z) (n : Z) :
  StronglySorted
    (fun x y => BookFingerprint.total_ratings (snd y)
                <= BookFingerprint.total_ratings (snd x))
    (popular_books db exclude_ids n).
Proof.
  unfold popular_books, sql_limit; apply StronglySorted_firstn.
  apply StronglySorted_impl
    with (P := fun x y =>
                 (BookFingerprint.total_ratings (snd x)
                  <? BookFingerprint.total_ratings (snd y)) = false).
  - intros x y H; now apply Z.ltb_ge in H.
  - apply (sort_desc_sorted
             (fun row : Book.t * BookFingerprint.t =>
                BookFingerprint.total_ratings (snd row)) Z.ltb).
    + intros a b H; apply Z.ltb_lt in H; apply Z.ltb_ge; lia.
    + intros a b c H1 H2; apply Z.ltb_ge in H1, H2; apply Z.ltb_ge; lia.
Qed.

Lemma initial_exclude_ids_sound (db : database) (user_id : Z)
  (exclude_read : bool) (id : Z) :
  In id (initial_exclude_ids db user_id exclude_read) ->
  excluded_by_flag db user_id exclude_read id.
Proof.
  unfold initial_exclude_ids, excluded_by_flag, user_books_of.
  destruct exclude_read; intros Hin;
    apply in_map_iff in Hin; destruct Hin as [ub [<- Hub]].
  - apply filter_In in Hub; destruct Hub as [Hin Hu]; apply Z.eqb_eq in Hu.
    exists ub; auto.
  - apply filter_In in Hub; destruct Hub as [Hub Hst].
    apply filter_In in Hub; destruct Hub as [Hin Hu]; apply Z.eqb_eq in Hu.
    exists ub; repeat split; auto.
    right; apply orb_true_iff in Hst.
    destruct Hst as [Hst|Hst]; apply String.eqb_eq in Hst; auto.
Qed.

Lemma StronglySorted_across {A : Type} (P : A -> A -> Prop) (l1 l2 : list A)
  (x y : A) :
  StronglySorted P (l1 ++ l2) -> In x l1 -> In y l2 -> P x y.
Proof.
  induction l1 as [|a l1 IH]; cbn [app]; [intros _ []|].
  intros Hs Hx Hy; inversion Hs as [|? ? Hrest Ha]; subst.
  destruct Hx as [->|Hx]; [|now apply IH].
  apply (proj1 (Forall_forall _ _) Ha), in_or_app; now right.
Qed.

(** The rows of the popularity query, before the limit, are the rows the
    specification names. *)
Lemma popular_candidates (db : database) (user_id : Z) (exclude_read : bool)
  (row : Book.t * BookFingerprint.t) :
  In row
    (sort_desc (fun row => BookFingerprint.total_ratings (snd row)) Z.ltb
       (filter
          (fun row =>
             (10 <=? BookFingerprint.total_ratings (snd row))
             && sql_ge (BookFingerprint.star_equivalent (snd row)) (4 # 1)
             && negb (mem (Book.id (fst row))
                        (initial_exclude_ids db user_id exclude_read)))
          (books_join_fingerprints db)))
  <-> popular_row db user_id exclude_read row.
Proof.
  rewrite (sort_desc_In _ Z.ltb), filter_In, !andb_true_iff, negb_true_iff.
  rewrite Z.leb_le, mem_not_In, books_join_fingerprints_In.
  unfold popular_row, sql_ge; split.
  - intros [[Hb [Hfp Hid]] [[Htotal Hstar] Hexcl]].
    repeat split; auto.
    + destruct (BookFingerprint.star_equivalent (snd row)) as [q|];
        [|discriminate].
      exists q; split; [reflexivity | now apply Qle_bool_iff].
    + intros Hflag; now apply Hexcl, initial_exclude_ids_complete.
  - intros [Hb [Hfp [Hid [Htotal [[q [Hq Hstar]] Hexcl]]]]].
    repeat split; auto.
    + rewrite Hq; now apply Qle_bool_iff.
    + intros Hin; now apply Hexcl, initial_exclude_ids_sound.
Qed.

(** Cold start: for a user who has no rating with a [star_equivalent] of 4.0
    or more, and a limit that is not negative, the list is the popularity
    fallback and nothing else.  Every entry recommends, at score 0.7, a book
    with its fingerprint, at least 10 ratings and a [star_equivalent] of at
    least 4.0 outside the exclusion set of the flag; the entries come by
    descending number of ratings and are at most [limit]; and no such book
    is left out unless the list is full, in which case it has no more
    ratings than any book that is listed. *)
Theorem cold_start_is_popularity (db : database) (user_id limit : Z)
  (exclude_read : bool) :
  loved_ratings db user_id = [] ->
  0 <= limit ->
  exists rows : list (Book.t * BookFingerprint.t),
    get_personalized_recommendations db user_id limit exclude_read
    = Ok (map popular_entry rows)
    /\ Forall (popular_row db user_id exclude_read) rows
    /\ StronglySorted
         (fun x y => BookFingerprint.total_ratings (snd y)
                     <= BookFingerprint.total_ratings (snd x))
         rows
    /\ Z.of_nat (length rows) <= limit
    /\ forall row : Book.t * BookFingerprint.t,
        popular_row db user_id exclude_read row ->
        In row rows
        \/ (Z.of_nat (length rows) = limit
            /\ Forall
                 (fun r => BookFingerprint.total_ratings (snd row)
                           <= BookFingerprint.total_ratings (snd r))
                 rows).
Proof.
  intros Hnone Hlimit.
  set (popular :=
         popular_books db (initial_exclude_ids db user_id exclude_read) limit).
  assert (Hlen : (length popular <= Z.to_nat limit)%nat).
  { subst popular; unfold popular_books, sql_limit; apply firstn_le_length. }
  exists popular.
  split; [|split; [|split; [apply popular_books_sorted|split; [lia|]]]].
  - unfold get_personalized_recommendations, favorite_book_ids.
    rewrite highly_rated_book_ids_loved, Hnone.
    cbn [map py_slice_to for_each bind fst snd length Z.of_nat].
    change (py_slice_to 3 (@nil Z)) with (@nil Z).
    cbn [for_each bind fst snd length Z.of_nat app].
    rewrite Z.sub_0_r.
    destruct (0 <? limit) eqn:Hpos.
    + fold popular; change (fun row : Book.t * BookFingerprint.t =>
                              mk_recommendation (fst row)
                                (HighlyRated
                                   (BookFingerprint.star_equivalent (snd row)))
                                (7 # 10)) with popular_entry.
      rewrite sort_desc_tied.
      * rewrite py_slice_to_nonneg, firstn_all2; [reflexivity | | assumption].
        now rewrite length_map.
      * intros x y Hx Hy.
        apply in_map_iff in Hx; destruct Hx as [? [<- _]].
        apply in_map_iff in Hy; destruct Hy as [? [<- _]].
        reflexivity.
    + assert (limit = 0) by (apply Z.ltb_ge in Hpos; lia); subst limit.
      subst popular; reflexivity.
  - apply Forall_forall; intros row Hrow.
    apply popular_candidates.
    subst popular; unfold popular_books, sql_limit in Hrow.
    now apply In_firstn in Hrow.
  - intros row Hrow; apply popular_candidates in Hrow.
    subst popular; unfold popular_books, sql_limit in *.
    set (sorted := sort_desc _ Z.ltb _) in *.
    rewrite <- (firstn_skipn (Z.to_nat limit) sorted) in Hrow.
    apply in_app_or in Hrow; destruct Hrow as [Hin|Hout]; [now left | right].
    assert (Hfull : (Z.to_nat limit < length sorted)%nat).
    { destruct (Nat.lt_ge_cases (Z.to_nat limit) (length sorted)) as [H|H];
        [exact H|].
      rewrite skipn_all2 in Hout by exact H; destruct Hout. }
    split; [rewrite length_firstn; lia|].
    apply Forall_forall; intros r Hr.
    assert (Hs : StronglySorted
                   (fun x y => BookFingerprint.total_ratings (snd y)
                               <= BookFingerprint.total_ratings (snd x))
                   (firstn (Z.to_nat limit) sorted
                    ++ skipn (Z.to_nat limit) sorted)).
    { rewrite firstn_skipn.
      pose proof (popular_books_sorted db
                    (initial_exclude_ids db user_id exclude_read)
                    (Z.of_nat (length sorted))) as Hall.
      unfold popular_books, sql_limit in Hall; fold sorted in Hall.
      now rewrite Nat2Z.id, firstn_all in Hall. }
    exact (StronglySorted_across _ _ _ r row Hs Hr Hout).
Qed.

Lemma library_db_cold : loved_ratings library_db 11 = [].
Proof. reflexivity. Defined.

Lemma cold_start_is_popularity_witness :
  exists rows : list (Book.t * BookFingerprint.t),
    get_personalized_recommendations library_db 11 2 true
    = Ok (map popular_entry rows)
    /\ Forall (popular_row library_db 11 true) rows.
Proof.
  destruct (cold_start_is_popularity library_db 11 2 true library_db_cold)
    as [rows [H1 [H2 _]]]; [lia|].
  exists rows; auto.
Defined.

(* ================================================================== *)
(** * More on browsing by mood *)

Lemma lower_ascii_idempotent (c : ascii) :
  lower_ascii (lower_ascii c) = lower_ascii c.
Proof. destruct c as [[] [] [] [] [] [] [] []]; reflexivity. Qed.

Lemma lower_idempotent (s : string) : lower (lower s) = lower s.
Proof.
  induction s as [|c s IH]; [reflexivity|].
  cbn [lower]; now rewrite lower_ascii_idempotent, IH.
Qed.

Lemma mood_predicate_unknown (label : string) :
  mood_predicate label = None -> ~ In label mood_labels.
Proof.
  unfold mood_predicate, mood_labels.
  destruct (String.eqb_spec label "comfort"); [discriminate|].
  destruct (String.eqb_spec label "challenge"); [discriminate|].
  destruct (String.eqb_spec label "escape"); [discriminate|].
  destruct (String.eqb_spec label "contemplative"); [discriminate|].
  intros _ [H|[H|[H|[H|[]]]]]; congruence.
Qed.

Lemma get_books_by_mood_query (db : database) (mood : string) (limit : Z) :
  get_books_by_mood db mood limit
  = Ok match mood_predicate (lower mood) with
       | Some predicate => mood_query MOOD_MIN_RATINGS predicate db limit
       | None => []
       end.
Proof.
  destruct (mood_predicate (lower mood)) as [predicate|] eqn:Hpred.
  - destruct (mood_conditions _ _ Hpred) as [f [fs [conditions [Hget [Hmap Hall]]]]].
    unfold get_books_by_mood, mood_query; rewrite Hget, Hmap; cbn [bind].
    do 3 f_equal; apply filter_ext; intros row; apply Hall.
  - unfold get_books_by_mood.
    now rewrite dict_get_mood_filters_unknown
      by now apply mood_predicate_unknown.
Qed.

Lemma mood_query_rows (floor : Z) (predicate : BookFingerprint.t -> bool)
  (db : database) (limit : Z) (b : Book.t) :
  In b (mood_query floor predicate db limit) ->
  exists fp : BookFingerprint.t,
    In (b, fp) (books_join_fingerprints db)
    /\ floor <= BookFingerprint.total_ratings fp
    /\ predicate fp = true.
Proof.
  unfold mood_query, sql_limit; intros Hb.
  apply in_map_iff in Hb; destruct Hb as [[b' fp] [Heq Hrow]].
  cbn [fst] in Heq; subst b'.
  apply In_firstn in Hrow.
  apply filter_In in Hrow; destruct Hrow as [Hrow Hp].
  apply filter_In in Hrow; destruct Hrow as [Hrow Hfloor].
  exists fp; cbn [snd] in *; apply Z.leb_le in Hfloor; auto.
Qed.

(** Browsing by mood ignores letter case: the outcome for a mood string is
    the outcome for its lower-case form.  With a limit that is not negative
    it does not fail: it returns a list of books of the table, of length at
    most [limit]. *)
Theorem mood_query_total_and_caseless (db : database) (mood : string)
  (limit : Z) :
  get_books_by_mood db mood limit = get_books_by_mood db (lower mood) limit
  /\ (0 <= limit ->
      exists found : list Book.t,
        get_books_by_mood db mood limit = Ok found
        /\ Forall (fun b => In b (books db)) found
        /\ Z.of_nat (length found) <= limit).
Proof.
  split; [now rewrite !get_books_by_mood_query, lower_idempotent|].
  intros Hlimit; rewrite get_books_by_mood_query.
  eexists; split; [reflexivity|].
  destruct (mood_predicate (lower mood)) as [predicate|].
  - split.
    + apply Forall_forall; intros b Hb.
      apply mood_query_rows in Hb; destruct Hb as [fp [Hrow _]].
      now apply books_join_fingerprints_In in Hrow.
    + unfold mood_query, sql_limit.
      rewrite length_map, length_firstn; lia.
  - split; [constructor | cbn; lia].
Qed.

Lemma mood_query_total_and_caseless_witness :
  exists found : list Book.t,
    get_books_by_mood cozy_db "COMFORT" 1 = Ok found
    /\ Z.of_nat (length found) <= 1.
Proof.
  destruct (mood_query_total_and_caseless cozy_db "COMFORT" 1)
    as [_ Hfound].
  destruct Hfound as [found [H1 [_ H3]]]; [lia|].
  exists found; split; [exact H1 | exact H3].
Defined.

Lemma joined_fingerprint_unique (db : database) (b1 b2 : Book.t)
  (fp1 fp2 : BookFingerprint.t) :
  fingerprint_key_unique db ->
  In (b1, fp1) (books_join_fingerprints db) ->
  In (b2, fp2) (books_join_fingerprints db) ->
  Book.id b1 = Book.id b2 -> fp1 = fp2.
Proof.
  intros Hkey H1 H2 Hid.
  apply books_join_fingerprints_In in H1, H2; cbn [fst snd] in *.
  destruct H1 as [_ [Hin1 Hid1]], H2 as [_ [Hin2 Hid2]].
  apply (NoDup_map_inj BookFingerprint.book_id (book_fingerprints db));
    auto; congruence.
Qed.

Lemma sql_bounds_exclusive (o : option Q) (lo hi : Q) :
  (lo < hi)%Q -> sql_le o lo = true -> sql_ge o hi = true -> False.
Proof.
  unfold sql_le, sql_ge; destruct o as [q|]; [|discriminate].
  intros Hlt Hle Hge; apply Qle_bool_iff in Hle, Hge.
  Lqa.lra.
Qed.

(** The moods exclude one another in pairs: with one fingerprint row per
    book, no book is both a comfort and a challenge read (complexity at most
    3.0 against at least 4.0), and none is both an escape and a contemplative
    read (pace at least 4.0 against at most 2.5), whatever the limits. *)
Theorem opposite_moods_are_disjoint (db : database) (limit1 limit2 : Z)
  (found1 found2 : list Book.t) (id : Z) :
  fingerprint_key_unique db ->
  (get_books_by_mood db "comfort" limit1 = Ok found1 ->
   get_books_by_mood db "challenge" limit2 = Ok found2 ->
   In id (map Book.id found1) -> ~ In id (map Book.id found2))
  /\ (get_books_by_mood db "escape" limit1 = Ok found1 ->
      get_books_by_mood db "contemplative" limit2 = Ok found2 ->
      In id (map Book.id found1) -> ~ In id (map Book.id found2)).
Proof.
  intros Hkey; rewrite !get_books_by_mood_query.
  split; cbn [lower lower_ascii mood_predicate]; intros [= <-] [= <-] H1 H2;
    apply in_map_iff in H1; destruct H1 as [b1 [Hid1 H1]];
    apply in_map_iff in H2; destruct H2 as [b2 [Hid2 H2]];
    apply mood_query_rows in H1; destruct H1 as [fp1 [Hrow1 [_ Hp1]]];
    apply mood_query_rows in H2; destruct H2 as [fp2 [Hrow2 [_ Hp2]]];
    assert (fp1 = fp2)
      by (eapply joined_fingerprint_unique; eauto; congruence);
    subst fp2;
    apply andb_true_iff in Hp1, Hp2; destruct Hp1 as [Ha1 Hb1], Hp2 as [Ha2 Hb2].
  - eapply (sql_bounds_exclusive _ (3 # 1) (4 # 1)); eauto; reflexivity.
  - eapply (sql_bounds_exclusive _ (5 # 2) (4 # 1)); eauto; reflexivity.
Qed.

Lemma opposite_moods_are_disjoint_witness :
  ~ In 8 (map Book.id [Book.mk 9 None]).
Proof.
  refine (proj1 (opposite_moods_are_disjoint cozy_db 10 10
                   [Book.mk 8 None] [Book.mk 9 None] 8 _) _ _ _).
  - repeat (constructor; [simpl; intuition discriminate|]); constructor.
  - reflexivity.
  - reflexivity.
  - simpl; auto.
Defined.

(* ================================================================== *)
(** * The text that is embedded *)

Lemma lstrip_all_space (s : string) :
  all_space s = true -> lstrip s = EmptyString.
Proof.
  induction s as [|c s IH]; cbn [all_space lstrip]; [reflexivity|].
  intros H; apply andb_true_iff in H; destruct H as [Hc Hs].
  rewrite Hc; exact (IH Hs).
Qed.

Lemma rstrip_keeps_head (c : ascii) (s : string) :
  is_space c = false -> nonempty (rstrip (String c s)) = true.
Proof.
  intros Hc; cbn [rstrip]; rewrite Hc.
  destruct (rstrip s); reflexivity.
Qed.

Lemma strip_blank (s : string) :
  nonempty (strip s) = negb (all_space s).
Proof.
  unfold strip; induction s as [|c s IH]; [reflexivity|].
  cbn [lstrip all_space]; destruct (is_space c) eqn:Hc; cbn [andb].
  - exact IH.
  - apply rstrip_keeps_head, Hc.
Qed.

Lemma generate_embedding_encoded (model : option (string -> result (list R)))
  (text : string) :
  generate_embedding model text
  = if all_space text then None else encoded model text.
Proof.
  unfold generate_embedding, encoded; rewrite strip_blank, negb_involutive.
  destruct text as [|c s]; [reflexivity|].
  cbn [nonempty negb orb]; reflexivity.
Qed.



Lemma append_head (c : ascii) (s t : string) :
  String.append (String c s) t = String c (String.append s t).
Proof. reflexivity. Qed.

Lemma concat_head (c : ascii) (s sep : string) (parts : list string) :
  exists rest, String.concat sep (String c s :: parts) = String c rest.
Proof.
  destruct parts as [|p parts]; cbn [String.concat].
  - exists s; reflexivity.
  - eexists; apply append_head.
Qed.

Lemma book_parts_head (title author : string) (description : option string)
  (genres : option (list string)) (part : string) (parts : list string) :
  book_parts title author description genres = part :: parts ->
  exists c s, part = String c s /\ is_space c = false.
Proof.
  unfold book_parts.
  destruct (nonempty title);
    [intros [= <- _]; eexists _, _; split; reflexivity|].
  destruct (nonempty author);
    [intros [= <- _]; eexists _, _; split; reflexivity|].
  destruct genres as [[|g gs]|]; cbn [app];
    try (intros [= <- _]; eexists _, _; split; reflexivity);
    (destruct description as [d|]; [destruct (nonempty d)|]; try discriminate;
     intros [= <- _]; eexists _, _; split; reflexivity).
Qed.

Lemma book_parts_content (title author : string) (description : option string)
  (genres : option (list string)) :
  has_content title author description genres
  = match book_parts title author description genres with
    | [] => false
    | _ :: _ => true
    end.
Proof.
  unfold has_content, book_parts.
  destruct (nonempty title); [reflexivity|].
  destruct (nonempty author); [reflexivity|].
  destruct genres as [[|g gs]|]; cbn [app orb]; try reflexivity;
    (destruct description as [d|]; [destruct (nonempty d)|]; reflexivity).
Qed.

(** [generate_book_embedding] answers [None] without the model when the
    title and the author are empty and there are neither genres nor a
    description.  In every other case the combined text is not blank, so the
    answer is what the model encodes on the parts joined by [" | "]: [None]
    then means that the model is missing or failed. *)
Theorem generate_book_embedding_text
  (model : option (string -> result (list R))) (title author : string)
  (description : option string) (genres : option (list string)) :
  generate_book_embedding model title author description genres
  = if has_content title author description genres
    then encoded model
           (String.concat " | " (book_parts title author description genres))
    else None.
Proof.
  rewrite book_parts_content; unfold generate_book_embedding.
  destruct (book_parts title author description genres) as [|part parts] eqn:Hp;
    [reflexivity|].
  cbv zeta; rewrite generate_embedding_encoded.
  destruct (book_parts_head _ _ _ _ _ _ Hp) as [c [s [-> Hc]]].
  destruct (concat_head c s " | " parts) as [rest ->].
  cbn [all_space]; rewrite Hc; reflexivity.
Qed.

Lemma length_append_sum (s t : string) :
  String.length (String.append s t) = (String.length s + String.length t)%nat.
Proof. induction s as [|c s IH]; cbn; [reflexivity | rewrite IH; reflexivity]. Qed.

Lemma length_substring_front (n : nat) (s : string) :
  String.length (substring 0 n s) = Nat.min n (String.length s).
Proof.
  revert s; induction n as [|n IH]; intros [|c s]; cbn; try reflexivity.
  f_equal; apply IH.
Qed.

Lemma substring_front_append (n : nat) (s t : string) :
  (n <= String.length s)%nat ->
  substring 0 n (String.append (substring 0 n s) t) = substring 0 n s.
Proof.
  revert s; induction n as [|n IH]; intros [|c s]; cbn; intros Hn;
    try reflexivity; try lia; try (destruct t; reflexivity).
  rewrite IH; [reflexivity | lia].
Qed.

Lemma last_app_single {A : Type} (front : list A) (x d : A) :
  last (front ++ [x]) d = x.
Proof.
  induction front as [|y front IH]; [reflexivity|].
  cbn [app last]; destruct (front ++ [x]) eqn:E; [|exact IH].
  destruct front; discriminate.
Qed.

(** A description is the last part of the text, after its label, and enters
    it shortened: never more than 503 characters, whole when it has at most
    500, and always starting with its own first 500 characters. *)
Theorem description_is_shortened (title author description : string)
  (genres : option (list string)) :
  nonempty description = true ->
  last (book_parts title author (Some description) genres) EmptyString
  = String.append "Description: " (shortened description)
  /\ (String.length (shortened description) <= 503)%nat
  /\ ((String.length description <= 500)%nat ->
      shortened description = description)
  /\ substring 0 500 (shortened description) = substring 0 500 description.
Proof.
  intros Hd; split; [|split; [|split]].
  - unfold book_parts; rewrite Hd, !app_assoc; apply last_app_single.
  - unfold shortened; destruct (Nat.ltb_spec 500 (String.length description)).
    + rewrite length_append_sum, length_substring_front.
      change (String.length "...") with 3%nat; lia.
    + lia.
  - unfold shortened; intros Hle.
    destruct (Nat.ltb_spec 500 (String.length description)); [lia | reflexivity].
  - unfold shortened; destruct (Nat.ltb_spec 500 (String.length description)).
    + apply substring_front_append; lia.
    + reflexivity.
Qed.

Lemma description_is_shortened_witness :
  last (book_parts "Dune" "" (Some "Sand."%string) None) EmptyString
  = String.append "Description: " (shortened "Sand.").
Proof.
  exact (proj1 (description_is_shortened "Dune" "" "Sand." None eq_refl)).
Defined.
